(** * Prosocial matchmaking backend: the matchmaking engine and its collaborators

    A shallow embedding of
    - [src/services/MatchmakingEngine.js]   (the Engine),
    - [src/services/RedisService.js]        (queue, match and status store, locks),
    - [src/services/AIOpponentService.js]   (the AI opponent simulator),
    - [src/services/WebSocketService.js]    (the match-found dispatch),
    - [src/utils/nameUtils.js]              (display names),
    and the properties of the specification that are settled on them.

    Conventions of the embedding.
    - A JavaScript number is written as a rational ([Q]): the text of a
      numeric literal or of a JSON number, or the exact value of a double.
      Arithmetic and comparisons read it as the double nearest to it and
      are those of IEEE 754 binary64 (round to nearest, ties to even), with
      its infinities, NaN and signed zeros: the operations of the Standard
      Library's [SpecFloat] at precision 53 and maximal exponent 1024.
      Integers that count milliseconds are [Z].
    - JavaScript objects used as records of string keyed fields are
      [gmap string JVal]; an object literal is a chain of inserts and the
      spread [{...a, k: v}] is [<[k:=v]> a].
    - [Math.random()], [uuidv4()] and [Date.now()] are read from the world
      (or passed as arguments to the pure services).
    - An [async] method is a computation on the world that returns or
      throws. A call of a method of [RedisService] or [DatabaseService] is
      one step on the store; what other tasks do to the store while the
      caller waits happens between two such steps, and is listed in the
      schedule of the world. Expiry of keys is left out.
    - Each service is a [Module] of the name of its class, so that a method
      keeps its name ([AIOpponentService.createAIMatch] and
      [MatchmakingEngine.createAIMatch]).
    - [JSON.stringify], [JSON.parse], [Number.prototype.toString] and the
      ISO rendering of a date belong to the JavaScript runtime, not to this
      repository: they are the methods of the class [JsRuntime]. *)

From Stdlib Require Import QArith Qabs Qround Qminmax Lqa SpecFloat.
From stdpp Require Import gmap strings list pretty.

Local Open Scope Z_scope.

(** ** JavaScript values *)

#[warnings="-register-all"]
Inductive JVal : Type :=
  | JUndefined
  | JNull
  | JBool (b : bool)
  | JNum (q : Q)
  | JStr (s : string)
  | JObj (fields : gmap string JVal).

Abbreviation JsObject := (gmap string JVal).

(** [obj.k]: a missing property reads as [undefined]. *)
Definition prop (o : JsObject) (k : string) : JVal := default JUndefined (o !! k).

(** JavaScript truthiness ([if (v)], [a || b], [!v]). *)
Definition truthy (v : JVal) : bool :=
  match v with
  | JUndefined | JNull => false
  | JBool b => b
  | JNum q => negb (Qeq_bool q 0)
  | JStr s => negb (String.eqb s EmptyString)
  | JObj _ => true
  end.

(** [a || b] *)
Definition js_or (a b : JVal) : JVal := if truthy a then a else b.

(** Truthiness of a string, and [s || d] on strings. *)
Definition str_truthy (s : string) : bool := negb (String.eqb s EmptyString).
Definition str_or (s d : string) : string := if str_truthy s then s else d.

(** [s.slice(-4)]: the last four characters (the whole string when shorter). *)
Definition slice_last4 (s : string) : string :=
  String.substring (String.length s - 4)%nat 4 s.

(** The built-ins of the runtime the services call. [JSON_parse] returns
    [None] where JavaScript throws a [SyntaxError]. *)
Class JsRuntime := {
  Number_toString : Q -> string;
  JSON_stringify : JVal -> string;
  JSON_parse : string -> option JVal;
  Date_toISOString : Z -> string
}.

(** ** Numbers in arithmetic: IEEE 754 binary64 *)

Abbreviation double := spec_float.

Definition dadd : double -> double -> double := SFadd 53 1024.
Definition dsub : double -> double -> double := SFsub 53 1024.
Definition dmul : double -> double -> double := SFmul 53 1024.
Definition ddiv : double -> double -> double := SFdiv 53 1024.

(** The double nearest to an integer. *)
Definition double_of_Z (z : Z) : double := binary_normalize 53 1024 z 0 false.

(** The double that a number written as a rational denotes: the quotient of
    the numerator and the denominator, rounded once, to the nearest double
    (an infinity when the number is beyond the range of the doubles). *)
Definition double_of_Q (q : Q) : double :=
  match Qnum q with
  | Z0 => S754_zero false
  | Z.pos n => ddiv (S754_finite false n 0) (S754_finite false (Qden q) 0)
  | Z.neg n => ddiv (S754_finite true n 0) (S754_finite false (Qden q) 0)
  end.

(** The exact value of a double; none for an infinity and for NaN. *)
Definition Q_of_double (x : double) : option Q :=
  match x with
  | S754_zero _ => Some 0%Q
  | S754_finite sign m e => Some (Qred (inject_Z (cond_Zopp sign (Z.pos m)) * 2 ^ e)%Q)
  | S754_infinity _ | S754_nan => None
  end.

Definition is_nan (x : double) : bool :=
  match x with S754_nan => true | _ => false end.

Definition is_finite (x : double) : bool :=
  match x with S754_zero _ | S754_finite _ _ _ => true | _ => false end.

Definition is_negative (x : double) : bool :=
  match x with
  | S754_zero sign | S754_infinity sign | S754_finite sign _ _ => sign
  | S754_nan => false
  end.

(** [Math.max(x, y)] and [Math.min(x, y)]: NaN when an argument is NaN; the
    positive zero is the larger of the two zeros. *)
Definition Math_max (x y : double) : double :=
  if is_nan x || is_nan y then S754_nan
  else if SFltb x y then y
  else if SFltb y x then x
  else match x, y with
       | S754_zero true, S754_zero false => y
       | _, _ => x
       end.

Definition Math_min (x y : double) : double :=
  if is_nan x || is_nan y then S754_nan
  else if SFltb x y then x
  else if SFltb y x then y
  else match x, y with
       | S754_zero false, S754_zero true => y
       | _, _ => x
       end.

(** [Math.floor(x)] where it is used as an index: the integer, none for an
    infinity and for NaN. *)
Definition Math_floor (x : double) : option Z := Qfloor <$> Q_of_double x.

(** [Math.round(x)]: the nearest integer, the larger of two that are
    equally near; an infinity and NaN are returned as they are, and a
    negative number that rounds to zero gives the negative zero. *)
Definition Math_round (x : double) : double :=
  match Q_of_double x with
  | None => x
  | Some q =>
      let n := Qfloor (q + (1 # 2)) in
      if (n =? 0) && is_negative x then S754_zero true else double_of_Z n
  end.

(** A number inside the argument of [JSON.stringify]: an infinity and NaN
    are rendered as [null]. *)
Definition json_of_double (x : double) : JVal :=
  match Q_of_double x with
  | Some q => JNum q
  | None => JNull
  end.

(** [arr.reduce(f)] with no initial value: the first element seeds the
    accumulator; on an empty array JavaScript throws a [TypeError] ([None]). *)
Definition reduce1 {A : Type} (f : A -> A -> A) (arr : list A) : option A :=
  match arr with
  | [] => None
  | x :: rest => Some (fold_left f rest x)
  end.

(** ** Configuration ([src/config/index.js]) *)

Record Config := {
  humanSearchTimeoutMs : Z;
  skillMatchingThreshold : Q;
  searchIntervalMs : Z;
  minSearchAttempts : Z
}.

(** The values the configuration takes when the environment sets none. *)
Definition default_config : Config := {|
  humanSearchTimeoutMs := 45000;
  skillMatchingThreshold := 1.5;
  searchIntervalMs := 3000;
  minSearchAttempts := 10
|}.

(** ** Queue entries and participant data *)

(** The argument of [startMatchmaking]; an absent or undefined name or
    treatment group is the empty string (both are falsy in the source's
    [x || fallback]). *)
Record ParticipantData := {
  pd_participantId : string;
  pd_participantName : string;
  pd_roundNumber : Z;
  pd_skillLevel : Q;
  pd_treatmentGroup : string
}.

(** A member of a round queue, in parsed form. *)
Record QueueEntry := {
  qe_participantId : string;
  qe_participantName : string;
  qe_roundNumber : Z;
  qe_skillLevel : Q;
  qe_treatmentGroup : string;
  qe_joinedAt : Z;
  qe_status : string
}.

(** ** Algorithm A of the specification, in the specification's words

    Given the skill [s], the threshold [T] and the candidates in FIFO order:
    with [S] the candidates at distance at most [T], the result is the
    FIFO-earliest element of [S] when [S] is not empty, and otherwise the
    candidate of least distance, the FIFO-earliest of those at that distance.
    An empty candidate list has no result. *)
Section AlgorithmA.
Context {A : Type} (skill : A -> Q).
Variables (T s : Q).

Definition dist (c : A) : Q := Qabs (skill c - s).
Definition inWindow (c : A) : Prop := (dist c <= T)%Q.

Inductive AlgorithmA : list A -> option A -> Prop :=
| AlgA_empty :
    AlgorithmA [] None
| AlgA_window l1 c l2 :
    Forall (fun x => ~ inWindow x) l1 ->
    inWindow c ->
    AlgorithmA (l1 ++ c :: l2) (Some c)
| AlgA_closest l1 c l2 :
    Forall (fun x => ~ inWindow x) (l1 ++ c :: l2) ->
    Forall (fun x => (dist c < dist x)%Q) l1 ->
    Forall (fun x => (dist c <= dist x)%Q) l2 ->
    AlgorithmA (l1 ++ c :: l2) (Some c).

End AlgorithmA.

(** ** Algorithm A over doubles

    Algorithm A where the distance of a candidate is the absolute value of
    the difference of the two doubles, rounded to a double, and the window
    test and the comparisons of distances are those of doubles. *)
Section AlgorithmA_double.
Context {A : Type} (skill : A -> Q).
Variables (T s : Q).

Definition dist_double (c : A) : double :=
  SFabs (SFsub 53 1024 (double_of_Q (skill c)) (double_of_Q s)).
Definition inWindow_double (c : A) : Prop := SFleb (dist_double c) (double_of_Q T) = true.

Inductive AlgorithmA_double : list A -> option A -> Prop :=
| AlgD_empty :
    AlgorithmA_double [] None
| AlgD_window l1 c l2 :
    Forall (fun x => ~ inWindow_double x) l1 ->
    inWindow_double c ->
    AlgorithmA_double (l1 ++ c :: l2) (Some c)
| AlgD_closest l1 c l2 :
    Forall (fun x => ~ inWindow_double x) (l1 ++ c :: l2) ->
    Forall (fun x => SFltb (dist_double c) (dist_double x) = true) l1 ->
    Forall (fun x => SFleb (dist_double c) (dist_double x) = true) l2 ->
    AlgorithmA_double (l1 ++ c :: l2) (Some c).
End AlgorithmA_double.

(** ** The two selections of the services, as they write them *)
Section SkillWindow.
Context {A : Type} (skill : A -> Q).
Variables (threshold participantSkillLevel : Q).

(** The test of the filter:
    [Math.abs(c.skillLevel - participantSkillLevel) <= threshold]. *)
Definition withinThreshold (c : A) : bool :=
  let skillDiff :=
    SFabs (dsub (double_of_Q (skill c)) (double_of_Q participantSkillLevel)) in
  SFleb skillDiff (double_of_Q threshold).

(** The callback of the [reduce]:
    [currentDiff < closestDiff ? current : closest]. *)
Definition closerOf (closest current : A) : A :=
  let currentDiff :=
    SFabs (dsub (double_of_Q (skill current)) (double_of_Q participantSkillLevel)) in
  let closestDiff :=
    SFabs (dsub (double_of_Q (skill closest)) (double_of_Q participantSkillLevel)) in
  if SFltb currentDiff closestDiff then current else closest.
End SkillWindow.

(** ** [nameUtils.js]: display names *)

Definition GENDER_NEUTRAL_BOT_NAMES : list string := [
  "Alex"; "Jordan"; "Taylor"; "Casey"; "Morgan"; "Riley"; "Quinn"; "Sage";
  "River"; "Avery"; "Blake"; "Cameron"; "Drew"; "Emery"; "Finley"; "Gray";
  "Harper"; "Indigo"; "Kai"; "Lane"; "Max"; "Nova"; "Ocean"; "Parker";
  "Reese"; "Skylar"; "Tatum"; "Vale"; "Winter"; "Zion"
].

(** The conversion of a number to a signed 32-bit integer that the bitwise
    operators of JavaScript apply. *)
Definition toInt32 (z : Z) : Z := (z + 2 ^ 31) mod 2 ^ 32 - 2 ^ 31.

(** The loop of [getBotName] over the characters of the suffix:
    [hash = ((hash << 5) - hash) + char; hash = hash & hash]. *)
Fixpoint botNameHash (suffix : string) (hash : Z) : Z :=
  match suffix with
  | EmptyString => hash
  | String c rest =>
      let char := Z.of_nat (Ascii.nat_of_ascii c) in
      let hash := toInt32 (Z.shiftl hash 5) - hash + char in
      botNameHash rest (toInt32 hash)
  end.

Definition getBotName (participantId : string) : string :=
  let idSuffix := slice_last4 participantId in
  let hash := botNameHash idSuffix 0 in
  let index := Z.abs hash mod Z.of_nat (length GENDER_NEUTRAL_BOT_NAMES) in
  "Bot " +:+ default EmptyString (GENDER_NEUTRAL_BOT_NAMES !! Z.to_nat index).

(** [name.split(' ')[0]] *)
Fixpoint first_word (name : string) : string :=
  match name with
  | EmptyString => EmptyString
  | String c rest => if Ascii.eqb c (Ascii.ascii_of_nat 32) then EmptyString else String c (first_word rest)
  end.

(** [getPlayerDisplayName(participant)] for a human participant, from the
    [id] and the [name] of the object (an absent name is the empty string). *)
Definition getPlayerDisplayName (id name : string) : string :=
  if str_truthy name then first_word name
  else "Player " +:+ slice_last4 id.

(** ** The state of the shared store, of the persistence sink and of the Engine *)

(** The shared store. A sorted set holds its members in rank order (the
    order [zRange 0 -1] returns); a member of a round queue is kept in
    parsed form. Expiry of keys is not part of the model. *)
Record Redis := {
  zsets : gmap string (list QueueEntry);
  hashes : gmap string (gmap string string);
  counters : gmap string (gmap string Z);
  strings : gmap string string
}.

(** A row of the [participants] table, as far as the Engine reads it. *)
Record DbParticipant := { dbp_id : string; dbp_name : string }.

(** The persistence sink: the rows of [tournament_matches], the most recently
    created first, and the [participants] table. *)
Record Database := {
  tournament_matches : list JsObject;
  participants : gmap string DbParticipant
}.

(** What lives outside the process: the store, the sink and the clock. *)
Record External := {
  redis : Redis;
  db : Database;
  now : Z
}.

(** The entry of [activeSearches] for a participant. *)
Record SearchData := {
  startTime : Z;
  sd_roundNumber : Z;
  searchAttempts : Z
}.

(** The fields of the [MatchmakingEngine] object. [onMatchFound] is whether
    a callback is registered. *)
Record Engine := {
  activeSearches : gmap string SearchData;
  matchTimeouts : gmap string nat;
  onMatchFound : bool
}.

(** The event loop of the process: the pending [setTimeout] tasks (each is
    the AI fallback for a participant), the running [setInterval] tasks
    (each is the re-scanner of a participant), the next timer handle, and
    the match records handed to the match-found callback, oldest first. *)
Record EventLoop := {
  timeouts : gmap nat ParticipantData;
  intervals : gmap nat ParticipantData;
  nextHandle : nat;
  delivered : list JsObject
}.

(** What the other tasks and the outside do between two service calls of
    the task that is followed: they change the outside ([Interfere]), or the
    service is unavailable for the next call ([Fault]). *)
Inductive Event :=
  | Interfere (f : External -> External)
  | Fault.

(** The world. [sched] lists what happens before each of the next service
    calls, one event a call; when it is empty the task runs alone and every
    service answers. [uuid_of] and [random_of] are the successive values of
    [uuidv4()] and [Math.random()]. *)
Record World := {
  engine : Engine;
  loop : EventLoop;
  ext : External;
  sched : list Event;
  uuid_of : nat -> string;
  uuid_ix : nat;
  random_of : nat -> Q;
  random_ix : nat
}.

Definition set_engine (f : Engine -> Engine) (w : World) : World :=
  {| engine := f (engine w); loop := loop w; ext := ext w; sched := sched w;
     uuid_of := uuid_of w; uuid_ix := uuid_ix w;
     random_of := random_of w; random_ix := random_ix w |}.

Definition set_loop (f : EventLoop -> EventLoop) (w : World) : World :=
  {| engine := engine w; loop := f (loop w); ext := ext w; sched := sched w;
     uuid_of := uuid_of w; uuid_ix := uuid_ix w;
     random_of := random_of w; random_ix := random_ix w |}.

Definition set_ext (e : External) (w : World) : World :=
  {| engine := engine w; loop := loop w; ext := e; sched := sched w;
     uuid_of := uuid_of w; uuid_ix := uuid_ix w;
     random_of := random_of w; random_ix := random_ix w |}.

Definition set_sched (s : list Event) (w : World) : World :=
  {| engine := engine w; loop := loop w; ext := ext w; sched := s;
     uuid_of := uuid_of w; uuid_ix := uuid_ix w;
     random_of := random_of w; random_ix := random_ix w |}.

Definition set_redis (r : Redis) (e : External) : External :=
  {| redis := r; db := db e; now := now e |}.

Definition set_db (d : Database) (e : External) : External :=
  {| redis := redis e; db := d; now := now e |}.

(** ** The monad of the services: state, and exceptions that keep the state *)

Inductive Res (A : Type) : Type :=
  | Ok (a : A)
  | Throw (e : string).
Arguments Ok {A} a.
Arguments Throw {A} e.

Definition M (A : Type) : Type := World -> Res A * World.

Definition ret {A : Type} (a : A) : M A := fun w => (Ok a, w).

Definition bind {A B : Type} (c : M A) (k : A -> M B) : M B :=
  fun w => match c w with
           | (Ok a, w') => k a w'
           | (Throw e, w') => (Throw e, w')
           end.

Definition throw {A : Type} (e : string) : M A := fun w => (Throw e, w).

(** [try { c } catch (e) { h e }] *)
Definition try_catch {A : Type} (c : M A) (h : string -> M A) : M A :=
  fun w => match c w with
           | (Ok a, w') => (Ok a, w')
           | (Throw e, w') => h e w'
           end.

(** [try { c } finally { f }]: [f] runs on both exits; an exception of [f]
    replaces the outcome of [c]. *)
Definition try_finally {A : Type} (c : M A) (f : M unit) : M A :=
  fun w => match c w with
           | (r, w') =>
               match f w' with
               | (Ok _, w'') => (r, w'')
               | (Throw e, w'') => (Throw e, w'')
               end
           end.

(** [await Promise.all([a, b])]: both calls are made; the first rejection,
    if any, is thrown. *)
Definition promise_all2 {A B : Type} (a : M A) (b : M B) : M (A * B) :=
  fun w => match a w with
           | (ra, w') =>
               match b w' with
               | (rb, w'') =>
                   match ra, rb with
                   | Ok x, Ok y => (Ok (x, y), w'')
                   | Throw e, _ => (Throw e, w'')
                   | Ok _, Throw e => (Throw e, w'')
                   end
               end
           end.

Declare Scope svc_scope.
Delimit Scope svc_scope with svc.
Notation "'let*' x := c 'in' k" := (bind c (fun x => k))
  (at level 10, x name, c at level 100, k at level 200, only parsing) : svc_scope.
Notation "'run' c 'in' k" := (bind c (fun _ => k))
  (at level 10, c at level 100, k at level 200, only parsing) : svc_scope.
Local Open Scope svc_scope.

Definition get_world : M World := fun w => (Ok w, w).
Definition modify_engine (f : Engine -> Engine) : M unit := fun w => (Ok tt, set_engine f w).
Definition modify_loop (f : EventLoop -> EventLoop) : M unit := fun w => (Ok tt, set_loop f w).

(** [Date.now()] *)
Definition Date_now : M Z := fun w => (Ok (now (ext w)), w).

(** [uuidv4()] *)
Definition uuidv4 : M string := fun w =>
  (Ok (uuid_of w (uuid_ix w)),
   {| engine := engine w; loop := loop w; ext := ext w; sched := sched w;
      uuid_of := uuid_of w; uuid_ix := S (uuid_ix w);
      random_of := random_of w; random_ix := random_ix w |}).

(** [Math.random()] *)
Definition Math_random : M Q := fun w =>
  (Ok (random_of w (random_ix w)),
   {| engine := engine w; loop := loop w; ext := ext w; sched := sched w;
      uuid_of := uuid_of w; uuid_ix := uuid_ix w;
      random_of := random_of w; random_ix := S (random_ix w) |}).

(** One call of a method of [RedisService] or [DatabaseService]: the next
    event of the schedule happens first, then the method runs as one step. *)
Definition service {A : Type} (op : External -> A * External) : M A :=
  fun w =>
    match sched w with
    | [] => let '(a, e) := op (ext w) in (Ok a, set_ext e w)
    | Interfere f :: rest =>
        let '(a, e) := op (f (ext w)) in (Ok a, set_sched rest (set_ext e w))
    | Fault :: rest => (Throw "service unavailable", set_sched rest w)
    end.

(** ** Objects and their JSON renderings *)

(** An object literal. *)
Definition obj (l : list (string * JVal)) : JsObject := list_to_map l.

(** A field that is written only when the flag is present. *)
Definition opt_field {A : Type} (k : string) (mk : A -> JVal) (o : option A)
    : list (string * JVal) :=
  match o with
  | Some a => [(k, mk a)]
  | None => []
  end.

(** [s.split('T')[0]] *)
Fixpoint before_T (s : string) : string :=
  match s with
  | EmptyString => EmptyString
  | String c rest => if Ascii.eqb c (Ascii.ascii_of_nat 84) then EmptyString
                     else String c (before_T rest)
  end.

(** Comparisons of a value with a string or a number, as the filters of the
    persistence sink make them. *)
Definition is_str (v : JVal) (s : string) : bool :=
  match v with JStr x => String.eqb x s | _ => false end.
Definition is_num (v : JVal) (q : Q) : bool :=
  match v with JNum x => Qeq_bool x q | _ => false end.
Definition same_id (a b : JVal) : bool :=
  match a, b with JStr x, JStr y => String.eqb x y | _, _ => false end.

#[global] Instance Q_eq_dec : EqDecision Q.
Proof. solve_decision. Defined.

#[global] Instance QueueEntry_eq_dec : EqDecision QueueEntry.
Proof. solve_decision. Defined.

(** [arr[i]] for a number [i] that is an integer: [undefined] ([None]) out
    of range, also below zero. *)
Definition js_index {A : Type} (arr : list A) (i : Z) : option A :=
  if i <? 0 then None else arr !! Z.to_nat i.

(** ** [AIOpponentService] *)

Module AIOpponentService.

(** *** The static roster *)

Record AIOpponent := {
  ai_id : string;
  ai_name : string;
  ai_skillLevel : Q;
  ai_personality : string;
  ai_responsePattern : string;
  ai_description : string
}.

Definition aiOpponents : list AIOpponent := [
  {| ai_id := "ai_1"; ai_name := "Bot Alex"; ai_skillLevel := 7.2;
     ai_personality := "competitive"; ai_responsePattern := "fast";
     ai_description := "Quick-thinking competitive strategist" |};
  {| ai_id := "ai_2"; ai_name := "Bot Pat"; ai_skillLevel := 6.8;
     ai_personality := "collaborative"; ai_responsePattern := "medium";
     ai_description := "Balanced and methodical approach" |};
  {| ai_id := "ai_3"; ai_name := "Bot Charlie"; ai_skillLevel := 7.5;
     ai_personality := "analytical"; ai_responsePattern := "slow";
     ai_description := "Deep analytical thinker" |};
  {| ai_id := "ai_4"; ai_name := "Bot Riley"; ai_skillLevel := 6.5;
     ai_personality := "competitive"; ai_responsePattern := "medium";
     ai_description := "Aggressive competitive player" |};
  {| ai_id := "ai_5"; ai_name := "Bot Morgan"; ai_skillLevel := 7.8;
     ai_personality := "analytical"; ai_responsePattern := "fast";
     ai_description := "Lightning-fast analytical mind" |};
  {| ai_id := "ai_6"; ai_name := "Bot Casey"; ai_skillLevel := 6.0;
     ai_personality := "collaborative"; ai_responsePattern := "slow";
     ai_description := "Thoughtful collaborative partner" |};
  {| ai_id := "ai_7"; ai_name := "Bot Jordan"; ai_skillLevel := 8.0;
     ai_personality := "competitive"; ai_responsePattern := "fast";
     ai_description := "Elite competitive challenger" |};
  {| ai_id := "ai_8"; ai_name := "Bot Sam"; ai_skillLevel := 5.5;
     ai_personality := "analytical"; ai_responsePattern := "medium";
     ai_description := "Careful analytical approach" |}
].

(** [randomizeSkillLevel]; [rnd] is the value of [Math.random()]. *)
Definition randomizeSkillLevel (rnd baseSkillLevel : Q) : double :=
  let variation := dmul (dsub (double_of_Q rnd) (double_of_Q 0.5)) (double_of_Q 0.6) in
  Math_max (double_of_Q 1)
           (Math_min (double_of_Q 10) (dadd (double_of_Q baseSkillLevel) variation)).

(** The object [selectOpponent] returns: the roster entry spread, with
    [actualSkillLevel] and [matchId] added. *)
Record SelectedOpponent := {
  sel_opponent : AIOpponent;
  sel_actualSkillLevel : double;
  sel_matchId : string
}.

(** [selectOpponent]; [rndPick] and [rndSkill] are the two values of
    [Math.random()] it draws, [uuid] the value of [uuidv4()]. The result is
    [None] where the source throws a [TypeError] (reading a property of
    [undefined], when the picked index is out of range or is not a number). *)
Definition selectOpponent (rndPick rndSkill : Q) (uuid : string)
    (participantSkillLevel skillThreshold : Q) : option SelectedOpponent :=
  let suitableOpponents :=
    List.filter (withinThreshold ai_skillLevel skillThreshold participantSkillLevel)
                aiOpponents in
  let selectedOpponent :=
    if (0 <? length suitableOpponents)%nat then
      match Math_floor (dmul (double_of_Q rndPick)
                             (double_of_Z (Z.of_nat (length suitableOpponents)))) with
      | Some i => js_index suitableOpponents i
      | None => None
      end
    else
      reduce1 (closerOf ai_skillLevel participantSkillLevel) aiOpponents in
  match selectedOpponent with
  | None => None
  | Some o =>
      Some {| sel_opponent := o;
              sel_actualSkillLevel := randomizeSkillLevel rndSkill (ai_skillLevel o);
              sel_matchId := uuid |}
  end.

(** Whether [selectOpponent] draws a value of [Math.random()] for its pick:
    it does when some opponent of the roster is within the threshold. *)
Definition picksAtRandom (participantSkillLevel skillThreshold : Q) : bool :=
  (0 <? length (List.filter
                  (withinThreshold ai_skillLevel skillThreshold participantSkillLevel)
                  aiOpponents))%nat.

(** *** The response model *)

Record ResponseDelay := { rd_min : Q; rd_max : Q; rd_average : Q }.

(** A flag that an object may leave out is an [option bool]; a flag left out
    is falsy. *)
Record AccuracyVariation := {
  baseAccuracy : Q;
  variance : Q;
  improvesOverTime : option bool;
  rushesEasy : option bool;
  consistent : option bool;
  slowStart : option bool
}.

Record BehaviorPattern := {
  speedIncreasesWithScore : option bool;
  takesRisks : option bool;
  adaptToOpponent : option bool;
  celebration : option string
}.

Record AISettings := {
  responseDelayMs : ResponseDelay;
  accuracyVariation : AccuracyVariation;
  behaviorPattern : BehaviorPattern
}.

Definition flag (o : option bool) : bool := default false o.

Definition delay_fast : ResponseDelay := {| rd_min := 800; rd_max := 2000; rd_average := 1200 |}.
Definition delay_medium : ResponseDelay := {| rd_min := 2000; rd_max := 4000; rd_average := 3000 |}.
Definition delay_slow : ResponseDelay := {| rd_min := 4000; rd_max := 7000; rd_average := 5500 |}.

(** [delays[responsePattern] || delays.medium] *)
Definition getResponseDelay (responsePattern : string) : ResponseDelay :=
  if String.eqb responsePattern "fast" then delay_fast
  else if String.eqb responsePattern "medium" then delay_medium
  else if String.eqb responsePattern "slow" then delay_slow
  else delay_medium.

Definition variation_competitive : AccuracyVariation :=
  {| baseAccuracy := 0.85; variance := 0.1; improvesOverTime := Some true;
     rushesEasy := Some true; consistent := None; slowStart := None |}.
Definition variation_collaborative : AccuracyVariation :=
  {| baseAccuracy := 0.80; variance := 0.08; improvesOverTime := Some false;
     rushesEasy := None; consistent := Some true; slowStart := None |}.
Definition variation_analytical : AccuracyVariation :=
  {| baseAccuracy := 0.88; variance := 0.05; improvesOverTime := Some true;
     rushesEasy := None; consistent := None; slowStart := Some true |}.

(** [variations[personality] || variations.collaborative] *)
Definition getAccuracyVariation (personality : string) : AccuracyVariation :=
  if String.eqb personality "competitive" then variation_competitive
  else if String.eqb personality "collaborative" then variation_collaborative
  else if String.eqb personality "analytical" then variation_analytical
  else variation_collaborative.

Definition pattern_competitive : BehaviorPattern :=
  {| speedIncreasesWithScore := Some true; takesRisks := Some true;
     adaptToOpponent := Some true; celebration := Some "aggressive" |}.
Definition pattern_collaborative : BehaviorPattern :=
  {| speedIncreasesWithScore := Some false; takesRisks := Some false;
     adaptToOpponent := Some false; celebration := Some "modest" |}.
Definition pattern_analytical : BehaviorPattern :=
  {| speedIncreasesWithScore := Some false; takesRisks := Some false;
     adaptToOpponent := Some true; celebration := Some "analytical" |}.

(** [patterns[personality] || patterns.collaborative] *)
Definition getBehaviorPattern (personality : string) : BehaviorPattern :=
  if String.eqb personality "competitive" then pattern_competitive
  else if String.eqb personality "collaborative" then pattern_collaborative
  else if String.eqb personality "analytical" then pattern_analytical
  else pattern_collaborative.

(** The [aiSettings] that [createAIMatch] writes for an opponent of the
    given personality and response pattern. *)
Definition aiSettingsFor (personality responsePattern : string) : AISettings :=
  {| responseDelayMs := getResponseDelay responsePattern;
     accuracyVariation := getAccuracyVariation personality;
     behaviorPattern := getBehaviorPattern personality |}.

(** [simulateAIResponse], the accuracy before it is clamped
    (the assignments to [accuracy] up to and including the random variance).
    [opponentCorrect] is [None] for [null]; [rndVar] is the value of
    [Math.random()] drawn for the variance. *)
Definition adjustedAccuracy (aiSettings : AISettings) (questionNumber difficulty : Z)
    (opponentCorrect : option bool) (rndVar : Q) : double :=
  let accuracyVariation := accuracyVariation aiSettings in
  let behaviorPattern := behaviorPattern aiSettings in
  let accuracy :=
    dsub (double_of_Q (baseAccuracy accuracyVariation))
         (dmul (dsub (double_of_Z difficulty) (double_of_Q 5)) (double_of_Q 0.02)) in
  let accuracy :=
    if flag (adaptToOpponent behaviorPattern) && bool_decide (opponentCorrect <> None) then
      if flag (speedIncreasesWithScore behaviorPattern) && default false opponentCorrect
      then dadd accuracy (double_of_Q 0.05) else accuracy
    else accuracy in
  let accuracy :=
    if flag (slowStart accuracyVariation) && (questionNumber <=? 3)
    then dsub accuracy (double_of_Q 0.1) else accuracy in
  let accuracy :=
    if flag (improvesOverTime accuracyVariation) && (5 <? questionNumber)
    then dadd accuracy (double_of_Q 0.05) else accuracy in
  dadd accuracy
       (dmul (dsub (double_of_Q rndVar) (double_of_Q 0.5))
             (double_of_Q (variance accuracyVariation))).

Record AIResponse := {
  isCorrect : bool;
  responseTimeMs : double;
  resp_accuracy : double;
  resp_questionNumber : Z;
  resp_difficulty : Z
}.

(** [simulateAIResponse]; [rndVar], [rndCorrect] and [rndTime] are the three
    values of [Math.random()] it draws, in that order. *)
Definition simulateAIResponse (rndVar rndCorrect rndTime : Q) (aiSettings : AISettings)
    (questionNumber difficulty : Z) (opponentCorrect : option bool) : AIResponse :=
  let responseDelayMs := responseDelayMs aiSettings in
  let accuracyVariation := accuracyVariation aiSettings in
  let behaviorPattern := behaviorPattern aiSettings in
  let accuracy :=
    Math_max (double_of_Q 0) (Math_min (double_of_Q 1)
      (adjustedAccuracy aiSettings questionNumber difficulty opponentCorrect rndVar)) in
  let isCorrect := SFltb (double_of_Q rndCorrect) accuracy in
  let responseTime :=
    dadd (double_of_Q (rd_min responseDelayMs))
         (dmul (double_of_Q rndTime)
               (dsub (double_of_Q (rd_max responseDelayMs))
                     (double_of_Q (rd_min responseDelayMs)))) in
  let responseTime :=
    if flag (speedIncreasesWithScore behaviorPattern) && (5 <? questionNumber)
    then dmul responseTime (double_of_Q 0.8) else responseTime in
  let responseTime :=
    if flag (rushesEasy accuracyVariation) && (difficulty <? 5)
    then dmul responseTime (double_of_Q 0.7) else responseTime in
  {| isCorrect := isCorrect;
     responseTimeMs := Math_round responseTime;
     resp_accuracy := ddiv (Math_round (dmul accuracy (double_of_Q 100))) (double_of_Q 100);
     resp_questionNumber := questionNumber;
     resp_difficulty := difficulty |}.

(** *** Queries on the roster *)

(** [getOpponentById]: [None] is [null]. *)
Definition getOpponentById (aiId : string) : option AIOpponent :=
  List.find (fun ai => String.eqb (ai_id ai) aiId) aiOpponents.

(** *** The match record of an AI match *)

Definition json_of_delay (d : ResponseDelay) : JVal :=
  JObj (obj [("min", JNum (rd_min d)); ("max", JNum (rd_max d));
             ("average", JNum (rd_average d))]).

Definition json_of_variation (v : AccuracyVariation) : JVal :=
  JObj (obj ([("baseAccuracy", JNum (baseAccuracy v)); ("variance", JNum (variance v))]
             ++ opt_field "improvesOverTime" JBool (improvesOverTime v)
             ++ opt_field "rushesEasy" JBool (rushesEasy v)
             ++ opt_field "consistent" JBool (consistent v)
             ++ opt_field "slowStart" JBool (slowStart v))).

Definition json_of_pattern (p : BehaviorPattern) : JVal :=
  JObj (obj (opt_field "speedIncreasesWithScore" JBool (speedIncreasesWithScore p)
             ++ opt_field "takesRisks" JBool (takesRisks p)
             ++ opt_field "adaptToOpponent" JBool (adaptToOpponent p)
             ++ opt_field "celebration" JStr (celebration p))).

Section WithRuntime.
Context {rt : JsRuntime}.

(** [createAIMatch]

    [rndPick], [rndSkill]: the values of [Math.random()] that [selectOpponent]
    draws; [uuidSel], [uuidMatch]: the values of [uuidv4()] of
    [selectOpponent] and of [createAIMatch]; [created]: the clock.
    [selectOpponent] is called with the skill alone, so with its default
    threshold 1.5. *)
Definition createAIMatch (rndPick rndSkill : Q) (uuidSel uuidMatch : string) (created : Z)
    (participantId : string) (roundNumber : Z) (participantSkillLevel : Q)
    : option JsObject :=
  match selectOpponent rndPick rndSkill uuidSel participantSkillLevel 1.5 with
  | None => None
  | Some aiOpponent =>
      let o := sel_opponent aiOpponent in
      let matchId := uuidMatch in
      Some (obj [
        ("id", JStr matchId);
        ("participant1_id", JStr participantId);
        ("participant2_id", JNull);
        ("round_number", JNum (inject_Z roundNumber));
        ("match_type", JStr "human_vs_ai");
        ("status", JStr "active");
        ("created_at", JStr (Date_toISOString created));
        ("isAI", JBool true);
        ("opponent", JStr (JSON_stringify (JObj (obj [
            ("id", JStr (ai_id o));
            ("name", JStr (ai_name o));
            ("participant_id", JStr (ai_id o));
            ("skill_level", json_of_double (sel_actualSkillLevel aiOpponent));
            ("personality", JStr (ai_personality o));
            ("responsePattern", JStr (ai_responsePattern o));
            ("description", JStr (ai_description o))]))));
        ("aiSettings", JStr (JSON_stringify (JObj (obj [
            ("responseDelayMs", json_of_delay (getResponseDelay (ai_responsePattern o)));
            ("accuracyVariation", json_of_variation (getAccuracyVariation (ai_personality o)));
            ("behaviorPattern", json_of_pattern (getBehaviorPattern (ai_personality o)))]))))
      ])
  end.

End WithRuntime.

End AIOpponentService.
Import AIOpponentService.

(** ** [RedisService]

    The source holds two revisions of the class; the embedding follows the
    later one, whose [createMatch] renders every field as a string and
    which has the lock methods the Engine calls. *)

Module RedisService.
Section WithRuntime.
Context {rt : JsRuntime}.

(** *** The commands of the client *)

Definition hGetAll (key : string) (r : Redis) : gmap string string :=
  default ∅ (hashes r !! key).

(** [hSet key fields]: the fields given are set, the others of the hash stay. *)
Definition hSet (key : string) (fields : gmap string string) (r : Redis) : Redis :=
  {| zsets := zsets r;
     hashes := <[key := fields ∪ hGetAll key r]> (hashes r);
     counters := counters r;
     strings := strings r |}.

Definition hIncrBy (key field : string) (n : Z) (r : Redis) : Redis :=
  let h := default ∅ (counters r !! key) in
  {| zsets := zsets r;
     hashes := hashes r;
     counters := <[key := <[field := default 0 (h !! field) + n]> h]> (counters r);
     strings := strings r |}.

(** [zRange key 0 -1] *)
Definition zRange (key : string) (r : Redis) : list QueueEntry :=
  default [] (zsets r !! key).

(** [zAdd] with the clock as score: the member goes last; a member that is
    already in the set is not added twice, it moves. *)
Definition zAdd (key : string) (member : QueueEntry) (r : Redis) : Redis :=
  {| zsets := <[key := List.filter (fun m => negb (bool_decide (m = member))) (zRange key r)
                       ++ [member]]> (zsets r);
     hashes := hashes r;
     counters := counters r;
     strings := strings r |}.

Definition zRem (key : string) (member : QueueEntry) (r : Redis) : Redis :=
  {| zsets := <[key := List.filter (fun m => negb (bool_decide (m = member))) (zRange key r)]>
                (zsets r);
     hashes := hashes r;
     counters := counters r;
     strings := strings r |}.

Definition set_strings (s : gmap string string) (r : Redis) : Redis :=
  {| zsets := zsets r; hashes := hashes r; counters := counters r; strings := s |}.

(** A method of [RedisService] as one step on the outside. *)
Definition on_redis {A : Type} (f : Z -> Redis -> A * Redis) (e : External) : A * External :=
  let '(a, r) := f (now e) (redis e) in (a, set_redis r e).

Definition statusKeyOf (participantId : string) : string :=
  "participant:" +:+ participantId +:+ ":status".
Definition matchKeyOf (matchId : string) : string := "match:" +:+ matchId.
Definition queueKeyOf (roundNumber : Z) : string :=
  "queue:round:" +:+ Number_toString (inject_Z roundNumber).
Definition lockKeyOf (roundNumber : Z) : string :=
  "matchlock:round:" +:+ Number_toString (inject_Z roundNumber).

(** *** The methods, as steps on the store *)

Definition store_getParticipantStatus (participantId : string) (r : Redis)
    : gmap string string :=
  hGetAll (statusKeyOf participantId) r.

Definition store_addToQueue (queueKey : string) (participantData : QueueEntry)
    (clock : Z) (r : Redis) : bool * Redis :=
  let status := store_getParticipantStatus (qe_participantId participantData) r in
  if bool_decide (status !! "status" = Some "matched") then (false, r)
  else
    let queueEntry :=
      {| qe_participantId := qe_participantId participantData;
         qe_participantName := qe_participantName participantData;
         qe_roundNumber := qe_roundNumber participantData;
         qe_skillLevel := qe_skillLevel participantData;
         qe_treatmentGroup := qe_treatmentGroup participantData;
         qe_joinedAt := clock;
         qe_status := "waiting" |} in
    (true, zAdd queueKey queueEntry r).

(** The loop of [removeFromQueue] over the entries. *)
Fixpoint removeFirst (queueKey participantId : string) (entries : list QueueEntry)
    (r : Redis) : bool * Redis :=
  match entries with
  | [] => (false, r)
  | entry :: rest =>
      if String.eqb (qe_participantId entry) participantId
      then (true, zRem queueKey entry r)
      else removeFirst queueKey participantId rest r
  end.

Definition store_removeFromQueue (queueKey participantId : string) (r : Redis)
    : bool * Redis :=
  removeFirst queueKey participantId (zRange queueKey r) r.

(** [excludeParticipantId] is [None] for the default [null]. *)
Definition store_getQueueEntries (queueKey : string) (excludeParticipantId : option string)
    (r : Redis) : list QueueEntry :=
  let parsedEntries := zRange queueKey r in
  match excludeParticipantId with
  | Some x =>
      if str_truthy x
      then List.filter (fun entry => negb (String.eqb (qe_participantId entry) x)) parsedEntries
      else parsedEntries
  | None => parsedEntries
  end.

(** The loop of [getQueuePosition], [i] counting from 0. *)
Fixpoint positionFrom (participantId : string) (entries : list QueueEntry) (i : Z) : Z :=
  match entries with
  | [] => -1
  | data :: rest =>
      if String.eqb (qe_participantId data) participantId then i + 1
      else positionFrom participantId rest (i + 1)
  end.

Definition store_getQueuePosition (queueKey participantId : string) (r : Redis) : Z :=
  positionFrom participantId (zRange queueKey r) 0.

Definition store_getQueueSize (queueKey : string) (r : Redis) : Z :=
  Z.of_nat (length (zRange queueKey r)).

(** The text [createMatch] stores for a value of [matchData]. *)
Definition toRedisString (value : JVal) : string :=
  match value with
  | JNull | JUndefined => EmptyString
  | JObj _ => JSON_stringify value
  | JBool b => if b then "true" else "false"
  | JNum q => Number_toString q
  | JStr s => s
  end.

Definition store_createMatch (matchId : string) (matchData : JsObject)
    (clock : Z) (r : Redis) : bool * Redis :=
  let matchKey := matchKeyOf matchId in
  let redisData : gmap string string := toRedisString <$> matchData in
  (true,
   hSet matchKey
     (<["status" := "active"]>
        (<["createdAt" := Number_toString (inject_Z clock)]> redisData)) r).

Definition store_getMatch (matchId : string) (r : Redis) : gmap string string :=
  hGetAll (matchKeyOf matchId) r.

Definition store_updateMatchStatus (matchId status : string) (r : Redis) : bool * Redis :=
  (true, hSet (matchKeyOf matchId) {[ "status" := status ]} r).

(** [data] holds the extra fields already rendered as text; it is spread
    last, as in the source. *)
Definition store_setParticipantStatus (participantId status : string)
    (data : gmap string string) (clock : Z) (r : Redis) : bool * Redis :=
  (true,
   hSet (statusKeyOf participantId)
     (data ∪ <["lastUpdated" := Number_toString (inject_Z clock)]> {[ "status" := status ]}) r).

Definition store_incrementMatchStats (statType : string) (clock : Z) (r : Redis)
    : bool * Redis :=
  let today := before_T (Date_toISOString clock) in
  (true, hIncrBy ("stats:" +:+ today) statType 1 r).

(** [SET key value NX PX timeout] *)
Definition store_acquireLock (lockKey lockValue : string) (r : Redis) : bool * Redis :=
  match strings r !! lockKey with
  | None => (true, set_strings (<[lockKey := lockValue]> (strings r)) r)
  | Some _ => (false, r)
  end.

(** The script of [releaseLock]: delete the key if it holds [lockValue]. *)
Definition store_releaseLock (lockKey lockValue : string) (r : Redis) : bool * Redis :=
  if bool_decide (strings r !! lockKey = Some lockValue)
  then (true, set_strings (delete lockKey (strings r)) r)
  else (false, r).

(** *** The methods, as calls

    A method that catches an error and throws it again is the bare call; the
    lock methods catch and return [false]. *)

Definition addToQueue (queueKey : string) (participantData : QueueEntry) : M bool :=
  service (on_redis (store_addToQueue queueKey participantData)).

Definition removeFromQueue (queueKey participantId : string) : M bool :=
  service (on_redis (fun _ => store_removeFromQueue queueKey participantId)).

Definition getQueueEntries (queueKey : string) (excludeParticipantId : option string)
    : M (list QueueEntry) :=
  service (on_redis (fun _ r => (store_getQueueEntries queueKey excludeParticipantId r, r))).

Definition getQueuePosition (queueKey participantId : string) : M Z :=
  service (on_redis (fun _ r => (store_getQueuePosition queueKey participantId r, r))).

Definition getQueueSize (queueKey : string) : M Z :=
  service (on_redis (fun _ r => (store_getQueueSize queueKey r, r))).

Definition createMatch (matchId : string) (matchData : JsObject) : M bool :=
  service (on_redis (store_createMatch matchId matchData)).

Definition getMatch (matchId : string) : M (gmap string string) :=
  service (on_redis (fun _ r => (store_getMatch matchId r, r))).

Definition updateMatchStatus (matchId status : string) : M bool :=
  service (on_redis (fun _ => store_updateMatchStatus matchId status)).

Definition setParticipantStatus (participantId status : string)
    (data : gmap string string) : M bool :=
  service (on_redis (store_setParticipantStatus participantId status data)).

Definition getParticipantStatus (participantId : string) : M (gmap string string) :=
  service (on_redis (fun _ r => (store_getParticipantStatus participantId r, r))).

Definition incrementMatchStats (statType : string) : M bool :=
  service (on_redis (store_incrementMatchStats statType)).

Definition acquireLock (lockKey lockValue : string) (timeoutMs : Z) : M bool :=
  try_catch (service (on_redis (fun _ => store_acquireLock lockKey lockValue)))
            (fun _ => ret false).

Definition releaseLock (lockKey lockValue : string) : M bool :=
  try_catch (service (on_redis (fun _ => store_releaseLock lockKey lockValue)))
            (fun _ => ret false).

(** *** Statistics of the day and the cleanup of the queues *)

(** [hGetAll] on a hash that [hIncrBy] writes: the counters, as the text
    the store keeps for them. *)
Definition hGetAll_counters (key : string) (r : Redis) : gmap string string :=
  (fun n => Number_toString (inject_Z n)) <$> default ∅ (counters r !! key).

Definition store_getMatchStats (clock : Z) (r : Redis) : gmap string string :=
  let today := before_T (Date_toISOString clock) in
  hGetAll_counters ("stats:" +:+ today) r.

Definition getMatchStats : M (gmap string string) :=
  service (on_redis (fun clock r => (store_getMatchStats clock r, r))).

(** [keys('queue:*')]: the keys of the sorted sets that start with
    "queue:" (no key of another type has that prefix). *)
Definition queue_keys (r : Redis) : list string :=
  List.filter (String.prefix "queue:") (map_to_list (zsets r)).*1.

(** The inner loop of [cleanupExpiredQueues], over the entries read from
    [key]: an entry that joined more than five minutes ago is removed and
    counted. *)
Fixpoint cleanupEntries (key : string) (clock : Z) (entries : list QueueEntry)
    (cleanedCount : Z) (r : Redis) : Z * Redis :=
  match entries with
  | [] => (cleanedCount, r)
  | data :: rest =>
      if 300000 <? clock - qe_joinedAt data
      then cleanupEntries key clock rest (cleanedCount + 1) (zRem key data r)
      else cleanupEntries key clock rest cleanedCount r
  end.

(** The outer loop, over the keys. *)
Fixpoint cleanupKeys (keys : list string) (clock : Z) (cleanedCount : Z) (r : Redis)
    : Z * Redis :=
  match keys with
  | [] => (cleanedCount, r)
  | key :: rest =>
      let '(n, r') := cleanupEntries key clock (zRange key r) cleanedCount r in
      cleanupKeys rest clock n r'
  end.

Definition store_cleanupExpiredQueues (clock : Z) (r : Redis) : Z * Redis :=
  cleanupKeys (queue_keys r) clock 0 r.

Definition cleanupExpiredQueues : M Z :=
  service (on_redis store_cleanupExpiredQueues).

End WithRuntime.
End RedisService.
Import RedisService.

(** ** [DatabaseService]: the calls the Engine makes *)

Module DatabaseService.
Section WithRuntime.
Context {rt : JsRuntime}.

Definition on_db {A : Type} (f : Z -> Database -> A * Database) (e : External) : A * External :=
  let '(a, d) := f (now e) (db e) in (a, set_db d e).

(** [getParticipant]: the row of the participant, or [null]. *)
Definition getParticipant (participantId : string) : M (option DbParticipant) :=
  service (on_db (fun _ d => (participants d !! participantId, d))).

(** [createTournamentMatch]: an upsert keyed on [id]. *)
Definition createTournamentMatch (matchData : JsObject) : M JsObject :=
  service (on_db (fun clock d =>
    let matchRecord := obj [
      ("id", prop matchData "id");
      ("participant1_id", prop matchData "participant1_id");
      ("participant2_id", prop matchData "participant2_id");
      ("round_number", prop matchData "round_number");
      ("match_type", prop matchData "match_type");
      ("status", js_or (prop matchData "status") (JStr "active"));
      ("created_at", JStr (Date_toISOString clock))] in
    (matchRecord,
     {| tournament_matches :=
          matchRecord ::
          List.filter (fun row => negb (same_id (prop row "id") (prop matchData "id")))
                      (tournament_matches d);
        participants := participants d |}))).

(** [getActiveMatchForParticipant]: the most recent active or pending match
    of the participant in the round, or [null]. *)
Definition getActiveMatchForParticipant (participantId : string) (roundNumber : Z)
    : M (option JsObject) :=
  service (on_db (fun _ d =>
    let data :=
      List.filter (fun row =>
        (is_str (prop row "participant1_id") participantId
         || is_str (prop row "participant2_id") participantId)
        && is_num (prop row "round_number") (inject_Z roundNumber)
        && (is_str (prop row "status") "active" || is_str (prop row "status") "pending"))
        (tournament_matches d) in
    (head data, d))).

End WithRuntime.
End DatabaseService.
Import DatabaseService.

(** ** [MatchmakingEngine] *)

Module MatchmakingEngine.
Section WithRuntime.
Context {rt : JsRuntime}.
Variable cfg : Config.

(** [findBestSkillMatch] *)

Definition findBestSkillMatch (participantSkillLevel : Q)
    (waitingParticipants : list QueueEntry) : option QueueEntry :=
  if (length waitingParticipants =? 0)%nat then None
  else
    let threshold := skillMatchingThreshold cfg in
    let suitableMatches :=
      List.filter (withinThreshold qe_skillLevel threshold participantSkillLevel)
                  waitingParticipants in
    if (length suitableMatches =? 0)%nat then
      reduce1 (closerOf qe_skillLevel participantSkillLevel) waitingParticipants
    else
      head suitableMatches.

(** [this.onMatchFound(match)], when a callback is registered. *)
Definition notifyCallback (m : JsObject) : M unit :=
  let* w := get_world in
  if onMatchFound (engine w)
  then modify_loop (fun l =>
         {| timeouts := timeouts l; intervals := intervals l;
            nextHandle := nextHandle l; delivered := delivered l ++ [m] |})
  else ret tt.

(** [this.activeSearches.set], [.delete]; [this.matchTimeouts.set], [.delete] *)
Definition activeSearches_set (participantId : string) (d : SearchData) : M unit :=
  modify_engine (fun e =>
    {| activeSearches := <[participantId := d]> (activeSearches e);
       matchTimeouts := matchTimeouts e; onMatchFound := onMatchFound e |}).

Definition activeSearches_delete (participantId : string) : M unit :=
  modify_engine (fun e =>
    {| activeSearches := delete participantId (activeSearches e);
       matchTimeouts := matchTimeouts e; onMatchFound := onMatchFound e |}).

Definition matchTimeouts_set (participantId : string) (handle : nat) : M unit :=
  modify_engine (fun e =>
    {| activeSearches := activeSearches e;
       matchTimeouts := <[participantId := handle]> (matchTimeouts e);
       onMatchFound := onMatchFound e |}).

Definition matchTimeouts_delete (participantId : string) : M unit :=
  modify_engine (fun e =>
    {| activeSearches := activeSearches e;
       matchTimeouts := delete participantId (matchTimeouts e);
       onMatchFound := onMatchFound e |}).

(** [setTimeout(task, ms)] and [setInterval(task, ms)]: the task is the
    fallback, or the re-scanner, of the participant; the handle is returned. *)
Definition setTimeout (task : ParticipantData) : M nat :=
  let* w := get_world in
  let h := nextHandle (loop w) in
  run modify_loop (fun l =>
        {| timeouts := <[h := task]> (timeouts l); intervals := intervals l;
           nextHandle := S h; delivered := delivered l |}) in
  ret h.

Definition setInterval (task : ParticipantData) : M nat :=
  let* w := get_world in
  let h := nextHandle (loop w) in
  run modify_loop (fun l =>
        {| timeouts := timeouts l; intervals := <[h := task]> (intervals l);
           nextHandle := S h; delivered := delivered l |}) in
  ret h.

Definition clearTimeout (h : nat) : M unit :=
  modify_loop (fun l =>
    {| timeouts := delete h (timeouts l); intervals := intervals l;
       nextHandle := nextHandle l; delivered := delivered l |}).

Definition clearInterval (h : nat) : M unit :=
  modify_loop (fun l =>
    {| timeouts := timeouts l; intervals := delete h (intervals l);
       nextHandle := nextHandle l; delivered := delivered l |}).

(** The block that occurs four times in the Engine:
    [if (this.matchTimeouts.has(id)) { clearTimeout(...); this.matchTimeouts.delete(id) }] *)
Definition clearFallbackTimeout (participantId : string) : M unit :=
  let* w := get_world in
  match matchTimeouts (engine w) !! participantId with
  | Some h => run clearTimeout h in matchTimeouts_delete participantId
  | None => ret tt
  end.

(** [cleanupParticipantQueue]: an error of the store is caught and logged. *)
Definition cleanupParticipantQueue (participantId : string) (roundNumber : Z) : M unit :=
  try_catch
    (let queueKey := queueKeyOf roundNumber in
     run removeFromQueue queueKey participantId in
     ret tt)
    (fun _ => ret tt).

(** [joinQueue]: [None] is the [null] it returns when it does not enqueue. *)
Definition joinQueue (participantData : ParticipantData) : M (option QueueEntry) :=
  let participantId := pd_participantId participantData in
  let participantName := pd_participantName participantData in
  let roundNumber := pd_roundNumber participantData in
  let skillLevel := pd_skillLevel participantData in
  let treatmentGroup := pd_treatmentGroup participantData in
  let queueKey := queueKeyOf roundNumber in
  try_catch
    (let* status := getParticipantStatus participantId in
     if bool_decide (status !! "status" = Some "matched") then ret None
     else
       let* existingMatch := getActiveMatchForParticipant participantId roundNumber in
       match existingMatch with
       | Some _ => ret None
       | None =>
           let* joined := Date_now in
           let queueEntry :=
             {| qe_participantId := participantId;
                qe_participantName :=
                  str_or participantName (getPlayerDisplayName participantId EmptyString);
                qe_roundNumber := roundNumber;
                qe_skillLevel := if Qeq_bool skillLevel 0 then 7%Q else skillLevel;
                qe_treatmentGroup := str_or treatmentGroup "control";
                qe_joinedAt := joined;
                qe_status := "waiting" |} in
           run addToQueue queueKey queueEntry in
           run incrementMatchStats "queue_joins" in
           ret (Some queueEntry)
       end)
    (fun error => throw error).

(** [createHumanMatch]: the first participant is the one searching, the
    second an entry of the queue. *)
Definition createHumanMatch (participant1Data : ParticipantData)
    (participant2Data : QueueEntry) : M JsObject :=
  let* matchId := uuidv4 in
  let roundNumber := pd_roundNumber participant1Data in
  try_catch
    (if String.eqb (pd_participantId participant1Data) (qe_participantId participant2Data)
     then throw "Self-match attempted"
     else
       let* participant2Name :=
         (if str_truthy (qe_participantName participant2Data)
          then ret (qe_participantName participant2Data)
          else
            try_catch
              (let* participant2Info := getParticipant (qe_participantId participant2Data) in
               ret (match participant2Info with
                    | Some info => getPlayerDisplayName (dbp_id info) (dbp_name info)
                    | None => getPlayerDisplayName (qe_participantId participant2Data) EmptyString
                    end))
              (fun _ =>
                 ret (getPlayerDisplayName (qe_participantId participant2Data) EmptyString))) in
       let* created := Date_now in
       let matchData := obj [
         ("id", JStr matchId);
         ("participant1_id", JStr (pd_participantId participant1Data));
         ("participant2_id", JStr (qe_participantId participant2Data));
         ("round_number", JNum (inject_Z roundNumber));
         ("match_type", JStr "live");
         ("status", JStr "active");
         ("created_at", JStr (Date_toISOString created));
         ("isAI", JBool false);
         ("opponent", JStr (JSON_stringify (JObj (obj [
             ("name", JStr participant2Name);
             ("participant_id", JStr (qe_participantId participant2Data));
             ("skill_level", JNum (qe_skillLevel participant2Data))]))))] in
       run createMatch matchId matchData in
       run try_catch (run createTournamentMatch matchData in ret tt) (fun _ => ret tt) in
       run promise_all2
             (setParticipantStatus (pd_participantId participant1Data) "matched"
                                   {[ "matchId" := matchId ]})
             (setParticipantStatus (qe_participantId participant2Data) "matched"
                                   {[ "matchId" := matchId ]}) in
       let queueKey := queueKeyOf roundNumber in
       run promise_all2
             (removeFromQueue queueKey (pd_participantId participant1Data))
             (removeFromQueue queueKey (qe_participantId participant2Data)) in
       run incrementMatchStats "human_matches" in
       ret matchData)
    (fun error => throw error).

(** [findImmediateMatch]: [None] is [null]. The [return match] inside the
    inner [try] is the value of the block; the [finally] runs after it. *)
Definition findImmediateMatch (participantData : ParticipantData) : M (option JsObject) :=
  let participantId := pd_participantId participantData in
  let roundNumber := pd_roundNumber participantData in
  let skillLevel := pd_skillLevel participantData in
  let queueKey := queueKeyOf roundNumber in
  let lockKey := lockKeyOf roundNumber in
  let* clock := Date_now in
  let lockValue := participantId +:+ "-" +:+ Number_toString (inject_Z clock) in
  let lockTimeout := 5000 in
  try_catch
    (let* lockAcquired := acquireLock lockKey lockValue lockTimeout in
     if negb lockAcquired then ret None
     else
       try_finally
         (let* allParticipants := getQueueEntries queueKey None in
          let* waitingParticipants := getQueueEntries queueKey (Some participantId) in
          if (length waitingParticipants =? 0)%nat then ret None
          else
            let bestMatch := findBestSkillMatch skillLevel waitingParticipants in
            match bestMatch with
            | Some best =>
                let* m := createHumanMatch participantData best in
                run releaseLock lockKey lockValue in
                ret (Some m)
            | None => ret None
            end)
         (run releaseLock lockKey lockValue in ret tt))
    (fun _ => ret None).

(** [createAIMatch] of the Engine. [selectOpponent] draws a value of
    [Math.random()] for its pick only when it picks among several, and one
    for the effective skill in every case. *)
Definition createAIMatch (participantData : ParticipantData) : M JsObject :=
  let participantId := pd_participantId participantData in
  let roundNumber := pd_roundNumber participantData in
  let skillLevel := pd_skillLevel participantData in
  try_catch
    (run cleanupParticipantQueue participantId roundNumber in
     run clearFallbackTimeout participantId in
     let* rndPick :=
       (if picksAtRandom skillLevel 1.5 then Math_random else ret 0%Q) in
     let* rndSkill := Math_random in
     let* uuidSel := uuidv4 in
     let* uuidMatch := uuidv4 in
     let* created := Date_now in
     match AIOpponentService.createAIMatch rndPick rndSkill uuidSel uuidMatch created
                            participantId roundNumber skillLevel with
     | None => throw "TypeError"
     | Some aiMatchData =>
         run createMatch uuidMatch aiMatchData in
         run try_catch (run createTournamentMatch aiMatchData in ret tt) (fun _ => ret tt) in
         run setParticipantStatus participantId "matched"
               (<["opponentType" := "ai"]> {[ "matchId" := uuidMatch ]}) in
         run incrementMatchStats "ai_matches" in
         ret aiMatchData
     end)
    (fun _ =>
       let fallbackOpponentId := "AI-FALLBACK-" +:+ slice_last4 participantId in
       let* fallbackId := uuidv4 in
       let* created := Date_now in
       let fallbackMatch := obj [
         ("id", JStr fallbackId);
         ("participant1_id", JStr participantId);
         ("participant2_id", JNull);
         ("round_number", JNum (inject_Z roundNumber));
         ("match_type", JStr "live");
         ("status", JStr "active");
         ("created_at", JStr (Date_toISOString created));
         ("isAI", JBool true);
         ("opponent", JStr (JSON_stringify (JObj (obj [
             ("id", JStr "ai_fallback");
             ("name", JStr (getBotName fallbackOpponentId));
             ("participant_id", JStr fallbackOpponentId);
             ("skill_level", JNum 7);
             ("personality", JStr "competitive");
             ("responsePattern", JStr "medium")]))))] in
       ret fallbackMatch).

(** [checkQueueActivity]: more than one entry of the round queue joined in
    the last five minutes. *)
Definition checkQueueActivity (roundNumber : Z) : M bool :=
  let queueKey := queueKeyOf roundNumber in
  let* entries := getQueueEntries queueKey None in
  let* clock := Date_now in
  let fiveMinutesAgo := clock - 5 * 60 * 1000 in
  let recentEntries :=
    List.filter (fun entry => fiveMinutesAgo <? qe_joinedAt entry) entries in
  ret (1 <? length recentEntries)%nat.

(** One tick of the re-scanner: the callback that [startContinuousSearch]
    gives to [setInterval]; [searchInterval] is the handle of that interval.
    The inner [try] yields whether the callback returned inside it. *)
Definition continuousSearchTask (searchInterval : nat) (participantData : ParticipantData)
    : M unit :=
  let participantId := pd_participantId participantData in
  let* w := get_world in
  match activeSearches (engine w) !! participantId with
  | None => clearInterval searchInterval
  | Some searchData =>
      let attempts := searchAttempts searchData + 1 in
      run activeSearches_set participantId
            {| startTime := startTime searchData;
               sd_roundNumber := sd_roundNumber searchData;
               searchAttempts := attempts |} in
      try_catch
        (let* status := getParticipantStatus participantId in
         if bool_decide (status !! "status" = Some "matched")
            || bool_decide (status !! "status" = Some "matching")
         then
           run clearInterval searchInterval in
           activeSearches_delete participantId
         else
           let* returned :=
             try_catch
               (let* existingMatch :=
                  getActiveMatchForParticipant participantId
                    (pd_roundNumber participantData) in
                match existingMatch with
                | Some row =>
                    run clearInterval searchInterval in
                    run activeSearches_delete participantId in
                    run setParticipantStatus participantId "matched"
                          {[ "matchId" := toRedisString (prop row "id") ]} in
                    ret true
                | None => ret false
                end)
               (fun _ => ret false) in
           if (returned : bool) then ret tt
           else
             let* found := findImmediateMatch participantData in
             run match found with
                 | Some m =>
                     run clearInterval searchInterval in
                     run activeSearches_delete participantId in
                     run clearFallbackTimeout participantId in
                     notifyCallback m
                 | None => ret tt
                 end in
             if minSearchAttempts cfg <=? attempts then
               let* queueActivity := checkQueueActivity (pd_roundNumber participantData) in
               if negb queueActivity then
                 run clearInterval searchInterval in
                 let* aiMatch := createAIMatch participantData in
                 run activeSearches_delete participantId in
                 notifyCallback aiMatch
               else ret tt
             else ret tt)
        (fun _ => ret tt)
  end.

(** [startContinuousSearch]: the re-scanner is registered with
    [setInterval]; each tick of the interval [h] it returns runs
    [continuousSearchTask h participantData]. *)
Definition startContinuousSearch (participantData : ParticipantData) : M unit :=
  run setInterval participantData in ret tt.

(** The callback that [setAIFallbackTimeout] gives to [setTimeout]. *)
Definition aiFallbackTask (participantData : ParticipantData) : M unit :=
  let participantId := pd_participantId participantData in
  let* w := get_world in
  if bool_decide (is_Some (activeSearches (engine w) !! participantId)) then
    let* aiMatch := createAIMatch participantData in
    run activeSearches_delete participantId in
    notifyCallback aiMatch
  else ret tt.

(** [setAIFallbackTimeout]: when the timeout it registers fires,
    [aiFallbackTask participantData] runs. *)
Definition setAIFallbackTimeout (participantData : ParticipantData) : M unit :=
  let participantId := pd_participantId participantData in
  let* timeout := setTimeout participantData in
  matchTimeouts_set participantId timeout.

Definition getQueuePosition (participantId : string) (roundNumber : Z) : M Z :=
  let queueKey := queueKeyOf roundNumber in
  RedisService.getQueuePosition queueKey participantId.

(** The object [startMatchmaking] returns while the search goes on. *)
Definition searching_status (queuePosition : Z) : JsObject :=
  obj [("status", JStr "searching");
       ("queuePosition", JNum (inject_Z queuePosition));
       ("estimatedWaitTime", JNum (inject_Z (humanSearchTimeoutMs cfg) / 1000)%Q)].

Definition already_searching_status : JsObject :=
  obj [("status", JStr "already_searching")].

(** [startMatchmaking] *)
Definition startMatchmaking (participantData : ParticipantData) : M JsObject :=
  let participantId := pd_participantId participantData in
  let roundNumber := pd_roundNumber participantData in
  let skillLevel := pd_skillLevel participantData in
  let treatmentGroup := pd_treatmentGroup participantData in
  let* w := get_world in
  if bool_decide (is_Some (activeSearches (engine w) !! participantId))
  then ret already_searching_status
  else
    try_catch
      (let* clock := Date_now in
       run activeSearches_set participantId
             {| startTime := clock; sd_roundNumber := roundNumber; searchAttempts := 0 |} in
       run setParticipantStatus participantId "searching"
             (<["treatmentGroup" := treatmentGroup]>
                (<["skillLevel" := Number_toString skillLevel]>
                   {[ "roundNumber" := Number_toString (inject_Z roundNumber) ]})) in
       run cleanupParticipantQueue participantId roundNumber in
       run joinQueue participantData in
       let* immediateMatch := findImmediateMatch participantData in
       match immediateMatch with
       | Some m =>
           run activeSearches_delete participantId in
           run notifyCallback m in
           ret m
       | None =>
           run startContinuousSearch participantData in
           run setAIFallbackTimeout participantData in
           let* queuePosition := getQueuePosition participantId roundNumber in
           ret (searching_status queuePosition)
       end)
      (fun _ =>
         run activeSearches_delete participantId in
         createAIMatch participantData).

(** The statements of [startMatchmaking] from the registration of the
    search up to the defensive dequeue: what runs before [joinQueue] is
    called. *)
Definition startMatchmaking_prelude (participantData : ParticipantData) : M unit :=
  let participantId := pd_participantId participantData in
  let roundNumber := pd_roundNumber participantData in
  let skillLevel := pd_skillLevel participantData in
  let treatmentGroup := pd_treatmentGroup participantData in
  let* clock := Date_now in
  run activeSearches_set participantId
        {| startTime := clock; sd_roundNumber := roundNumber; searchAttempts := 0 |} in
  run setParticipantStatus participantId "searching"
        (<["treatmentGroup" := treatmentGroup]>
           (<["skillLevel" := Number_toString skillLevel]>
              {[ "roundNumber" := Number_toString (inject_Z roundNumber) ]})) in
  run cleanupParticipantQueue participantId roundNumber in
  ret tt.

(** [cancelMatchmaking] *)
Definition cancelMatchmaking (participantId : string) (roundNumber : Z) : M unit :=
  run activeSearches_delete participantId in
  run clearFallbackTimeout participantId in
  run cleanupParticipantQueue participantId roundNumber in
  run setParticipantStatus participantId "cancelled" ∅ in
  ret tt.

End WithRuntime.
End MatchmakingEngine.
Import MatchmakingEngine.

(** ** [WebSocketService]: the match-found dispatch *)

Module WebSocketService.

(** An entry of [connectedClients]: whether it has a socket, the registered
    name (empty when none was given) and the time it was last seen. *)
Record ClientInfo := {
  ci_socketId : string;
  ci_socket : bool;
  ci_name : string;
  ci_lastSeen : Z
}.

(** One [socket.emit(event, data)] to the socket of a participant. *)
Record Emission := {
  em_to : string;
  em_event : string;
  em_data : JsObject
}.

Section WithRuntime.
Context {rt : JsRuntime}.

(** [sendToParticipant]: the emission, if the participant is connected, and
    the clients with [lastSeen] renewed. Only a string is a key of the map. *)
Definition sendToParticipant (clients : gmap string ClientInfo) (clock : Z)
    (participantId : JVal) (event : string) (data : JsObject)
    : list Emission * gmap string ClientInfo :=
  match participantId with
  | JStr pid =>
      match clients !! pid with
      | Some clientInfo =>
          if ci_socket clientInfo then
            ([ {| em_to := pid; em_event := event; em_data := data |} ],
             <[pid := {| ci_socketId := ci_socketId clientInfo;
                         ci_socket := ci_socket clientInfo;
                         ci_name := ci_name clientInfo;
                         ci_lastSeen := clock |}]> clients)
          else ([], clients)
      | None => ([], clients)
      end
  | _ => ([], clients)
  end.

(** [this.connectedClients.get(id)?.name] *)
Definition clientName (clients : gmap string ClientInfo) (id : JVal) : JVal :=
  match id with
  | JStr pid =>
      match clients !! pid with
      | Some clientInfo => JStr (ci_name clientInfo)
      | None => JUndefined
      end
  | _ => JUndefined
  end.

(** [given || clients.get(id)?.name || `Player ${id.slice(-4)}`]; [None]
    where [id.slice] throws a [TypeError] (it is evaluated last). *)
Definition displayNameOf (clients : gmap string ClientInfo) (given id : JVal) : option JVal :=
  if truthy given then Some given
  else if truthy (clientName clients id) then Some (clientName clients id)
  else match id with
       | JStr pid => Some (JStr ("Player " +:+ slice_last4 pid))
       | _ => None
       end.

(** The value of [originalOpponent] after the inner [try]: the parsed text
    of the [opponent] field, the empty object when the text does not parse,
    or the field itself when it is not a string. *)
Definition originalOpponentOf (processedMatchData : JsObject) : JVal :=
  match prop processedMatchData "opponent" with
  | JStr text =>
      match JSON_parse text with
      | Some v => v
      | None => JObj ∅
      end
  | v => v
  end.

(** [originalOpponent.skill_level]; [None] where reading a property of
    [null] or [undefined] throws a [TypeError]. *)
Definition skill_level_of (originalOpponent : JVal) : option JVal :=
  match originalOpponent with
  | JObj o => Some (prop o "skill_level")
  | JNull | JUndefined => None
  | _ => Some JUndefined
  end.

(** The first lines of [notifyMatchFound]: [isAI] as a boolean. *)
Definition processMatchData (matchData : JsObject) : JsObject :=
  match prop matchData "isAI" with
  | JStr s => <["isAI" := JBool (String.eqb s "true")]> matchData
  | _ => matchData
  end.

(** The opponent text pushed to a peer. *)
Definition opponentText (name participant_id skill_level : JVal) : JVal :=
  JStr (JSON_stringify (JObj (obj [
    ("name", name);
    ("participant_id", participant_id);
    ("skill_level", skill_level)]))).

(** [notifyMatchFound]: what is emitted, and the clients afterwards. An
    error thrown before the sends is caught and logged: nothing is sent. *)
Definition notifyMatchFound (clients : gmap string ClientInfo) (clock : Z)
    (matchData : JsObject) : list Emission * gmap string ClientInfo :=
  let processedMatchData := processMatchData matchData in
  let participant1_id := prop processedMatchData "participant1_id" in
  let participant2_id := prop processedMatchData "participant2_id" in
  let isAI := prop processedMatchData "isAI" in
  if truthy isAI then
    sendToParticipant clients clock participant1_id "match_found"
      (<["timestamp" := JNum (inject_Z clock)]>
         (<["myRole" := JStr "participant1"]> processedMatchData))
  else
    match displayNameOf clients (prop processedMatchData "participant1_name") participant1_id,
          displayNameOf clients (prop processedMatchData "participant2_name") participant2_id,
          skill_level_of (originalOpponentOf processedMatchData) with
    | Some participant1Name, Some participant2Name, Some skill_level =>
        let participant1MatchData :=
          <["timestamp" := JNum (inject_Z clock)]>
            (<["myRole" := JStr "participant1"]>
               (<["opponent" := opponentText participant2Name participant2_id skill_level]>
                  processedMatchData)) in
        let participant2MatchData :=
          <["timestamp" := JNum (inject_Z clock)]>
            (<["myRole" := JStr "participant2"]>
               (<["opponent" := opponentText participant1Name participant1_id (JNum 7)]>
                  processedMatchData)) in
        let '(sent1, clients1) :=
          sendToParticipant clients clock participant1_id "match_found" participant1MatchData in
        let '(sent2, clients2) :=
          sendToParticipant clients1 clock participant2_id "match_found" participant2MatchData in
        (sent1 ++ sent2, clients2)
    | _, _, _ => ([], clients)
    end.

End WithRuntime.
End WebSocketService.
Import WebSocketService.

(** ** What another task does to the store *)

(** Another participant's [createHumanMatch] pairs with [participantId]: it
    sets the status of [participantId] to "matched" with the match id. *)
Definition markMatched {rt : JsRuntime} (participantId matchId : string) (e : External)
    : External :=
  set_redis
    (store_setParticipantStatus participantId "matched" {[ "matchId" := matchId ]}
       (now e) (redis e)).2 e.

(** ** A runtime and worlds for the closed examples *)

(** The text of a number: the decimal text of an integer; any other
    rational is written as a fraction. *)
Definition sample_number_text (q : Q) : string :=
  if (Z.pos (Qden q) =? 1) then pretty (Qnum q)
  else pretty (Qnum q) +:+ "/" +:+ pretty (Z.pos (Qden q)).

(** The text of a value that is not an object. *)
Definition sample_atom_text (v : JVal) : string :=
  match v with
  | JUndefined => "undefined"
  | JNull => "null"
  | JBool b => if b then "true" else "false"
  | JNum q => sample_number_text q
  | JStr s => s
  | JObj _ => "{...}"
  end.

(** The text of a value: the fields of an object, one level deep. *)
Definition sample_text (v : JVal) : string :=
  match v with
  | JObj o =>
      "{" +:+ String.concat ","
                (List.map (fun kv => kv.1 +:+ ":" +:+ sample_atom_text kv.2) (map_to_list o))
          +:+ "}"
  | _ => sample_atom_text v
  end.

Definition alice_id : string := "00000000-0000-4000-8000-000000000001".
Definition bob_id : string := "00000000-0000-4000-8000-000000000002".

(** The values whose text the sample parser reads back. *)
Definition sample_known : list JVal := [
  JObj (obj [("name", JStr "Alice"); ("participant_id", JStr alice_id);
             ("skill_level", JNum 6.5)])
].

Definition sample_parse (s : string) : option JVal :=
  List.find (fun v => String.eqb (sample_text v) s) sample_known.

#[global] Instance sample_runtime : JsRuntime := {|
  Number_toString := sample_number_text;
  JSON_stringify := sample_text;
  JSON_parse := sample_parse;
  Date_toISOString := fun z => "1970-01-01T00:00:" +:+ pretty z
|}.

Definition empty_redis : Redis :=
  {| zsets := ∅; hashes := ∅; counters := ∅; strings := ∅ |}.

(** An idle process with a registered callback, an empty store, and no
    other task. *)
Definition world0 : World :=
  {| engine := {| activeSearches := ∅; matchTimeouts := ∅; onMatchFound := true |};
     loop := {| timeouts := ∅; intervals := ∅; nextHandle := 0; delivered := [] |};
     ext := {| redis := empty_redis;
               db := {| tournament_matches := []; participants := ∅ |};
               now := 1000 |};
     sched := [];
     uuid_of := fun n => "uuid-" +:+ pretty n;
     uuid_ix := 0;
     random_of := fun _ => 0.5%Q;
     random_ix := 0 |}.

Definition alice : ParticipantData :=
  {| pd_participantId := alice_id;
     pd_participantName := "Alice";
     pd_roundNumber := 1;
     pd_skillLevel := 6.5;
     pd_treatmentGroup := "control" |}.

Definition bob : ParticipantData :=
  {| pd_participantId := bob_id;
     pd_participantName := "Bob";
     pd_roundNumber := 1;
     pd_skillLevel := 7.5;
     pd_treatmentGroup := "control" |}.

(** The world after Alice started a search in [world0]. *)
Definition world_alice_waiting : World :=
  (startMatchmaking default_config alice world0).2.

(** [world0], where another task marks Alice matched between her defensive
    dequeue and her queue join (before the third service call). *)
Definition world_raced : World :=
  set_sched [Interfere id; Interfere id; Interfere (markMatched alice_id "m-9")] world0.

(** [world_alice_waiting], where Bob starts a search and another task marks
    him matched, in the match "m-9", between his defensive dequeue and his
    queue join (before the third service call). *)
Definition world_bob_raced : World :=
  set_sched [Interfere id; Interfere id; Interfere (markMatched bob_id "m-9")]
            world_alice_waiting.

(** The same, with Bob marked matched later: after [joinQueue] read his
    status and before [addToQueue] reads it (before the fifth service
    call). *)
Definition world_bob_raced_late : World :=
  set_sched [Interfere id; Interfere id; Interfere id; Interfere id;
             Interfere (markMatched bob_id "m-9")]
            world_alice_waiting.

(** Bob, then Alice, in the queue of round 1; nobody is searching. *)
Definition world_both_queued : World :=
  (joinQueue alice (joinQueue bob world0).2).2.

(** [world0], where the store is unavailable at the second service call. *)
Definition world_store_down : World :=
  set_sched [Interfere id; Fault] world0.

(** An AI match as the Engine hands it to the store, here with a status
    other than "active". *)
Definition sample_ai_match : JsObject :=
  obj [("id", JStr "m1");
       ("participant1_id", JStr alice_id);
       ("participant2_id", JNull);
       ("round_number", JNum 3);
       ("match_type", JStr "human_vs_ai");
       ("status", JStr "completed");
       ("isAI", JBool true)].

(** Alice and Bob, both connected. *)
Definition sample_clients : gmap string ClientInfo :=
  <[alice_id := {| ci_socketId := "s1"; ci_socket := true; ci_name := "Alice"; ci_lastSeen := 0 |}]>
    (<[bob_id := {| ci_socketId := "s2"; ci_socket := true; ci_name := "Bob"; ci_lastSeen := 0 |}]> ∅).

(** The match of Bob (searching) with Alice (waiting), as the Engine
    returns it. *)
Definition sample_human_match : JsObject :=
  match (startMatchmaking default_config bob world_alice_waiting).1 with
  | Ok m => m
  | Throw _ => ∅
  end.

(** The match read back after [createMatch], or the empty hash when a call
    throws. *)
Definition read_back {rt : JsRuntime} (matchId : string) (matchData : JsObject) (w : World)
    : gmap string string :=
  match createMatch matchId matchData w with
  | (Ok _, w1) => match getMatch matchId w1 with
                  | (Ok h, _) => h
                  | (Throw _, _) => ∅
                  end
  | (Throw _, _) => ∅
  end.

(** The first and the fifth entry of the roster. *)
Definition ai_1 : AIOpponent :=
  {| ai_id := "ai_1"; ai_name := "Bot Alex"; ai_skillLevel := 7.2;
     ai_personality := "competitive"; ai_responsePattern := "fast";
     ai_description := "Quick-thinking competitive strategist" |}.
Definition ai_5 : AIOpponent :=
  {| ai_id := "ai_5"; ai_name := "Bot Morgan"; ai_skillLevel := 7.8;
     ai_personality := "analytical"; ai_responsePattern := "fast";
     ai_description := "Lightning-fast analytical mind" |}.

(** A queue entry of round 1 with the given id and skill. *)
Definition waiting_entry (participantId : string) (skill : Q) : QueueEntry :=
  {| qe_participantId := participantId;
     qe_participantName := EmptyString;
     qe_roundNumber := 1;
     qe_skillLevel := skill;
     qe_treatmentGroup := "control";
     qe_joinedAt := 0;
     qe_status := "waiting" |}.

(** The field [k] of the object a call returned; none when it threw. *)
Definition field (r : Res JsObject) (k : string) : option JVal :=
  match r with
  | Ok m => m !! k
  | Throw _ => None
  end.

(** ** Specifications of a call *)

(** Every value the call returns satisfies [P]. *)
Definition returns {A : Type} (c : M A) (P : A -> Prop) : Prop :=
  forall w a w', c w = (Ok a, w') -> P a.

(** The call keeps the invariant [I] of the world, on both exits. *)
Definition keeps {A : Type} (I : World -> Prop) (c : M A) : Prop :=
  forall w r w', I w -> c w = (r, w') -> I w'.

(** No other task runs and every service answers. *)
Definition quiet (w : World) : Prop := sched w = [].

(** The call never throws when the world is quiet, and leaves it quiet. *)
Definition succeeds {A : Type} (c : M A) : Prop :=
  forall w, quiet w -> exists a w', c w = (Ok a, w') /\ quiet w'.

(** The shape of a human match record: the two ids, distinct, the tag of a
    human match and [isAI = false]. *)
Definition human_match_of (a b : string) (m : JsObject) : Prop :=
  m !! "participant1_id" = Some (JStr a) /\
  m !! "participant2_id" = Some (JStr b) /\
  a <> b /\
  m !! "match_type" = Some (JStr "live") /\
  m !! "isAI" = Some (JBool false).

(** Every record handed to the match-found callback that says
    [isAI = false] pairs two distinct participants. *)
Definition delivered_pairs_distinct (w : World) : Prop :=
  Forall (fun m => m !! "isAI" = Some (JBool false) ->
                   exists a b, human_match_of a b m)
         (delivered (loop w)).

(** The shape of an AI match record. *)
Definition ai_match_of (a : string) (m : JsObject) : Prop :=
  m !! "participant1_id" = Some (JStr a) /\
  m !! "participant2_id" = Some JNull /\
  m !! "isAI" = Some (JBool true).

(** * Properties

    ** The order of doubles *)

Lemma compare_cont_Eq (m1 m2 : positive) : Pos.compare_cont Eq m1 m2 = (m1 ?= m2)%positive.
Proof. reflexivity. Qed.

Ltac sf_order :=
  unfold SFltb, SFleb, SFcompare;
  repeat match goal with
         | x : spec_float |- _ => destruct x as [[]|[]| |[] ? ?]
         end;
  cbn [is_nan]; intros; try discriminate; try reflexivity;
  rewrite ?compare_cont_Eq in *;
  repeat match goal with
         | |- context [(?a ?= ?b)%Z] => destruct (Z.compare_spec a b)
         | H : context [(?a ?= ?b)%Z] |- _ => destruct (Z.compare_spec a b)
         | |- context [(?a ?= ?b)%positive] => destruct (Pos.compare_spec a b)
         | H : context [(?a ?= ?b)%positive] |- _ => destruct (Pos.compare_spec a b)
         end;
  cbn [CompOpp] in *; try discriminate; try reflexivity; try lia.

Lemma SFltb_false_SFleb (x y : double) :
  is_nan x = false -> is_nan y = false -> SFltb x y = false -> SFleb y x = true.
Proof. sf_order. Qed.

Lemma SFltb_SFleb (x y : double) : SFltb x y = true -> SFleb x y = true.
Proof. sf_order. Qed.

Lemma SFltb_not_SFleb (x y : double) : SFltb x y = true -> SFleb y x = true -> False.
Proof. sf_order. Qed.

Lemma SFleb_refl (x : double) : is_nan x = false -> SFleb x x = true.
Proof. sf_order. Qed.

Lemma SFltb_trans (x y z : double) :
  SFltb x y = true -> SFltb y z = true -> SFltb x z = true.
Proof. sf_order. Qed.

Lemma SFltb_SFleb_trans (x y z : double) :
  SFltb x y = true -> SFleb y z = true -> SFltb x z = true.
Proof. sf_order. Qed.

Lemma SFleb_SFltb_trans (x y z : double) :
  SFleb x y = true -> SFltb y z = true -> SFltb x z = true.
Proof. sf_order. Qed.

Lemma SFleb_trans (x y z : double) :
  SFleb x y = true -> SFleb y z = true -> SFleb x z = true.
Proof. sf_order. Qed.

Lemma SFleb_not_nan (x y : double) : SFleb x y = true -> is_nan x = false /\ is_nan y = false.
Proof. unfold SFleb, SFcompare. destruct x, y; try discriminate; by split. Qed.

(** ** Where NaN comes from *)

Lemma iter_pos_invariant {A : Type} (f : A -> A) (Inv : A -> Prop) :
  (forall x, Inv x -> Inv (f x)) -> forall p x, Inv x -> Inv (SpecFloat.iter_pos f p x).
Proof.
  intros Hf. induction p as [p IH|p IH|]; intros x Hx; cbn [SpecFloat.iter_pos]; auto.
Qed.

Lemma shr_1_nonneg (mrs : shr_record) : 0 <= shr_m mrs -> 0 <= shr_m (shr_1 mrs).
Proof. destruct mrs as [[|[p|p|]|[p|p|]] r s0]; cbn; lia. Qed.

Lemma shr_nonneg (mrs : shr_record) (e n : Z) :
  0 <= shr_m mrs -> 0 <= shr_m (shr mrs e n).1.
Proof.
  intros H. unfold shr. destruct n as [|p|p]; cbn [fst]; [exact H| |exact H].
  apply (iter_pos_invariant shr_1 (fun m => 0 <= shr_m m)); [apply shr_1_nonneg|exact H].
Qed.

Lemma shr_fexp_nonneg (m e : Z) (l : location) :
  0 <= m -> 0 <= shr_m (shr_fexp 53 1024 m e l).1.
Proof.
  intros H. unfold shr_fexp. apply shr_nonneg. by destruct l as [|[]].
Qed.

Lemma round_nearest_even_nonneg (m : Z) (l : location) :
  0 <= m -> 0 <= round_nearest_even m l.
Proof.
  intros H. unfold round_nearest_even. destruct l as [|[]]; [lia| |lia|lia].
  destruct (Z.even m); lia.
Qed.

Lemma binary_round_aux_not_nan (sx : bool) (mx ex : Z) (lx : location) :
  0 <= mx -> is_nan (binary_round_aux 53 1024 sx mx ex lx) = false.
Proof.
  intros H. unfold binary_round_aux.
  pose proof (shr_fexp_nonneg mx ex lx H) as H1.
  destruct (shr_fexp 53 1024 mx ex lx) as [mrs' e']. cbn [fst] in H1.
  pose proof (shr_fexp_nonneg _ e' loc_Exact
                (round_nearest_even_nonneg _ (loc_of_shr_record mrs') H1)) as H2.
  destruct (shr_fexp 53 1024 _ e' loc_Exact) as [mrs'' e'']. cbn [fst] in H2.
  destruct (shr_m mrs'') as [|m|m]; [reflexivity| |lia].
  by destruct (e'' <=? 1024 - 53).
Qed.

Lemma binary_normalize_not_nan (m e : Z) (szero : bool) :
  is_nan (binary_normalize 53 1024 m e szero) = false.
Proof.
  unfold binary_normalize, binary_round. destruct m as [|m|m]; [reflexivity| |];
    destruct (shl_align _ _ _) as [mz ez]; by apply binary_round_aux_not_nan.
Qed.

Lemma double_of_Z_not_nan (z : Z) : is_nan (double_of_Z z) = false.
Proof. apply binary_normalize_not_nan. Qed.

Lemma SFdiv_core_binary_nonneg (m1 m2 : positive) (e1 e2 : Z) :
  0 <= (SFdiv_core_binary 53 1024 (Z.pos m1) e1 (Z.pos m2) e2).1.1.
Proof.
  unfold SFdiv_core_binary. cbv zeta.
  match goal with
  | |- context [Z.div_eucl ?m' _] =>
      assert (0 <= m') as Hm
        by (destruct (_ - _ - _) as [|sh|sh]; [lia|by apply Z.shiftl_nonneg|lia]);
      pose proof (Z.div_pos m' (Z.pos m2) Hm ltac:(lia)) as Hq;
      unfold Z.div in Hq;
      destruct (Z.div_eucl m' (Z.pos m2)) as [q r]
  end.
  exact Hq.
Qed.

(** A number written as a rational is never NaN. *)
Lemma double_of_Q_not_nan (q : Q) : is_nan (double_of_Q q) = false.
Proof.
  unfold double_of_Q, ddiv, SFdiv.
  destruct (Qnum q) as [|n|n]; [reflexivity| |];
    pose proof (SFdiv_core_binary_nonneg n (Qden q) 0 0) as H;
    destruct (SFdiv_core_binary 53 1024 (Z.pos n) 0 (Z.pos (Qden q)) 0) as [[mz ez] lz];
    by apply binary_round_aux_not_nan.
Qed.

Lemma SFabs_is_nan (x : double) : is_nan (SFabs x) = is_nan x.
Proof. by destruct x. Qed.

Lemma dsub_not_nan (x y : double) :
  is_nan x = false -> is_nan y = false -> is_finite x = true \/ is_finite y = true ->
  is_nan (dsub x y) = false.
Proof.
  intros Hx Hy Hf. unfold dsub, SFsub.
  destruct x as [[]|[]| |sx mx ex], y as [[]|[]| |sy my ey];
    try discriminate; try reflexivity;
    try (destruct Hf; discriminate).
  apply binary_normalize_not_nan.
Qed.

Lemma dadd_not_nan (x y : double) :
  is_nan x = false -> is_nan y = false -> is_finite x = true \/ is_finite y = true ->
  is_nan (dadd x y) = false.
Proof.
  intros Hx Hy Hf. unfold dadd, SFadd.
  destruct x as [[]|[]| |sx mx ex], y as [[]|[]| |sy my ey];
    try discriminate; try reflexivity;
    try (destruct Hf; discriminate).
  apply binary_normalize_not_nan.
Qed.

Lemma dmul_not_nan (x : double) (sy : bool) (my : positive) (ey : Z) :
  is_nan x = false -> is_nan (dmul x (S754_finite sy my ey)) = false.
Proof.
  intros Hx. unfold dmul, SFmul. destruct x as [sx|sx| |sx mx ex]; try done.
  apply binary_round_aux_not_nan. lia.
Qed.

(** ** [Math.max] and [Math.min] *)

Lemma Math_min_is_nan (x y : double) : is_nan (Math_min x y) = is_nan x || is_nan y.
Proof.
  unfold Math_min. destruct (is_nan x) eqn:Ex, (is_nan y) eqn:Ey; try reflexivity.
  cbn [orb]. destruct (SFltb x y); [exact Ex|]. destruct (SFltb y x); [exact Ey|].
  destruct x as [[]| | |], y as [[]| | |]; done.
Qed.

Lemma Math_max_is_nan (x y : double) : is_nan (Math_max x y) = is_nan x || is_nan y.
Proof.
  unfold Math_max. destruct (is_nan x) eqn:Ex, (is_nan y) eqn:Ey; try reflexivity.
  cbn [orb]. destruct (SFltb x y); [exact Ey|]. destruct (SFltb y x); [exact Ex|].
  destruct x as [[]| | |], y as [[]| | |]; done.
Qed.

Lemma SFleb_zeros (a b : bool) (x : double) :
  SFleb (S754_zero a) x = SFleb (S754_zero b) x /\
  SFleb x (S754_zero a) = SFleb x (S754_zero b).
Proof. by destruct x. Qed.

Lemma Math_min_le (x y : double) :
  is_nan x = false -> is_nan y = false ->
  SFleb (Math_min x y) x = true /\ SFleb (Math_min x y) y = true /\
  (forall a, SFleb a x = true -> SFleb a y = true -> SFleb a (Math_min x y) = true).
Proof.
  intros Hx Hy. unfold Math_min. rewrite Hx, Hy. cbn [orb].
  destruct (SFltb x y) eqn:E1.
  { split; [by apply SFleb_refl|]. split; [by apply SFltb_SFleb|]. auto. }
  destruct (SFltb y x) eqn:E2.
  { split; [by apply SFltb_SFleb|]. split; [by apply SFleb_refl|]. auto. }
  pose proof (SFltb_false_SFleb x y Hx Hy E1) as L1.
  pose proof (SFltb_false_SFleb y x Hy Hx E2) as L2.
  destruct x as [[]| | |], y as [[]| | |];
    (split; [first [by apply SFleb_refl|done]|split; [first [by apply SFleb_refl|done]|auto]]).
Qed.

Lemma Math_max_ge (x y : double) :
  is_nan x = false -> is_nan y = false ->
  SFleb x (Math_max x y) = true /\ SFleb y (Math_max x y) = true /\
  (forall b, SFleb x b = true -> SFleb y b = true -> SFleb (Math_max x y) b = true).
Proof.
  intros Hx Hy. unfold Math_max. rewrite Hx, Hy. cbn [orb].
  destruct (SFltb x y) eqn:E1.
  { split; [by apply SFltb_SFleb|]. split; [by apply SFleb_refl|]. auto. }
  destruct (SFltb y x) eqn:E2.
  { split; [by apply SFleb_refl|]. split; [by apply SFltb_SFleb|]. auto. }
  pose proof (SFltb_false_SFleb x y Hx Hy E1) as L1.
  pose proof (SFltb_false_SFleb y x Hy Hx E2) as L2.
  destruct x as [[]| | |], y as [[]| | |];
    (split; [first [by apply SFleb_refl|done]|split; [first [by apply SFleb_refl|done]|auto]]).
Qed.

(** [Math.max(lo, Math.min(hi, x))] of a number lies between [lo] and [hi]. *)
Lemma clamp_between (lo hi x : double) :
  SFleb lo hi = true -> is_nan x = false ->
  SFleb lo (Math_max lo (Math_min hi x)) = true /\
  SFleb (Math_max lo (Math_min hi x)) hi = true.
Proof.
  intros Hlh Hx. destruct (SFleb_not_nan _ _ Hlh) as [Hlo Hhi].
  assert (is_nan (Math_min hi x) = false) as Hm by (by rewrite Math_min_is_nan, Hhi, Hx).
  destruct (Math_max_ge lo (Math_min hi x) Hlo Hm) as (H1 & H2 & H3).
  split; [exact H1|]. apply H3; [exact Hlh|].
  by destruct (Math_min_le hi x Hhi Hx) as (K1 & _).
Qed.

(** ** Display names *)

Example slice_last4_of_an_id : slice_last4 alice_id = "0001".
Proof. reflexivity. Qed.

(** [slice(-4)] of a string of fewer than four characters is the string. *)
Example slice_last4_of_a_short_string : slice_last4 "ab" = "ab".
Proof. reflexivity. Qed.

(** The name of the opponent of the fallback AI match of Alice. *)
Example getBotName_of_the_fallback_opponent :
  getBotName ("AI-FALLBACK-" +:+ slice_last4 alice_id) = "Bot Emery".
Proof. reflexivity. Qed.

Example getPlayerDisplayName_first_name :
  getPlayerDisplayName alice_id "Alice Liddell" = "Alice".
Proof. reflexivity. Qed.

Example getPlayerDisplayName_without_a_name :
  getPlayerDisplayName alice_id EmptyString = "Player 0001".
Proof. reflexivity. Qed.

(** ** The skill-window selection *)

Lemma app_cons_cases {A : Type} (l1 l1' l2 l2' : list A) (c c' : A) :
  l1 ++ c :: l2 = l1' ++ c' :: l2' ->
  (l1 = l1' /\ c = c' /\ l2 = l2') \/
  (exists m, l1' = l1 ++ c :: m /\ l2 = m ++ c' :: l2') \/
  (exists m, l1 = l1' ++ c' :: m /\ l2' = m ++ c :: l2).
Proof.
  revert l1'. induction l1 as [|a l1 IH]; intros [|a' l1']; simpl; intros H.
  - injection H as -> ->. by left.
  - injection H as -> ->. right; left. by exists l1'.
  - injection H as -> <-. right; right. by exists l1.
  - injection H as -> H. destruct (IH _ H) as [(-> & -> & ->)|[(m & -> & ->)|(m & -> & ->)]].
    + by left.
    + right; left. by exists m.
    + right; right. by exists m.
Qed.

(** *** Algorithm A over exact numbers has one result *)
Section SelectionFacts.
Context {A : Type} (skill : A -> Q).
Variables (T s : Q).

Lemma AlgorithmA_functional (l : list A) (r1 r2 : option A) :
  AlgorithmA skill T s l r1 -> AlgorithmA skill T s l r2 -> r1 = r2.
Proof.
  intros H1 H2.
  destruct H1 as [|l1 c l2 Hl1 Hc|l1 c l2 Hall Hl1 Hl2].
  - inversion H2 as [|l1' c' l2' _ _ E|l1' c' l2' _ _ _ E]; [done| |];
      by destruct l1'.
  - inversion H2 as [E|l1' c' l2' Hl1' Hc' E|l1' c' l2' Hall' _ _ E].
    + by destruct l1.
    + destruct (app_cons_cases _ _ _ _ _ _ E)
        as [(-> & -> & ->)|[(m & -> & ->)|(m & -> & ->)]]; [done| |].
      * apply Forall_app in Hl1 as [_ Hl1]. apply Forall_cons in Hl1 as [Hn _]. done.
      * apply Forall_app in Hl1' as [_ Hl1']. apply Forall_cons in Hl1' as [Hn _]. done.
    + rewrite E in Hall'. apply Forall_app in Hall' as [_ Hall'].
      apply Forall_cons in Hall' as [Hn _]. done.
  - inversion H2 as [E|l1' c' l2' Hl1' Hc' E|l1' c' l2' _ Hl1' Hl2' E].
    + by destruct l1.
    + rewrite <- E in Hall. apply Forall_app in Hall as [_ Hall].
      apply Forall_cons in Hall as [Hn _]. done.
    + destruct (app_cons_cases _ _ _ _ _ _ E)
        as [(-> & -> & ->)|[(m & -> & ->)|(m & -> & ->)]]; [done| |].
      * apply Forall_app in Hl1 as [_ Hl1]. apply Forall_cons in Hl1 as [Hlt _].
        apply Forall_app in Hl2' as [_ Hl2']. apply Forall_cons in Hl2' as [Hle _].
        exfalso. exact (Qlt_not_le _ _ Hlt Hle).
      * apply Forall_app in Hl1' as [_ Hl1']. apply Forall_cons in Hl1' as [Hlt _].
        apply Forall_app in Hl2 as [_ Hl2]. apply Forall_cons in Hl2 as [Hle _].
        exfalso. exact (Qlt_not_le _ _ Hlt Hle).
Qed.
End SelectionFacts.

(** *** The selections of the services and Algorithm A over doubles *)
Section WindowFacts.
Context {A : Type} (skill : A -> Q).
Variables (T s : Q).

Lemma withinThreshold_iff (c : A) :
  withinThreshold skill T s c = true <-> inWindow_double skill T s c.
Proof. reflexivity. Qed.

Lemma filter_window_nil (l : list A) :
  List.filter (withinThreshold skill T s) l = [] ->
  Forall (fun x => ~ inWindow_double skill T s x) l.
Proof.
  induction l as [|a l IH]; simpl; intros H; [constructor|].
  destruct (withinThreshold skill T s a) eqn:E; [discriminate|].
  constructor; [|auto].
  intros Hin. apply withinThreshold_iff in Hin. congruence.
Qed.

Lemma filter_window_head (l : list A) (m : A) (rest : list A) :
  List.filter (withinThreshold skill T s) l = m :: rest ->
  exists l1 l2, l = l1 ++ m :: l2 /\
                Forall (fun x => ~ inWindow_double skill T s x) l1 /\
                inWindow_double skill T s m.
Proof.
  induction l as [|a l IH]; simpl; intros H; [discriminate|].
  destruct (withinThreshold skill T s a) eqn:E.
  - injection H as -> _. exists [], l. split; [reflexivity|].
    split; [constructor|]. by apply withinThreshold_iff.
  - destruct (IH H) as (l1 & l2 & -> & Hl1 & Hm).
    exists (a :: l1), l2. split; [reflexivity|]. split; [|done].
    constructor; [|done]. intros Hin. apply withinThreshold_iff in Hin. congruence.
Qed.

Lemma closerOf_eq (closest current : A) :
  closerOf skill s closest current =
  if SFltb (dist_double skill s current) (dist_double skill s closest)
  then current else closest.
Proof. reflexivity. Qed.

(** The [reduce] returns the earliest of the candidates at the least
    distance, when no distance is NaN. *)
Lemma fold_closerOf_earliest_least (rest : list A) (x : A) :
  Forall (fun c => is_nan (dist_double skill s c) = false) (x :: rest) ->
  exists l1 c l2,
    x :: rest = l1 ++ c :: l2 /\
    fold_left (closerOf skill s) rest x = c /\
    Forall (fun y => SFltb (dist_double skill s c) (dist_double skill s y) = true) l1 /\
    Forall (fun y => SFleb (dist_double skill s c) (dist_double skill s y) = true) l2.
Proof.
  induction rest as [|y rest IH] using rev_ind; intros Hnan.
  - exists [], x, []. simpl. repeat split; constructor.
  - change (x :: rest ++ [y]) with ((x :: rest) ++ [y]) in Hnan.
    apply Forall_app in Hnan as [Hnan Hy]. apply Forall_cons in Hy as [Hy _].
    destruct (IH Hnan) as (l1 & c & l2 & Hsplit & Hfold & Hl1 & Hl2).
    assert (is_nan (dist_double skill s c) = false) as Hc.
    { rewrite Hsplit in Hnan. apply Forall_app in Hnan as [_ Hnan].
      by apply Forall_cons in Hnan as [Hnan _]. }
    rewrite fold_left_app. simpl. rewrite Hfold, closerOf_eq.
    destruct (SFltb (dist_double skill s y) (dist_double skill s c)) eqn:E.
    + exists (x :: rest), y, []. split; [reflexivity|]. split; [reflexivity|].
      split; [|constructor].
      rewrite Hsplit. apply Forall_app. split.
      * eapply Forall_impl; [exact Hl1|]. intros z Hz. simpl in Hz.
        eapply SFltb_trans; eauto.
      * constructor; [exact E|].
        eapply Forall_impl; [exact Hl2|]. intros z Hz. simpl in Hz.
        eapply SFltb_SFleb_trans; eauto.
    + apply SFltb_false_SFleb in E; [|exact Hy|exact Hc].
      exists l1, c, (l2 ++ [y]). split.
      { change (x :: rest ++ [y]) with ((x :: rest) ++ [y]). rewrite Hsplit.
        rewrite <- app_assoc. reflexivity. }
      split; [reflexivity|]. split; [exact Hl1|].
      apply Forall_app. split; [exact Hl2|]. constructor; [exact E|constructor].
Qed.

Lemma AlgorithmA_double_functional (l : list A) (r1 r2 : option A) :
  AlgorithmA_double skill T s l r1 -> AlgorithmA_double skill T s l r2 -> r1 = r2.
Proof.
  intros H1 H2.
  destruct H1 as [|l1 c l2 Hl1 Hc|l1 c l2 Hall Hl1 Hl2].
  - inversion H2 as [|l1' c' l2' _ _ E|l1' c' l2' _ _ _ E]; [done| |];
      by destruct l1'.
  - inversion H2 as [E|l1' c' l2' Hl1' Hc' E|l1' c' l2' Hall' _ _ E].
    + by destruct l1.
    + destruct (app_cons_cases _ _ _ _ _ _ E)
        as [(-> & -> & ->)|[(m & -> & ->)|(m & -> & ->)]]; [done| |].
      * apply Forall_app in Hl1 as [_ Hl1]. apply Forall_cons in Hl1 as [Hn _]. done.
      * apply Forall_app in Hl1' as [_ Hl1']. apply Forall_cons in Hl1' as [Hn _]. done.
    + rewrite E in Hall'. apply Forall_app in Hall' as [_ Hall'].
      apply Forall_cons in Hall' as [Hn _]. done.
  - inversion H2 as [E|l1' c' l2' Hl1' Hc' E|l1' c' l2' _ Hl1' Hl2' E].
    + by destruct l1.
    + rewrite <- E in Hall. apply Forall_app in Hall as [_ Hall].
      apply Forall_cons in Hall as [Hn _]. done.
    + destruct (app_cons_cases _ _ _ _ _ _ E)
        as [(-> & -> & ->)|[(m & -> & ->)|(m & -> & ->)]]; [done| |].
      * apply Forall_app in Hl1 as [_ Hl1]. apply Forall_cons in Hl1 as [Hlt _].
        apply Forall_app in Hl2' as [_ Hl2']. apply Forall_cons in Hl2' as [Hle _].
        exfalso. exact (SFltb_not_SFleb _ _ Hlt Hle).
      * apply Forall_app in Hl1' as [_ Hl1']. apply Forall_cons in Hl1' as [Hlt _].
        apply Forall_app in Hl2 as [_ Hl2]. apply Forall_cons in Hl2 as [Hle _].
        exfalso. exact (SFltb_not_SFleb _ _ Hlt Hle).
Qed.

(** A distance is a number when one of the two skills is a finite number
    and the other is a number. *)
Lemma dist_double_not_nan (c : A) :
  is_nan (double_of_Q s) = false -> is_finite (double_of_Q (skill c)) = true ->
  is_nan (dist_double skill s c) = false.
Proof.
  intros Hs Hc. unfold dist_double. rewrite SFabs_is_nan.
  apply dsub_not_nan; [by destruct (double_of_Q (skill c))|exact Hs|by left].
Qed.
End WindowFacts.

Lemma findBestSkillMatch_is_AlgorithmA_double (cfg : Config) (s : Q) (l : list QueueEntry) :
  Forall (fun c => is_nan (dist_double qe_skillLevel s c) = false) l ->
  AlgorithmA_double qe_skillLevel (skillMatchingThreshold cfg) s l
    (findBestSkillMatch cfg s l).
Proof.
  intros Hnan. unfold findBestSkillMatch.
  destruct l as [|x rest]; [constructor|].
  cbn [length Nat.eqb].
  destruct (List.filter _ (x :: rest)) as [|m ms] eqn:F.
  - cbn [length Nat.eqb reduce1].
    pose proof (filter_window_nil _ _ _ _ F) as Hnone.
    destruct (fold_closerOf_earliest_least qe_skillLevel s rest x Hnan)
      as (l1 & c & l2 & Hsplit & Hfold & Hl1 & Hl2).
    rewrite Hfold, Hsplit. apply AlgD_closest; [|done|done].
    by rewrite <- Hsplit.
  - cbn [length Nat.eqb head].
    destruct (filter_window_head _ _ _ _ _ _ F) as (l1 & l2 & -> & Hl1 & Hm).
    by apply AlgD_window.
Qed.

(** A candidate exactly [T] away is in the window: it is taken before a
    closer candidate that joined later. *)
Example skill_exactly_T_away_is_a_match :
  findBestSkillMatch default_config 7
    [waiting_entry "a" 9; waiting_entry "b" 8.5; waiting_entry "c" 7.1]
  = Some (waiting_entry "b" 8.5).
Proof. vm_compute. reflexivity. Qed.

(** With no candidate in the window the closest is taken, the earliest of
    two at the same distance. *)
Example closest_outside_window_earliest_on_ties :
  findBestSkillMatch default_config 7
    [waiting_entry "a" 3; waiting_entry "b" 9.5; waiting_entry "c" 4.5]
  = Some (waiting_entry "b" 9.5).
Proof. vm_compute. reflexivity. Qed.

Example no_candidate_no_match :
  findBestSkillMatch default_config 7 [] = None.
Proof. reflexivity. Qed.

(** The difference of 8.3 and 6.8 is, in doubles, more than 1.5. *)
Example difference_of_8_3_and_6_8 :
  dsub (double_of_Q 8.3) (double_of_Q 6.8) = S754_finite false 6755399441055748 (-52) /\
  double_of_Q 1.5 = S754_finite false 6755399441055744 (-52) /\
  SFleb (dsub (double_of_Q 8.3) (double_of_Q 6.8)) (double_of_Q 1.5) = false.
Proof. vm_compute. done. Qed.

(** C2, as the specification states it, fails. With the numbers as they are
    written, a participant of skill 6.8 and the candidates 8.3 and 6.9:
    8.3 is exactly 1.5 away and Algorithm A returns it, but the code
    computes the difference 1.5000000000000009 and returns 6.9. With the
    exact values of the doubles, a participant of skill 4 and the candidates
    1.7 and 6.3: the double 6.3 is strictly closer to 4 than the double 1.7
    and Algorithm A returns it, but the two differences round to the same
    double and the code returns the earlier candidate, 1.7. *)
Lemma findBestSkillMatch_is_not_AlgorithmA_over_exact_numbers :
  let a := waiting_entry "a" 8.3 in
  let b := waiting_entry "b" 6.9 in
  let x := (7656119366529843 # 4503599627370496)%Q in
  let y := (7093169413108531 # 1125899906842624)%Q in
  let c := waiting_entry "c" x in
  let d := waiting_entry "d" y in
  (AlgorithmA qe_skillLevel 1.5 6.8 [a; b] (Some a) /\
   findBestSkillMatch default_config 6.8 [a; b] = Some b /\
   ~ AlgorithmA qe_skillLevel 1.5 6.8 [a; b] (findBestSkillMatch default_config 6.8 [a; b])) /\
  (Q_of_double (double_of_Q 1.7) = Some x /\ Q_of_double (double_of_Q 6.3) = Some y /\
   Q_of_double (double_of_Q x) = Some x /\ Q_of_double (double_of_Q y) = Some y /\
   AlgorithmA qe_skillLevel 1.5 4 [c; d] (Some d) /\
   findBestSkillMatch default_config 4 [c; d] = Some c /\
   ~ AlgorithmA qe_skillLevel 1.5 4 [c; d] (findBestSkillMatch default_config 4 [c; d])).
Proof.
  cbv zeta.
  assert (AlgorithmA qe_skillLevel 1.5 6.8 [waiting_entry "a" 8.3; waiting_entry "b" 6.9]
            (Some (waiting_entry "a" 8.3))) as H1.
  { apply (AlgA_window qe_skillLevel 1.5 6.8 [] (waiting_entry "a" 8.3)
             [waiting_entry "b" 6.9]); [constructor|]. vm_compute. discriminate. }
  assert (AlgorithmA qe_skillLevel 1.5 4
            [waiting_entry "c" (7656119366529843 # 4503599627370496);
             waiting_entry "d" (7093169413108531 # 1125899906842624)]
            (Some (waiting_entry "d" (7093169413108531 # 1125899906842624)))) as H2.
  { apply (AlgA_closest qe_skillLevel 1.5 4
             [waiting_entry "c" (7656119366529843 # 4503599627370496)]
             (waiting_entry "d" (7093169413108531 # 1125899906842624)) []).
    - repeat constructor; vm_compute; intros H; by apply H.
    - repeat constructor.
    - constructor. }
  split.
  - split; [exact H1|]. split; [vm_compute; reflexivity|].
    intros H. pose proof (AlgorithmA_functional _ _ _ _ _ _ H H1) as E.
    vm_compute in E. discriminate.
  - split; [vm_compute; reflexivity|]. split; [vm_compute; reflexivity|].
    split; [vm_compute; reflexivity|]. split; [vm_compute; reflexivity|].
    split; [exact H2|]. split; [vm_compute; reflexivity|].
    intros H. pose proof (AlgorithmA_functional _ _ _ _ _ _ H H2) as E.
    vm_compute in E. discriminate.
Qed.

(** C2, amended. [findBestSkillMatch] implements Algorithm A over doubles,
    with the configured threshold: the distance of a candidate is
    [Math.abs(c.skillLevel - s)] as doubles compute it (the difference is
    rounded), and the window test and the comparisons of distances are those
    of doubles. For candidates whose skills are finite doubles: on an empty
    list it returns none; when some candidate is
    at a computed distance of at most the threshold (a candidate at exactly
    the threshold counts) it returns the FIFO-earliest such candidate;
    otherwise it returns the candidate of least computed distance, the
    FIFO-earliest of those whose computed distances are equal. Algorithm A
    over doubles has one result for given inputs, and the function returns
    it. *)
Theorem findBestSkillMatch_implements_AlgorithmA_over_doubles (cfg : Config) (s : Q)
    (l : list QueueEntry) :
  Forall (fun c => is_finite (double_of_Q (qe_skillLevel c)) = true) l ->
  AlgorithmA_double qe_skillLevel (skillMatchingThreshold cfg) s l
    (findBestSkillMatch cfg s l) /\
  (forall r, AlgorithmA_double qe_skillLevel (skillMatchingThreshold cfg) s l r ->
             r = findBestSkillMatch cfg s l) /\
  (l = [] <-> findBestSkillMatch cfg s l = None).
Proof.
  intros Hl. pose proof (double_of_Q_not_nan s) as Hs.
  assert (AlgorithmA_double qe_skillLevel (skillMatchingThreshold cfg) s l
            (findBestSkillMatch cfg s l)) as H.
  { apply findBestSkillMatch_is_AlgorithmA_double.
    eapply Forall_impl; [exact Hl|]. intros c Hc. by apply dist_double_not_nan. }
  split; [exact H|]. split.
  - intros r Hr. exact (AlgorithmA_double_functional _ _ _ _ _ _ Hr H).
  - split.
    + by intros ->.
    + intros E. rewrite E in H. by inversion H.
Qed.

(** The theorem above for a participant of skill 6.8 and the candidates 8.3
    and 6.9. *)
Lemma findBestSkillMatch_implements_AlgorithmA_over_doubles_witness :
  let l := [waiting_entry "a" 8.3; waiting_entry "b" 6.9] in
  AlgorithmA_double qe_skillLevel (skillMatchingThreshold default_config) 6.8 l
    (findBestSkillMatch default_config 6.8 l) /\
  (forall r, AlgorithmA_double qe_skillLevel (skillMatchingThreshold default_config) 6.8 l r ->
             r = findBestSkillMatch default_config 6.8 l) /\
  (l = [] <-> findBestSkillMatch default_config 6.8 l = None).
Proof.
  apply (findBestSkillMatch_implements_AlgorithmA_over_doubles default_config 6.8
           [waiting_entry "a" 8.3; waiting_entry "b" 6.9]).
  apply (bool_decide_unpack _). vm_compute. exact I.
Defined.

(** ** The AI opponent service: numbers and the roster pick *)

(** *** The roster pick *)

Lemma roster_skills_finite :
  Forall (fun o => is_finite (double_of_Q (ai_skillLevel o)) = true) aiOpponents.
Proof. apply (bool_decide_unpack _). vm_compute. exact I. Qed.

Lemma filter_In_roster {A : Type} (p : A -> bool) (l : list A) (i : nat) (x : A) :
  List.filter p l !! i = Some x -> In x l /\ p x = true.
Proof.
  intros H. apply list_elem_of_lookup_2 in H. apply list_elem_of_In in H.
  by apply filter_In in H.
Qed.

Lemma js_index_In {A : Type} (l : list A) (i : Z) (x : A) :
  js_index l i = Some x -> exists n, l !! n = Some x.
Proof. unfold js_index. destruct (i <? 0); [discriminate|]. by eexists. Qed.

Lemma reduce1_closerOf_roster (s : Q) :
  is_nan (double_of_Q s) = false ->
  exists o, reduce1 (closerOf ai_skillLevel s) aiOpponents = Some o /\
            In o aiOpponents /\
            forall T, List.filter (withinThreshold ai_skillLevel T s) aiOpponents = [] ->
                      AlgorithmA_double ai_skillLevel T s aiOpponents (Some o).
Proof.
  intros Hs.
  assert (Forall (fun c => is_nan (dist_double ai_skillLevel s c) = false) aiOpponents)
    as Hnan.
  { eapply Forall_impl; [exact roster_skills_finite|]. intros c Hc.
    by apply dist_double_not_nan. }
  destruct (fold_closerOf_earliest_least ai_skillLevel s (tail aiOpponents)
              (default ai_1 (head aiOpponents)) Hnan)
    as (l1 & c & l2 & Hsplit & Hfold & Hl1 & Hl2).
  change (default ai_1 (head aiOpponents) :: tail aiOpponents) with aiOpponents in Hsplit.
  exists c. split; [|split].
  - change (reduce1 (closerOf ai_skillLevel s) aiOpponents)
      with (Some (fold_left (closerOf ai_skillLevel s) (tail aiOpponents)
                    (default ai_1 (head aiOpponents)))).
    by rewrite Hfold.
  - rewrite Hsplit. apply in_or_app. right. by left.
  - intros T HT. rewrite Hsplit. apply AlgD_closest; [|done|done].
    rewrite <- Hsplit. by apply filter_window_nil.
Qed.

Lemma fold_left_In_roster (s : Q) (o : AIOpponent) :
  reduce1 (closerOf ai_skillLevel s) aiOpponents = Some o ->
  exists n, aiOpponents !! n = Some o.
Proof.
  change (reduce1 (closerOf ai_skillLevel s) aiOpponents)
    with (Some (fold_left (closerOf ai_skillLevel s) (tail aiOpponents)
                  (default ai_1 (head aiOpponents)))).
  intros E. injection E as <-.
  assert (forall (l : list AIOpponent) (x : AIOpponent),
            In (fold_left (closerOf ai_skillLevel s) l x) (x :: l)) as H.
  { induction l as [|y l IH]; intros x; [by left|].
    cbn [fold_left]. destruct (IH (closerOf ai_skillLevel s x y)) as [E|E].
    - rewrite <- E. rewrite closerOf_eq. destruct (SFltb _ _); [right; by left|by left].
    - right. by right. }
  specialize (H (tail aiOpponents) (default ai_1 (head aiOpponents))).
  change (default ai_1 (head aiOpponents) :: tail aiOpponents) with aiOpponents in H.
  apply list_elem_of_In in H. by apply list_elem_of_lookup_1 in H.
Qed.

Lemma double_of_Q_0_6 : double_of_Q 0.6 = S754_finite false 5404319552844595 (-53).
Proof. vm_compute. reflexivity. Qed.

Lemma randomizeSkillLevel_between_1_and_10 (rnd : Q) (o : AIOpponent) :
  In o aiOpponents -> is_nan (double_of_Q rnd) = false ->
  SFleb (double_of_Q 1) (randomizeSkillLevel rnd (ai_skillLevel o)) = true /\
  SFleb (randomizeSkillLevel rnd (ai_skillLevel o)) (double_of_Q 10) = true.
Proof.
  intros Ho Hrnd. unfold randomizeSkillLevel. cbv zeta.
  apply clamp_between; [vm_compute; reflexivity|].
  pose proof roster_skills_finite as HR. rewrite List.Forall_forall in HR.
  specialize (HR o Ho).
  apply dadd_not_nan; [by destruct (double_of_Q (ai_skillLevel o))| |by left].
  rewrite double_of_Q_0_6. apply dmul_not_nan.
  apply dsub_not_nan; [exact Hrnd|vm_compute; reflexivity|right; vm_compute; reflexivity].
Qed.

(** C4, amended. [selectOpponent] filters the roster by the window test
    over doubles. When some roster opponent is within the threshold it
    returns the one at index [Math.floor(Math.random() * count)] of those
    within the threshold, in roster order (a random one of them, not the
    first); when none is, it returns the roster
    opponent of least computed distance, the earliest of those whose
    computed distances are equal. The opponent returned is a roster
    opponent; its effective skill is
    [Math.max(1, Math.min(10, base + (Math.random() - 0.5) * 0.6))] computed
    in doubles, which lies between 1 and 10. *)
Theorem selectOpponent_spec (rndPick rndSkill : Q) (uuid : string) (s T : Q) :
  let suitable :=
    List.filter (fun o => SFleb (dist_double ai_skillLevel s o) (double_of_Q T))
                aiOpponents in
  (suitable <> [] ->
   sel_opponent <$> selectOpponent rndPick rndSkill uuid s T =
     match Math_floor (dmul (double_of_Q rndPick)
                            (double_of_Z (Z.of_nat (length suitable)))) with
     | Some i => if i <? 0 then None else suitable !! Z.to_nat i
     | None => None
     end) /\
  (suitable = [] ->
   exists sel,
     selectOpponent rndPick rndSkill uuid s T = Some sel /\
     AlgorithmA_double ai_skillLevel T s aiOpponents (Some (sel_opponent sel))) /\
  (forall sel,
     selectOpponent rndPick rndSkill uuid s T = Some sel ->
     In (sel_opponent sel) aiOpponents /\
     (suitable <> [] -> inWindow_double ai_skillLevel T s (sel_opponent sel)) /\
     sel_matchId sel = uuid /\
     sel_actualSkillLevel sel =
       Math_max (double_of_Q 1)
         (Math_min (double_of_Q 10)
            (dadd (double_of_Q (ai_skillLevel (sel_opponent sel)))
                  (dmul (dsub (double_of_Q rndSkill) (double_of_Q 0.5))
                        (double_of_Q 0.6)))) /\
     SFleb (double_of_Q 1) (sel_actualSkillLevel sel) = true /\
     SFleb (sel_actualSkillLevel sel) (double_of_Q 10) = true).
Proof.
  cbv zeta.
  change (List.filter (fun o => SFleb (dist_double ai_skillLevel s o) (double_of_Q T))
                      aiOpponents)
    with (List.filter (withinThreshold ai_skillLevel T s) aiOpponents).
  unfold selectOpponent. cbv zeta.
  remember (List.filter (withinThreshold ai_skillLevel T s) aiOpponents) as suitable eqn:Es.
  symmetry in Es.
  split; [|split].
  - intros Hne. destruct suitable as [|o1 rest]; [done|].
    replace (0 <? length (o1 :: rest))%nat with true by reflexivity.
    destruct (Math_floor _) as [i|]; [|reflexivity].
    unfold js_index. destruct (i <? 0); [reflexivity|].
    by destruct ((o1 :: rest) !! Z.to_nat i).
  - intros ->. pose proof (double_of_Q_not_nan s) as Hs. cbn [length Nat.ltb Nat.leb].
    destruct (reduce1_closerOf_roster s Hs) as (o & -> & Hin & HA).
    eexists. split; [reflexivity|]. cbn [sel_opponent]. by apply HA.
  - intros sel Hsel.
    assert (exists o, sel = {| sel_opponent := o;
                               sel_actualSkillLevel :=
                                 randomizeSkillLevel rndSkill (ai_skillLevel o);
                               sel_matchId := uuid |} /\
                      In o aiOpponents /\
                      (suitable <> [] -> inWindow_double ai_skillLevel T s o))
      as (o & -> & Hin & Hw).
    { destruct suitable as [|o1 rest].
      - cbn [length Nat.ltb Nat.leb] in Hsel.
        destruct (reduce1 _ _) as [o|] eqn:E; [|discriminate].
        injection Hsel as <-. exists o. split; [reflexivity|]. split; [|done].
        destruct (fold_left_In_roster s o E) as [n Hn]. apply list_elem_of_In.
        by eapply list_elem_of_lookup_2.
      - replace (0 <? length (o1 :: rest))%nat with true in Hsel by reflexivity.
        destruct (Math_floor _) as [i|]; [|discriminate].
        destruct (js_index (o1 :: rest) i) as [o|] eqn:E; [|discriminate].
        injection Hsel as <-. exists o. split; [reflexivity|].
        apply js_index_In in E as [n Hn]. rewrite <- Es in Hn.
        apply filter_In_roster in Hn as [Hin Hw]. split; [exact Hin|].
        intros _. by apply withinThreshold_iff. }
    cbn [sel_opponent sel_actualSkillLevel sel_matchId].
    split; [exact Hin|]. split; [exact Hw|]. split; [reflexivity|].
    split; [reflexivity|].
    apply randomizeSkillLevel_between_1_and_10; [exact Hin|apply double_of_Q_not_nan].
Qed.

(** At skill 8.3 and threshold 1.5 four roster opponents are within the
    threshold in doubles (8.3 - 6.8 is more than 1.5 there), and the draw
    0.5 picks the third of them, Bot Morgan. *)
Example selectOpponent_at_8_3 :
  ai_id <$> List.filter (withinThreshold ai_skillLevel 1.5 8.3) aiOpponents
    = ["ai_1"; "ai_3"; "ai_5"; "ai_7"] /\
  sel_opponent <$> selectOpponent 0.5 0.25 "u" 8.3 1.5 = Some ai_5.
Proof. vm_compute. done. Qed.

(** The largest draw, 1 - 2^-53, picks the last opponent of the window. *)
Example selectOpponent_largest_draw :
  ai_id ∘ sel_opponent <$>
    selectOpponent (9007199254740991 # 9007199254740992) 0.25 "u" 7 1.5 = Some "ai_8".
Proof. vm_compute. reflexivity. Qed.

(** The effective skill can be more than 0.3 away from the base skill: for
    the base 8.0 and the draw 1 - 2^-53 it is the double
    8.300000000000000710542735760100185871124267578125. *)
Example effective_skill_more_than_0_3_from_base :
  let actual := randomizeSkillLevel (9007199254740991 # 9007199254740992) 8.0 in
  actual = S754_finite false 4672484613396890 (-49) /\
  Q_of_double actual = Some (2336242306698445 # 281474976710656)%Q /\
  (0.3 < (2336242306698445 # 281474976710656) - 8)%Q /\
  SFltb (double_of_Q 0.3) (SFabs (dsub actual (double_of_Q 8.0))) = true.
Proof. vm_compute. done. Qed.

(** The theorem above at skill 8.3 and threshold 1.5, where the window is
    not empty: the opponent returned is the one at the index that the draw
    0.5 gives. *)
Lemma selectOpponent_spec_witness :
  sel_opponent <$> selectOpponent 0.5 0.25 "u" 8.3 1.5 =
    match Math_floor
            (dmul (double_of_Q 0.5)
                  (double_of_Z (Z.of_nat (length
                     (List.filter
                        (fun o => SFleb (dist_double ai_skillLevel 8.3 o) (double_of_Q 1.5))
                        aiOpponents))))) with
    | Some i =>
        if i <? 0 then None
        else List.filter
               (fun o => SFleb (dist_double ai_skillLevel 8.3 o) (double_of_Q 1.5))
               aiOpponents !! Z.to_nat i
    | None => None
    end.
Proof.
  apply (proj1 (selectOpponent_spec 0.5 0.25 "u" 8.3 1.5)).
  vm_compute. discriminate.
Defined.

(** C4, as the specification states it, fails: at skill 7 and threshold 1.5
    all eight roster opponents are within the threshold; with the draw 0.5
    [selectOpponent] picks the fifth, Bot Morgan, where Algorithm A returns
    the first, Bot Alex (over exact numbers and over doubles alike). *)
Lemma selectOpponent_not_first :
  sel_opponent <$> selectOpponent 0.5 0.25 "u" 7 1.5 = Some ai_5 /\
  AlgorithmA ai_skillLevel 1.5 7 aiOpponents (Some ai_1) /\
  ai_5 <> ai_1 /\
  ~ AlgorithmA ai_skillLevel 1.5 7 aiOpponents
      (sel_opponent <$> selectOpponent 0.5 0.25 "u" 7 1.5) /\
  AlgorithmA_double ai_skillLevel 1.5 7 aiOpponents (Some ai_1) /\
  ~ AlgorithmA_double ai_skillLevel 1.5 7 aiOpponents
      (sel_opponent <$> selectOpponent 0.5 0.25 "u" 7 1.5).
Proof.
  assert (AlgorithmA ai_skillLevel 1.5 7 aiOpponents (Some ai_1)) as HA.
  { apply (AlgA_window ai_skillLevel 1.5 7 [] ai_1 (tail aiOpponents)); [constructor|].
    vm_compute. discriminate. }
  assert (AlgorithmA_double ai_skillLevel 1.5 7 aiOpponents (Some ai_1)) as HD.
  { apply (AlgD_window ai_skillLevel 1.5 7 [] ai_1 (tail aiOpponents)); [constructor|].
    vm_compute. reflexivity. }
  split; [vm_compute; reflexivity|]. split; [exact HA|]. split; [discriminate|].
  split; [|split; [exact HD|]].
  - intros H. pose proof (AlgorithmA_functional _ _ _ _ _ _ H HA) as E.
    vm_compute in E. discriminate.
  - intros H. pose proof (AlgorithmA_double_functional _ _ _ _ _ _ H HD) as E.
    vm_compute in E. discriminate.
Qed.

(** *** The adaptation bonus of the response model *)

(** In doubles the accuracy of the competitive personality at question 1,
    difficulty 3, with a correct opponent and no variance, is
    0.9400000000000001: a draw of 0.94 is a correct answer. *)
Example accuracy_at_the_boundary :
  adjustedAccuracy (aiSettingsFor "competitive" "fast") 1 3 (Some true) 0.5
    = S754_finite false 8466767299456533 (-53) /\
  double_of_Q 0.94 = S754_finite false 8466767299456532 (-53) /\
  isCorrect (simulateAIResponse 0.5 0.94 0.5 (aiSettingsFor "competitive" "fast")
               1 3 (Some true)) = true.
Proof. vm_compute. done. Qed.

(** C8, amended. In [simulateAIResponse] the accuracy starts from
    [baseAccuracy - (difficulty - 5) * 0.02]; then 0.05 is added exactly
    when the behaviour pattern has both [adaptToOpponent] and
    [speedIncreasesWithScore] and the opponent was correct; then come the
    slow start, the improvement over time and the random variance, in that
    order, all in doubles. So settings that lack one of the two flags get
    the same accuracy whatever the opponent did. Of the personalities of the
    table the competitive one has both flags, the analytical one adapts to
    the opponent but lacks the second flag, the collaborative one has
    neither. The accuracy the answer is drawn against is
    [Math.max(0, Math.min(1, accuracy))], between 0 and 1 when the accuracy
    is a number, and the accuracy returned is that value rounded to two
    decimals. *)
Theorem adaptation_bonus_needs_both_flags :
  (forall aiSettings q d opp rndVar,
     adjustedAccuracy aiSettings q d opp rndVar =
       let v := accuracyVariation aiSettings in
       let b := behaviorPattern aiSettings in
       let a0 := dsub (double_of_Q (baseAccuracy v))
                      (dmul (dsub (double_of_Z d) (double_of_Q 5)) (double_of_Q 0.02)) in
       let a1 := if bool_decide (adaptToOpponent b = Some true)
                    && bool_decide (speedIncreasesWithScore b = Some true)
                    && bool_decide (opp = Some true)
                 then dadd a0 (double_of_Q 0.05) else a0 in
       let a2 := if bool_decide (slowStart v = Some true) && (q <=? 3)
                 then dsub a1 (double_of_Q 0.1) else a1 in
       let a3 := if bool_decide (improvesOverTime v = Some true) && (5 <? q)
                 then dadd a2 (double_of_Q 0.05) else a2 in
       dadd a3 (dmul (dsub (double_of_Q rndVar) (double_of_Q 0.5))
                     (double_of_Q (variance v)))) /\
  (forall aiSettings q d opp rndVar,
     adaptToOpponent (behaviorPattern aiSettings) <> Some true \/
     speedIncreasesWithScore (behaviorPattern aiSettings) <> Some true ->
     adjustedAccuracy aiSettings q d opp rndVar =
     adjustedAccuracy aiSettings q d None rndVar) /\
  (forall rp,
     adaptToOpponent (behaviorPattern (aiSettingsFor "competitive" rp)) = Some true /\
     speedIncreasesWithScore (behaviorPattern (aiSettingsFor "competitive" rp)) = Some true /\
     adaptToOpponent (behaviorPattern (aiSettingsFor "analytical" rp)) = Some true /\
     speedIncreasesWithScore (behaviorPattern (aiSettingsFor "analytical" rp)) = Some false /\
     adaptToOpponent (behaviorPattern (aiSettingsFor "collaborative" rp)) = Some false /\
     speedIncreasesWithScore (behaviorPattern (aiSettingsFor "collaborative" rp))
       = Some false) /\
  (forall r1 r2 r3 aiSettings q d opp,
     let accuracy :=
       Math_max (double_of_Q 0)
                (Math_min (double_of_Q 1) (adjustedAccuracy aiSettings q d opp r1)) in
     isCorrect (simulateAIResponse r1 r2 r3 aiSettings q d opp)
       = SFltb (double_of_Q r2) accuracy /\
     resp_accuracy (simulateAIResponse r1 r2 r3 aiSettings q d opp)
       = ddiv (Math_round (dmul accuracy (double_of_Q 100))) (double_of_Q 100) /\
     (is_nan (adjustedAccuracy aiSettings q d opp r1) = false ->
      SFleb (double_of_Q 0) accuracy = true /\ SFleb accuracy (double_of_Q 1) = true)).
Proof.
  assert (forall o : option bool, flag o = bool_decide (o = Some true)) as Hflag.
  { by intros [[]|]. }
  split; [|split; [|split]].
  - intros aiSettings q d opp rndVar. unfold adjustedAccuracy. cbv zeta.
    rewrite !Hflag.
    destruct (bool_decide (adaptToOpponent _ = Some true)),
             (bool_decide (speedIncreasesWithScore _ = Some true)),
             opp as [[]|]; reflexivity.
  - intros aiSettings q d opp rndVar H. unfold adjustedAccuracy. cbv zeta.
    rewrite !Hflag.
    destruct H as [H|H]; rewrite (bool_decide_eq_false_2 _ H).
    + reflexivity.
    + destruct (bool_decide (adaptToOpponent _ = Some true)), opp as [[]|]; reflexivity.
  - intros rp. by repeat split.
  - intros r1 r2 r3 aiSettings q d opp accuracy.
    split; [reflexivity|]. split; [reflexivity|].
    intros Hnan. apply clamp_between; [vm_compute; reflexivity|exact Hnan].
Qed.

(** C8, as the specification states it, fails: the analytical personality
    adapts to the opponent, and with a correct opponent (question 4,
    difficulty 5, no variance) its accuracy is 0.88, the same as with no
    opponent answer, not 0.05 more. *)
Lemma analytical_gets_no_bonus :
  adjustedAccuracy (aiSettingsFor "analytical" "slow") 4 5 (Some true) 0.5
    = double_of_Q 0.88 /\
  adjustedAccuracy (aiSettingsFor "analytical" "slow") 4 5 None 0.5 = double_of_Q 0.88 /\
  adjustedAccuracy (aiSettingsFor "analytical" "slow") 4 5 (Some true) 0.5 <>
    dadd (adjustedAccuracy (aiSettingsFor "analytical" "slow") 4 5 None 0.5)
         (double_of_Q 0.05) /\
  adaptToOpponent (behaviorPattern (aiSettingsFor "analytical" "slow")) = Some true.
Proof.
  split; [vm_compute; reflexivity|]. split; [vm_compute; reflexivity|].
  split; [|reflexivity]. vm_compute. discriminate.
Qed.

(** ** The match store *)

Section StoreFacts.
Context {rt : JsRuntime}.

Lemma service_quiet {A : Type} (op : External -> A * External) (w : World) :
  quiet w -> service op w = (Ok (op (ext w)).1, set_ext (op (ext w)).2 w).
Proof.
  unfold quiet, service. intros ->. by destruct (op (ext w)).
Qed.

Lemma quiet_set_ext (e : External) (w : World) : quiet w -> quiet (set_ext e w).
Proof. done. Qed.

Lemma hGetAll_hSet (key : string) (fields : gmap string string) (r : Redis) :
  hGetAll key (hSet key fields r) = fields ∪ hGetAll key r.
Proof. unfold hGetAll at 1, hSet. cbn [hashes]. by rewrite lookup_insert_eq. Qed.

(** What [getMatch] reads right after [createMatch], on the store. *)
Lemma store_getMatch_createMatch (matchId : string) (matchData : JsObject)
    (clock : Z) (r : Redis) :
  store_getMatch matchId (store_createMatch matchId matchData clock r).2 =
  <["status" := "active"]>
    (<["createdAt" := Number_toString (inject_Z clock)]> (toRedisString <$> matchData))
  ∪ hGetAll (matchKeyOf matchId) r.
Proof. unfold store_getMatch, store_createMatch. cbn [snd]. apply hGetAll_hSet. Qed.

Lemma createMatch_then_getMatch (matchId : string) (matchData : JsObject) (w : World) :
  quiet w ->
  exists w1 w2,
    createMatch matchId matchData w = (Ok true, w1) /\
    getMatch matchId w1 =
      (Ok (<["status" := "active"]>
             (<["createdAt" := Number_toString (inject_Z (now (ext w)))]>
                (toRedisString <$> matchData))
           ∪ hGetAll (matchKeyOf matchId) (redis (ext w))), w2).
Proof.
  intros Hq. unfold createMatch, getMatch.
  rewrite (service_quiet _ w Hq).
  eexists _, _. split; [reflexivity|].
  rewrite service_quiet; [|by apply quiet_set_ext].
  unfold on_redis. cbn [ext set_ext redis set_redis fst snd now].
  f_equal. f_equal.
  rewrite <- store_getMatch_createMatch. reflexivity.
Qed.

(** C10. With no other task in between, [getMatch] right after
    [createMatch] returns status "active" and a [createdAt] that is the clock
    of the call, whatever status the match data gave. *)
Theorem createMatch_forces_active_status (matchId : string) (matchData : JsObject)
    (w : World) :
  quiet w ->
  exists w1 h w2,
    createMatch matchId matchData w = (Ok true, w1) /\
    getMatch matchId w1 = (Ok h, w2) /\
    h !! "status" = Some "active" /\
    h !! "createdAt" = Some (Number_toString (inject_Z (now (ext w)))).
Proof.
  intros Hq. destruct (createMatch_then_getMatch matchId matchData w Hq)
    as (w1 & w2 & Hc & Hg).
  eexists w1, _, w2. split; [exact Hc|]. split; [exact Hg|]. split.
  - apply lookup_union_Some_l. apply lookup_insert_eq.
  - apply lookup_union_Some_l. rewrite lookup_insert_ne by done. apply lookup_insert_eq.
Qed.

(** C7, amended. With no other task in between, [getMatch] right after
    [createMatch] returns, for each of [id], [participant1_id],
    [participant2_id], [round_number] and [isAI] that the match data has,
    the text the store keeps for the input value: a string as it is, [null]
    and [undefined] as the empty string, a boolean as "true" or "false", a
    number as its text. *)
Theorem createMatch_getMatch_renders_fields (matchId : string) (matchData : JsObject)
    (w : World) :
  quiet w ->
  exists w1 h w2,
    createMatch matchId matchData w = (Ok true, w1) /\
    getMatch matchId w1 = (Ok h, w2) /\
    (forall k v,
       k ∈ ["id"; "participant1_id"; "participant2_id"; "round_number"; "isAI"] ->
       matchData !! k = Some v -> h !! k = Some (toRedisString v)) /\
    (forall s, toRedisString (JStr s) = s) /\
    toRedisString JNull = EmptyString /\
    toRedisString JUndefined = EmptyString /\
    (forall b, toRedisString (JBool b) = if b then "true" else "false") /\
    (forall q, toRedisString (JNum q) = Number_toString q).
Proof.
  intros Hq. destruct (createMatch_then_getMatch matchId matchData w Hq)
    as (w1 & w2 & Hc & Hg).
  eexists w1, _, w2. split; [exact Hc|]. split; [exact Hg|].
  split; [|repeat split].
  intros k v Hk Hv. apply lookup_union_Some_l.
  assert (k <> "status" /\ k <> "createdAt") as [H1 H2].
  { repeat (apply elem_of_cons in Hk as [->|Hk]; [by split|]). by apply elem_of_nil in Hk. }
  rewrite !lookup_insert_ne by done. by rewrite lookup_fmap, Hv.
Qed.
End StoreFacts.

Lemma quiet_world0 : quiet world0.
Proof. reflexivity. Qed.

(** The theorem above for an AI match whose data says "completed". *)
Lemma createMatch_forces_active_status_witness :
  exists w1 h w2,
    createMatch "m1" sample_ai_match world0 = (Ok true, w1) /\
    getMatch "m1" w1 = (Ok h, w2) /\
    h !! "status" = Some "active" /\
    h !! "createdAt" = Some (Number_toString (inject_Z (now (ext world0)))).
Proof.
  exact (createMatch_forces_active_status "m1" sample_ai_match world0 quiet_world0).
Defined.

(** The theorem above for the same AI match. *)
Lemma createMatch_getMatch_renders_fields_witness :
  exists w1 h w2,
    createMatch "m1" sample_ai_match world0 = (Ok true, w1) /\
    getMatch "m1" w1 = (Ok h, w2) /\
    (forall k v,
       k ∈ ["id"; "participant1_id"; "participant2_id"; "round_number"; "isAI"] ->
       sample_ai_match !! k = Some v -> h !! k = Some (toRedisString v)) /\
    (forall s, toRedisString (JStr s) = s) /\
    toRedisString JNull = EmptyString /\
    toRedisString JUndefined = EmptyString /\
    (forall b, toRedisString (JBool b) = if b then "true" else "false") /\
    (forall q, toRedisString (JNum q) = Number_toString q).
Proof.
  exact (createMatch_getMatch_renders_fields "m1" sample_ai_match world0 quiet_world0).
Defined.

(** C7, as the specification states it, fails: for an AI match the record
    read back has [isAI = "true"] (a string, not the boolean),
    [participant2_id] the empty string (not [null]) and [round_number = "3"]
    (a string, not the number). *)
Lemma getMatch_returns_text_not_inputs :
  let h := read_back "m1" sample_ai_match world0 in
  sample_ai_match !! "isAI" = Some (JBool true) /\
  h !! "isAI" = Some "true" /\
  sample_ai_match !! "participant2_id" = Some JNull /\
  h !! "participant2_id" = Some EmptyString /\
  sample_ai_match !! "round_number" = Some (JNum 3) /\
  h !! "round_number" = Some "3" /\
  JStr <$> h !! "isAI" <> sample_ai_match !! "isAI" /\
  JStr <$> h !! "participant2_id" <> sample_ai_match !! "participant2_id" /\
  JStr <$> h !! "round_number" <> sample_ai_match !! "round_number".
Proof.
  vm_compute. repeat split; discriminate.
Qed.

(** ** The dispatcher, and a second start of a search *)

Section DispatchFacts.
Context {rt : JsRuntime}.

Lemma displayNameOf_string (clients : gmap string ClientInfo) (given : JVal) (id : string) :
  exists n, displayNameOf clients given (JStr id) = Some n.
Proof.
  unfold displayNameOf.
  destruct (truthy given); [by eexists|].
  destruct (truthy (clientName clients (JStr id))); by eexists.
Qed.

Lemma sendToParticipant_connected (clients : gmap string ClientInfo) (clock : Z)
    (pid event : string) (data : JsObject) (c : ClientInfo) :
  clients !! pid = Some c -> ci_socket c = true ->
  sendToParticipant clients clock (JStr pid) event data =
    ([ {| em_to := pid; em_event := event; em_data := data |} ],
     <[pid := {| ci_socketId := ci_socketId c; ci_socket := ci_socket c;
                 ci_name := ci_name c; ci_lastSeen := clock |}]> clients).
Proof. intros H1 H2. unfold sendToParticipant. by rewrite H1, H2. Qed.

Lemma processMatchData_human (matchData : JsObject) :
  prop matchData "isAI" = JBool false \/ prop matchData "isAI" = JStr "false" ->
  truthy (prop (processMatchData matchData) "isAI") = false /\
  forall k, k <> "isAI" ->
    processMatchData matchData !! k = matchData !! k.
Proof.
  unfold processMatchData. intros [H|H]; rewrite H.
  - split; [by rewrite H|done].
  - split.
    + unfold prop. by rewrite lookup_insert_eq.
    + intros k N. by rewrite lookup_insert_ne.
Qed.

(** C9. For a match that is not an AI match ([isAI] is [false], or the text
    "false"), whose [opponent] field is a text that parses to an object,
    with both peers connected, [notifyMatchFound] pushes [match_found] to
    participant 1 and then to participant 2. The opponent descriptor pushed
    to participant 1 is the JSON text of an object with the name and id of
    participant 2 and the [skill_level] of the parsed [opponent] field of
    the match record; the one pushed to participant 2 is the JSON text of
    an object with the name and id of participant 1 and [skill_level: 7],
    whatever the skill of participant 1 is. [myRole] is "participant1" and
    "participant2". *)
Theorem notifyMatchFound_human_views (clients : gmap string ClientInfo) (clock : Z)
    (matchData : JsObject) (a b : string) (ca cb : ClientInfo) (text : string)
    (recorded : JsObject) :
  prop matchData "isAI" = JBool false \/ prop matchData "isAI" = JStr "false" ->
  matchData !! "participant1_id" = Some (JStr a) ->
  matchData !! "participant2_id" = Some (JStr b) ->
  matchData !! "opponent" = Some (JStr text) ->
  JSON_parse text = Some (JObj recorded) ->
  clients !! a = Some ca -> ci_socket ca = true ->
  clients !! b = Some cb -> ci_socket cb = true ->
  exists d1 d2 n1 n2 clients',
    notifyMatchFound clients clock matchData =
      ([ {| em_to := a; em_event := "match_found"; em_data := d1 |};
         {| em_to := b; em_event := "match_found"; em_data := d2 |} ], clients') /\
    d1 !! "opponent" = Some (JStr (JSON_stringify (JObj (
        <["name" := n2]> (<["participant_id" := JStr b]>
          (<["skill_level" := default JUndefined (recorded !! "skill_level")]> ∅)))))) /\
    d1 !! "myRole" = Some (JStr "participant1") /\
    d2 !! "opponent" = Some (JStr (JSON_stringify (JObj (
        <["name" := n1]> (<["participant_id" := JStr a]>
          (<["skill_level" := JNum 7]> ∅)))))) /\
    d2 !! "myRole" = Some (JStr "participant2").
Proof.
  intros HAI Hp1 Hp2 Hopp Hparse Ha Hsa Hb Hsb.
  destruct (processMatchData_human matchData HAI) as [Htruthy Hsame].
  unfold notifyMatchFound. set (p := processMatchData matchData) in *.
  assert (prop p "participant1_id" = JStr a) as ->
    by (unfold prop; rewrite Hsame by done; by rewrite Hp1).
  assert (prop p "participant2_id" = JStr b) as ->
    by (unfold prop; rewrite Hsame by done; by rewrite Hp2).
  assert (skill_level_of (originalOpponentOf p)
          = Some (default JUndefined (recorded !! "skill_level"))) as ->.
  { unfold originalOpponentOf, prop. rewrite Hsame by done. rewrite Hopp.
    cbn [default id]. unfold id. by rewrite Hparse. }
  rewrite Htruthy.
  destruct (displayNameOf_string clients (prop p "participant1_name") a) as [n1 ->].
  destruct (displayNameOf_string clients (prop p "participant2_name") b) as [n2 ->].
  rewrite (sendToParticipant_connected _ _ _ _ _ ca Ha Hsa).
  assert (exists cb', <[a := {| ci_socketId := ci_socketId ca; ci_socket := ci_socket ca;
                               ci_name := ci_name ca; ci_lastSeen := clock |}]> clients !! b
                      = Some cb' /\ ci_socket cb' = true) as (cb' & Hb' & Hsb').
  { destruct (decide (a = b)) as [->|Hne].
    - rewrite lookup_insert_eq. by eexists.
    - rewrite lookup_insert_ne by done. by eexists. }
  rewrite (sendToParticipant_connected _ _ _ _ _ cb' Hb' Hsb').
  eexists _, _, n1, n2, _. split; [reflexivity|].
  repeat split.
  - rewrite !lookup_insert_ne by done. apply lookup_insert_eq.
  - rewrite lookup_insert_ne by done. apply lookup_insert_eq.
  - rewrite !lookup_insert_ne by done. apply lookup_insert_eq.
  - rewrite lookup_insert_ne by done. apply lookup_insert_eq.
Qed.
End DispatchFacts.

(** The theorem above for the match of Bob with Alice: Bob sees the skill
    6.5 that the match record holds for Alice, Alice sees 7 for Bob, whose
    skill is 7.5. *)
Lemma notifyMatchFound_human_views_witness :
  exists d1 d2 n1 n2 clients',
    notifyMatchFound sample_clients 2000 sample_human_match =
      ([ {| em_to := bob_id; em_event := "match_found"; em_data := d1 |};
         {| em_to := alice_id; em_event := "match_found"; em_data := d2 |} ], clients') /\
    d1 !! "opponent" = Some (JStr (JSON_stringify (JObj (
        <["name" := n2]> (<["participant_id" := JStr alice_id]>
          (<["skill_level" := JNum 6.5]> ∅)))))) /\
    d1 !! "myRole" = Some (JStr "participant1") /\
    d2 !! "opponent" = Some (JStr (JSON_stringify (JObj (
        <["name" := n1]> (<["participant_id" := JStr bob_id]>
          (<["skill_level" := JNum 7]> ∅)))))) /\
    d2 !! "myRole" = Some (JStr "participant2").
Proof.
  apply (notifyMatchFound_human_views sample_clients 2000 sample_human_match
           bob_id alice_id
           {| ci_socketId := "s2"; ci_socket := true; ci_name := "Bob"; ci_lastSeen := 0 |}
           {| ci_socketId := "s1"; ci_socket := true; ci_name := "Alice"; ci_lastSeen := 0 |}
           (sample_text (JObj (obj [("name", JStr "Alice"); ("participant_id", JStr alice_id);
                                    ("skill_level", JNum 6.5)])))
           (obj [("name", JStr "Alice"); ("participant_id", JStr alice_id);
                 ("skill_level", JNum 6.5)]));
    [left| | | | | | | |]; vm_compute; reflexivity.
Defined.

(** *** A second start of a search *)
Section StartFacts.
Context {rt : JsRuntime}.
Variable cfg : Config.

(** C6. When an active-search record exists for the participant,
    [startMatchmaking] returns the object [{status: 'already_searching'}]
    (that field and no other) and leaves the
    whole world as it was: the queue, the status of the participant, the
    running re-scanners and the pending timers. *)
Theorem startMatchmaking_already_searching (participantData : ParticipantData) (w : World) :
  is_Some (activeSearches (engine w) !! pd_participantId participantData) ->
  startMatchmaking cfg participantData w
    = (Ok (<["status" := JStr "already_searching"]> ∅), w).
Proof.
  intros H. unfold startMatchmaking, bind, get_world.
  by rewrite bool_decide_eq_true_2.
Qed.
End StartFacts.

(** The theorem above for a second call of Alice after her first. *)
Lemma startMatchmaking_already_searching_witness :
  startMatchmaking default_config alice (startMatchmaking default_config alice world0).2
  = (Ok (<["status" := JStr "already_searching"]> ∅),
     (startMatchmaking default_config alice world0).2).
Proof.
  apply (startMatchmaking_already_searching default_config alice
           (startMatchmaking default_config alice world0).2).
  vm_compute. eexists. reflexivity.
Defined.

(** ** What the Engine returns *)

(** *** Rules for [returns] *)

Lemma returns_ret {A : Type} (a : A) (P : A -> Prop) : P a -> returns (ret a) P.
Proof. intros H w a' w' E. injection E as <- _. exact H. Qed.

Lemma returns_throw {A : Type} (e : string) (P : A -> Prop) : returns (throw e) P.
Proof. intros w a w' E. discriminate. Qed.

Lemma returns_bind {A B : Type} (c : M A) (k : A -> M B) (P : B -> Prop) :
  (forall a, returns (k a) P) -> returns (bind c k) P.
Proof.
  intros H w b w' E. unfold bind in E.
  destruct (c w) as [[a|e] w1]; [|discriminate]. by eapply H.
Qed.

Lemma returns_bind_with {A B : Type} (c : M A) (k : A -> M B)
    (R : A -> Prop) (P : B -> Prop) :
  returns c R -> (forall a, R a -> returns (k a) P) -> returns (bind c k) P.
Proof.
  intros Hc Hk w b w' E. unfold bind in E.
  destruct (c w) as [[a|e] w1] eqn:Ec; [|discriminate].
  eapply Hk; [|exact E]. by eapply Hc.
Qed.

Lemma returns_try_catch {A : Type} (c : M A) (h : string -> M A) (P : A -> Prop) :
  returns c P -> (forall e, returns (h e) P) -> returns (try_catch c h) P.
Proof.
  intros Hc Hh w a w' E. unfold try_catch in E.
  destruct (c w) as [[a'|e] w1] eqn:Ec.
  - injection E as <- _. by eapply Hc.
  - by eapply Hh.
Qed.

Lemma returns_try_finally {A : Type} (c : M A) (f : M unit) (P : A -> Prop) :
  returns c P -> returns (try_finally c f) P.
Proof.
  intros Hc w a w' E. unfold try_finally in E.
  destruct (c w) as [r w1] eqn:Ec. destruct (f w1) as [[[]|e] w2]; [|discriminate].
  injection E as -> _. by eapply Hc.
Qed.

Ltac returns_step :=
  cbv zeta;
  lazymatch goal with
  | |- returns (ret _) _ => apply returns_ret
  | |- returns (throw _) _ => apply returns_throw
  | |- returns (try_catch _ _) _ => apply returns_try_catch; [|intros ?]
  | |- returns (try_finally _ _) _ => apply returns_try_finally
  | |- returns (bind _ _) _ => apply returns_bind; intros ?
  end.

Section EngineFacts.
Context {rt : JsRuntime}.
Variable cfg : Config.

Lemma AIOpponentService_createAIMatch_shape (rndPick rndSkill : Q) (uuidSel uuidMatch : string)
    (created : Z) (participantId : string) (roundNumber : Z) (skill : Q) (m : JsObject) :
  AIOpponentService.createAIMatch rndPick rndSkill uuidSel uuidMatch created participantId roundNumber skill
    = Some m ->
  ai_match_of participantId m /\ m !! "match_type" = Some (JStr "human_vs_ai").
Proof.
  unfold AIOpponentService.createAIMatch.
  destruct (selectOpponent _ _ _ _ _) as [sel|]; [|discriminate].
  intros E. injection E as <-. unfold ai_match_of. repeat split; vm_compute; reflexivity.
Qed.

Lemma createHumanMatch_returns (a : ParticipantData) (b : QueueEntry) :
  returns (createHumanMatch a b)
          (human_match_of (pd_participantId a) (qe_participantId b)).
Proof.
  unfold createHumanMatch.
  returns_step. returns_step; [|returns_step].
  destruct (String.eqb _ _) eqn:E; [returns_step|].
  apply String.eqb_neq in E.
  do 7 returns_step. returns_step.
  unfold human_match_of. repeat split; try (vm_compute; reflexivity). exact E.
Qed.

Lemma findImmediateMatch_returns (participantData : ParticipantData) :
  returns (findImmediateMatch cfg participantData)
          (fun r => forall m, r = Some m ->
             exists b, human_match_of (pd_participantId participantData) b m).
Proof.
  unfold findImmediateMatch.
  returns_step. returns_step; [|returns_step; discriminate].
  returns_step. destruct (negb _); [returns_step; discriminate|].
  returns_step. do 2 returns_step.
  destruct (_ =? _)%nat; [returns_step; discriminate|].
  destruct (findBestSkillMatch _ _ _) as [best|]; [|returns_step; discriminate].
  eapply returns_bind_with; [apply createHumanMatch_returns|].
  intros m Hm. returns_step. returns_step.
  intros m' E. injection E as <-. by eexists.
Qed.

Lemma createAIMatch_returns (participantData : ParticipantData) :
  returns (createAIMatch participantData)
          (fun m => ai_match_of (pd_participantId participantData) m /\
                    (m !! "match_type" = Some (JStr "human_vs_ai") \/
                     m !! "match_type" = Some (JStr "live"))).
Proof.
  unfold createAIMatch. returns_step.
  - do 7 returns_step.
    destruct (AIOpponentService.createAIMatch _ _ _ _ _ _ _ _) as [m|] eqn:E; [|returns_step].
    apply AIOpponentService_createAIMatch_shape in E as [H1 H2].
    do 4 returns_step. returns_step. split; [done|by left].
  - do 2 returns_step. returns_step.
    unfold ai_match_of. split; [|right]; repeat split; vm_compute; reflexivity.
Qed.

Lemma startMatchmaking_returns (participantData : ParticipantData) :
  returns (startMatchmaking cfg participantData)
          (fun m => m !! "isAI" = Some (JBool false) ->
             exists b, human_match_of (pd_participantId participantData) b m).
Proof.
  unfold startMatchmaking. returns_step.
  destruct (bool_decide _); [returns_step; vm_compute; discriminate|].
  returns_step.
  - do 5 returns_step.
    eapply returns_bind_with; [apply findImmediateMatch_returns|].
    intros [m|] Hm.
    + do 2 returns_step. returns_step. intros _. by apply Hm.
    + do 3 returns_step. returns_step. vm_compute. discriminate.
  - returns_step.
    intros w m w' E. apply createAIMatch_returns in E as [(_ & _ & E) _].
    rewrite E. discriminate.
Qed.

Lemma createHumanMatch_self_refused (a : ParticipantData) (b : QueueEntry) (w : World) :
  pd_participantId a = qe_participantId b ->
  exists w',
    createHumanMatch a b w = (Throw "Self-match attempted", w') /\
    ext w' = ext w /\ engine w' = engine w /\ loop w' = loop w.
Proof.
  intros E. unfold createHumanMatch, bind, uuidv4, try_catch, throw.
  rewrite E, String.eqb_refl. eexists. split; [reflexivity|]. done.
Qed.

Lemma getQueueEntries_excludes_self (queueKey participantId : string) (r : Redis) :
  str_truthy participantId = true ->
  Forall (fun entry => qe_participantId entry <> participantId)
         (store_getQueueEntries queueKey (Some participantId) r).
Proof.
  intros H. unfold store_getQueueEntries. rewrite H.
  apply List.Forall_forall. intros e He. apply filter_In in He as [_ He].
  apply negb_true_iff in He. by apply String.eqb_neq in He.
Qed.

End EngineFacts.

(** ** Invariants of the world *)

(** *** Rules for [keeps] *)

Lemma keeps_ret {A : Type} (I : World -> Prop) (a : A) : keeps I (ret a).
Proof. intros w r w' H E. by injection E as _ <-. Qed.

Lemma keeps_throw {A : Type} (I : World -> Prop) (e : string) : keeps I (@throw A e).
Proof. intros w r w' H E. by injection E as _ <-. Qed.

Lemma keeps_bind {A B : Type} (I : World -> Prop) (c : M A) (k : A -> M B) :
  keeps I c -> (forall a, keeps I (k a)) -> keeps I (bind c k).
Proof.
  intros Hc Hk w r w' H E. unfold bind in E.
  destruct (c w) as [[a|e] w1] eqn:Ec.
  - eapply Hk; [|exact E]. by eapply Hc.
  - injection E as _ <-. by eapply Hc.
Qed.

Lemma keeps_try_catch {A : Type} (I : World -> Prop) (c : M A) (h : string -> M A) :
  keeps I c -> (forall e, keeps I (h e)) -> keeps I (try_catch c h).
Proof.
  intros Hc Hh w r w' H E. unfold try_catch in E.
  destruct (c w) as [[a|e] w1] eqn:Ec.
  - injection E as _ <-. by eapply Hc.
  - eapply Hh; [|exact E]. by eapply Hc.
Qed.

Lemma keeps_try_finally {A : Type} (I : World -> Prop) (c : M A) (f : M unit) :
  keeps I c -> keeps I f -> keeps I (try_finally c f).
Proof.
  intros Hc Hf w r w' H E. unfold try_finally in E.
  destruct (c w) as [r1 w1] eqn:Ec. destruct (f w1) as [[[]|e] w2] eqn:Ef;
    injection E as _ <-; (eapply Hf; [|exact Ef]); by eapply Hc.
Qed.

Lemma keeps_promise_all2 {A B : Type} (I : World -> Prop) (a : M A) (b : M B) :
  keeps I a -> keeps I b -> keeps I (promise_all2 a b).
Proof.
  intros Ha Hb w r w' H E. unfold promise_all2 in E.
  destruct (a w) as [ra w1] eqn:Ea. destruct (b w1) as [rb w2] eqn:Eb.
  assert (I w2) by (eapply Hb; [|exact Eb]; by eapply Ha).
  destruct ra, rb; by injection E as _ <-.
Qed.

Lemma keeps_quiet_service {A : Type} (op : External -> A * External) :
  keeps quiet (service op).
Proof.
  intros w r w' H E. rewrite (service_quiet op w H) in E. by injection E as _ <-.
Qed.

Lemma keeps_quiet_unchanged_sched {A : Type} (c : M A) :
  (forall w, sched (c w).2 = sched w) -> keeps quiet c.
Proof.
  intros H w r w' Hq E. unfold quiet. specialize (H w). rewrite E in H.
  cbn in H. by rewrite H.
Qed.

Ltac keeps_quiet_step :=
  cbv zeta;
  lazymatch goal with
  | |- keeps _ (ret _) => apply keeps_ret
  | |- keeps _ (throw _) => apply keeps_throw
  | |- keeps _ (bind _ _) => apply keeps_bind; [|intros ?]
  | |- keeps _ (try_catch _ _) => apply keeps_try_catch; [|intros ?]
  | |- keeps _ (try_finally _ _) => apply keeps_try_finally
  | |- keeps _ (promise_all2 _ _) => apply keeps_promise_all2
  | |- keeps _ (service _) => apply keeps_quiet_service
  | |- keeps _ (if ?b then _ else _) => destruct b
  | |- keeps _ (match ?x with _ => _ end) => destruct x
  | |- keeps quiet _ => apply keeps_quiet_unchanged_sched; reflexivity
  end.

Section RaceFacts.
Context {rt : JsRuntime}.
Variable cfg : Config.

Lemma createHumanMatch_keeps_quiet (a : ParticipantData) (b : QueueEntry) :
  keeps quiet (createHumanMatch a b).
Proof.
  unfold createHumanMatch, createMatch, createTournamentMatch, setParticipantStatus,
    removeFromQueue, incrementMatchStats, getParticipant.
  repeat keeps_quiet_step.
Qed.

Lemma findImmediateMatch_keeps_quiet (participantData : ParticipantData) :
  keeps quiet (findImmediateMatch cfg participantData).
Proof.
  unfold findImmediateMatch, acquireLock, releaseLock, getQueueEntries.
  repeat first [apply createHumanMatch_keeps_quiet | keeps_quiet_step].
Qed.

Lemma findImmediateMatch_never_throws (participantData : ParticipantData) (w : World) :
  exists r w', findImmediateMatch cfg participantData w = (Ok r, w').
Proof.
  unfold findImmediateMatch. cbv zeta. unfold bind at 1, Date_now at 1.
  unfold try_catch at 1.
  match goal with |- context [match ?c w with _ => _ end] => destruct (c w) as [[r|e] w1] end;
    by eexists _, _.
Qed.
End RaceFacts.

(** ** The Engine with no other task *)

(** *** Runs of a call *)

Lemma bind_ok {A B : Type} (c : M A) (k : A -> M B) (w w' : World) (a : A) :
  c w = (Ok a, w') -> bind c k w = k a w'.
Proof. intros E. unfold bind. by rewrite E. Qed.

Lemma try_catch_ok {A : Type} (c : M A) (h : string -> M A) (w w' : World) (a : A) :
  c w = (Ok a, w') -> try_catch c h w = (Ok a, w').
Proof. intros E. unfold try_catch. by rewrite E. Qed.

Lemma try_finally_ok {A : Type} (c : M A) (f : M unit) (w w' w'' : World)
    (r : Res A) (u : unit) :
  c w = (r, w') -> f w' = (Ok u, w'') -> try_finally c f w = (r, w'').
Proof. intros Ec Ef. unfold try_finally. by rewrite Ec, Ef. Qed.

(** *** Rules for [succeeds] *)

Lemma succeeds_ret {A : Type} (a : A) : succeeds (ret a).
Proof. intros w Hq. by exists a, w. Qed.

Lemma succeeds_bind {A B : Type} (c : M A) (k : A -> M B) :
  succeeds c -> (forall a, succeeds (k a)) -> succeeds (bind c k).
Proof.
  intros Hc Hk w Hq. destruct (Hc w Hq) as (a & w1 & E & Hq1).
  destruct (Hk a w1 Hq1) as (b & w2 & E2 & Hq2).
  exists b, w2. split; [|exact Hq2]. by rewrite (bind_ok _ _ _ _ _ E).
Qed.

Lemma succeeds_try_catch {A : Type} (c : M A) (h : string -> M A) :
  succeeds c -> succeeds (try_catch c h).
Proof.
  intros Hc w Hq. destruct (Hc w Hq) as (a & w1 & E & Hq1).
  exists a, w1. split; [|exact Hq1]. by apply try_catch_ok.
Qed.

Lemma succeeds_promise_all2 {A B : Type} (a : M A) (b : M B) :
  succeeds a -> succeeds b -> succeeds (promise_all2 a b).
Proof.
  intros Ha Hb w Hq. destruct (Ha w Hq) as (x & w1 & E1 & Hq1).
  destruct (Hb w1 Hq1) as (y & w2 & E2 & Hq2).
  exists (x, y), w2. split; [|exact Hq2]. unfold promise_all2. by rewrite E1, E2.
Qed.

Lemma succeeds_service {A : Type} (op : External -> A * External) :
  succeeds (service op).
Proof.
  intros w Hq. eexists _, _. split; [by apply service_quiet|]. exact Hq.
Qed.

Lemma succeeds_Date_now : succeeds Date_now.
Proof. intros w Hq. by eexists _, w. Qed.

Lemma succeeds_uuidv4 : succeeds uuidv4.
Proof. intros w Hq. eexists _, _. split; [reflexivity|exact Hq]. Qed.

Ltac succeeds_step :=
  cbv zeta;
  lazymatch goal with
  | |- succeeds (ret _) => apply succeeds_ret
  | |- succeeds (bind _ _) => apply succeeds_bind; [|intros ?]
  | |- succeeds (try_catch _ _) => apply succeeds_try_catch
  | |- succeeds (promise_all2 _ _) => apply succeeds_promise_all2
  | |- succeeds (service _) => apply succeeds_service
  | |- succeeds Date_now => apply succeeds_Date_now
  | |- succeeds uuidv4 => apply succeeds_uuidv4
  | |- succeeds (if ?b then _ else _) => destruct b
  end.

Section QuietRuns.
Context {rt : JsRuntime}.
Variable cfg : Config.

(** With two different ids and no fault of a service, [createHumanMatch]
    returns a record. *)
Lemma createHumanMatch_succeeds (a : ParticipantData) (b : QueueEntry) :
  pd_participantId a <> qe_participantId b ->
  succeeds (createHumanMatch a b).
Proof.
  intros Hne. unfold createHumanMatch.
  apply succeeds_bind; [apply succeeds_uuidv4|intros matchId].
  cbv zeta. apply succeeds_try_catch.
  rewrite (proj2 (String.eqb_neq _ _) Hne).
  unfold createMatch, createTournamentMatch, setParticipantStatus,
    removeFromQueue, incrementMatchStats, getParticipant.
  repeat succeeds_step.
Qed.

Lemma releaseLock_succeeds (lockKey lockValue : string) :
  succeeds (releaseLock lockKey lockValue).
Proof. unfold releaseLock. repeat succeeds_step. Qed.

(** On a free key and with no fault, [acquireLock] takes the lock; the
    queues stay as they are. *)
Lemma acquireLock_free (lockKey lockValue : string) (timeoutMs : Z) (w : World) :
  quiet w ->
  strings (redis (ext w)) !! lockKey = None ->
  exists w1,
    acquireLock lockKey lockValue timeoutMs w = (Ok true, w1) /\
    quiet w1 /\
    zsets (redis (ext w1)) = zsets (redis (ext w)).
Proof.
  intros Hq Hfree.
  assert (store_acquireLock lockKey lockValue (redis (ext w))
          = (true, set_strings (<[lockKey := lockValue]> (strings (redis (ext w))))
                               (redis (ext w)))) as E.
  { unfold store_acquireLock. by rewrite Hfree. }
  unfold acquireLock. eexists. split; [|split].
  - apply try_catch_ok. rewrite (service_quiet _ w Hq).
    unfold on_redis. rewrite E. reflexivity.
  - exact Hq.
  - reflexivity.
Qed.

(** With no fault, [getQueueEntries] returns the entries of the store and
    leaves the store as it is. *)
Lemma getQueueEntries_quiet (queueKey : string) (excludeParticipantId : option string)
    (w : World) :
  quiet w ->
  exists w1,
    getQueueEntries queueKey excludeParticipantId w
      = (Ok (store_getQueueEntries queueKey excludeParticipantId (redis (ext w))), w1) /\
    quiet w1 /\
    redis (ext w1) = redis (ext w).
Proof.
  intros Hq. unfold getQueueEntries. eexists. split; [|split].
  - rewrite (service_quiet _ w Hq). reflexivity.
  - exact Hq.
  - reflexivity.
Qed.

(** Whom [findBestSkillMatch] returns is one of the candidates. *)
Lemma findBestSkillMatch_In (s : Q) (l : list QueueEntry) (best : QueueEntry) :
  findBestSkillMatch cfg s l = Some best -> In best l.
Proof.
  unfold findBestSkillMatch.
  destruct (length l =? 0)%nat; [discriminate|].
  destruct (length (List.filter _ l) =? 0)%nat.
  - destruct l as [|x rest]; [discriminate|]. cbn [reduce1]. intros E. injection E as <-.
    assert (forall (l : list QueueEntry) (x : QueueEntry),
              In (fold_left (closerOf qe_skillLevel s) l x) (x :: l)) as H.
    { induction l as [|y l IH]; intros x'; [by left|].
      cbn [fold_left]. destruct (IH (closerOf qe_skillLevel s x' y)) as [E|E].
      - rewrite <- E. rewrite closerOf_eq. destruct (SFltb _ _); [right; by left|by left].
      - right. by right. }
    apply H.
  - destruct (List.filter _ l) as [|x rest] eqn:E; [discriminate|].
    cbn [head]. intros E'. injection E' as <-.
    assert (In x (List.filter (withinThreshold qe_skillLevel (skillMatchingThreshold cfg) s) l))
      as Hin by (rewrite E; by left).
    by apply filter_In in Hin as [Hin _].
Qed.

(** The selection of [findImmediateMatch]. With the round lock free, no
    fault and no other task, [findImmediateMatch] selects with
    [findBestSkillMatch] among the entries of the round queue of the others:
    the entries of the searching participant (whose id is not empty) are
    left out before the selection. *)
Lemma findImmediateMatch_selects_among_the_others (pd : ParticipantData) (w : World) :
  quiet w ->
  strings (redis (ext w)) !! lockKeyOf (pd_roundNumber pd) = None ->
  str_truthy (pd_participantId pd) = true ->
  match findBestSkillMatch cfg (pd_skillLevel pd)
          (List.filter
             (fun entry => negb (String.eqb (qe_participantId entry) (pd_participantId pd)))
             (zRange (queueKeyOf (pd_roundNumber pd)) (redis (ext w)))) with
  | Some best =>
      exists m w',
        findImmediateMatch cfg pd w = (Ok (Some m), w') /\
        human_match_of (pd_participantId pd) (qe_participantId best) m
  | None => exists w', findImmediateMatch cfg pd w = (Ok None, w')
  end.
Proof.
  intros Hq Hfree Hid.
  unfold findImmediateMatch. cbv zeta.
  erewrite bind_ok; [|reflexivity].
  set (lockKey := lockKeyOf (pd_roundNumber pd)) in *.
  set (queueKey := queueKeyOf (pd_roundNumber pd)).
  set (lockValue := pd_participantId pd +:+ "-" +:+ Number_toString (inject_Z (now (ext w)))).
  destruct (acquireLock_free lockKey lockValue 5000 w Hq Hfree) as (w1 & Hacq & Hq1 & Hz1).
  destruct (getQueueEntries_quiet queueKey None w1 Hq1) as (w2 & Hall & Hq2 & Hr2).
  destruct (getQueueEntries_quiet queueKey (Some (pd_participantId pd)) w2 Hq2)
    as (w3 & Hwait & Hq3 & Hr3).
  assert (store_getQueueEntries queueKey (Some (pd_participantId pd)) (redis (ext w2))
          = List.filter
              (fun entry => negb (String.eqb (qe_participantId entry) (pd_participantId pd)))
              (zRange queueKey (redis (ext w)))) as Hothers.
  { unfold store_getQueueEntries. rewrite Hid. unfold zRange. by rewrite Hr2, Hz1. }
  rewrite Hothers in Hwait.
  set (others := List.filter _ (zRange queueKey (redis (ext w)))) in *.
  assert (Forall (fun entry => qe_participantId entry <> pd_participantId pd) others)
    as Hexcl.
  { apply List.Forall_forall. intros e He. apply filter_In in He as [_ He].
    apply negb_true_iff in He. by apply String.eqb_neq in He. }
  assert (forall w', quiet w' ->
            exists w'', (run releaseLock lockKey lockValue in ret tt)%svc w' = (Ok tt, w''))
    as Hfin.
  { intros w' Hq'. destruct (releaseLock_succeeds lockKey lockValue w' Hq')
      as (b & w'' & E & _).
    exists w''. by rewrite (bind_ok _ _ _ _ _ E). }
  destruct (findBestSkillMatch cfg (pd_skillLevel pd) others) as [best|] eqn:Ebest.
  - assert (pd_participantId pd <> qe_participantId best) as Hne.
    { apply findBestSkillMatch_In in Ebest.
      rewrite List.Forall_forall in Hexcl. intros E. by apply (Hexcl best Ebest). }
    destruct (createHumanMatch_succeeds pd best Hne w3 Hq3) as (m & w4 & Hm & Hq4).
    destruct (releaseLock_succeeds lockKey lockValue w4 Hq4) as (b & w5 & Hrel & Hq5).
    destruct (Hfin w5 Hq5) as (w6 & Hfin6).
    exists m, w6. split; [|by eapply createHumanMatch_returns].
    apply try_catch_ok. erewrite bind_ok; [|exact Hacq]. cbn [negb].
    eapply try_finally_ok; [|exact Hfin6].
    erewrite bind_ok; [|exact Hall]. erewrite bind_ok; [|exact Hwait].
    destruct (length others =? 0)%nat eqn:El.
    { unfold findBestSkillMatch in Ebest. by rewrite El in Ebest. }
    rewrite Ebest. erewrite bind_ok; [|exact Hm]. erewrite bind_ok; [|exact Hrel].
    reflexivity.
  - destruct (Hfin w3 Hq3) as (w4 & Hfin4).
    exists w4. apply try_catch_ok. erewrite bind_ok; [|exact Hacq]. cbn [negb].
    eapply try_finally_ok; [|exact Hfin4].
    erewrite bind_ok; [|exact Hall]. erewrite bind_ok; [|exact Hwait].
    destruct (length others =? 0)%nat; [reflexivity|]. by rewrite Ebest.
Qed.
End QuietRuns.

(** ** What the callback is handed *)

(** *** The records handed to the callback *)

Lemma keeps_bind_with {A B : Type} (I : World -> Prop) (c : M A) (k : A -> M B)
    (R : A -> Prop) :
  returns c R -> keeps I c -> (forall a, R a -> keeps I (k a)) -> keeps I (bind c k).
Proof.
  intros Hr Hc Hk w r w' H E. unfold bind in E.
  destruct (c w) as [[a|e] w1] eqn:Ec.
  - eapply (Hk a); [by eapply Hr| |exact E]. by eapply Hc.
  - injection E as _ <-. by eapply Hc.
Qed.

Lemma keeps_delivered_unchanged {A : Type} (c : M A) :
  (forall w, delivered (loop (c w).2) = delivered (loop w)) ->
  keeps delivered_pairs_distinct c.
Proof.
  intros H w r w' Hd E. unfold delivered_pairs_distinct in *.
  specialize (H w). rewrite E in H. cbn in H. by rewrite H.
Qed.

Lemma keeps_delivered_service {A : Type} (op : External -> A * External) :
  keeps delivered_pairs_distinct (service op).
Proof.
  apply keeps_delivered_unchanged. intros w. unfold service.
  destruct (sched w) as [|[f|] rest]; [destruct (op (ext w))|destruct (op (f (ext w)))|];
    reflexivity.
Qed.

Lemma notifyCallback_keeps_delivered (m : JsObject) :
  (m !! "isAI" = Some (JBool false) -> exists a b, human_match_of a b m) ->
  keeps delivered_pairs_distinct (notifyCallback m).
Proof.
  intros Hm w r w' Hd E. unfold notifyCallback, bind, get_world, modify_loop, ret in E.
  destruct (onMatchFound (engine w)); injection E as _ <-; [|exact Hd].
  unfold delivered_pairs_distinct. cbn [loop set_loop delivered].
  apply Forall_app. split; [exact Hd|]. by constructor.
Qed.

Ltac keeps_delivered_step :=
  cbv zeta;
  lazymatch goal with
  | |- keeps _ (ret _) => apply keeps_ret
  | |- keeps _ (throw _) => apply keeps_throw
  | |- keeps _ (bind _ _) => apply keeps_bind; [|intros ?]
  | |- keeps _ (try_catch _ _) => apply keeps_try_catch; [|intros ?]
  | |- keeps _ (try_finally _ _) => apply keeps_try_finally
  | |- keeps _ (promise_all2 _ _) => apply keeps_promise_all2
  | |- keeps _ (service _) => apply keeps_delivered_service
  | |- keeps _ (if ?b then _ else _) => destruct b
  | |- keeps _ (match ?x with _ => _ end) => destruct x
  | |- keeps delivered_pairs_distinct _ => apply keeps_delivered_unchanged; reflexivity
  end.

Section DeliveredFacts.
Context {rt : JsRuntime}.
Variable cfg : Config.

Lemma createHumanMatch_keeps_delivered (a : ParticipantData) (b : QueueEntry) :
  keeps delivered_pairs_distinct (createHumanMatch a b).
Proof.
  unfold createHumanMatch, createMatch, createTournamentMatch, setParticipantStatus,
    removeFromQueue, incrementMatchStats, getParticipant.
  repeat keeps_delivered_step.
Qed.

Lemma findImmediateMatch_keeps_delivered (participantData : ParticipantData) :
  keeps delivered_pairs_distinct (findImmediateMatch cfg participantData).
Proof.
  unfold findImmediateMatch, acquireLock, releaseLock, getQueueEntries.
  repeat first [apply createHumanMatch_keeps_delivered | keeps_delivered_step].
Qed.

Lemma clearFallbackTimeout_keeps_delivered (participantId : string) :
  keeps delivered_pairs_distinct (clearFallbackTimeout participantId).
Proof.
  unfold clearFallbackTimeout, clearTimeout, matchTimeouts_delete.
  repeat keeps_delivered_step.
Qed.

Lemma createAIMatch_keeps_delivered (participantData : ParticipantData) :
  keeps delivered_pairs_distinct (createAIMatch participantData).
Proof.
  unfold createAIMatch, cleanupParticipantQueue, removeFromQueue, createMatch,
    createTournamentMatch, setParticipantStatus, incrementMatchStats.
  repeat first [apply clearFallbackTimeout_keeps_delivered | keeps_delivered_step].
Qed.

Lemma ai_match_delivery_ok (a : string) (m : JsObject) :
  ai_match_of a m ->
  m !! "isAI" = Some (JBool false) -> exists a b, human_match_of a b m.
Proof. intros (_ & _ & E) E'. rewrite E in E'. discriminate. Qed.

Lemma deliver_ai_match_keeps_delivered (participantData : ParticipantData)
    (k : JsObject -> M unit) :
  (forall m, (m !! "isAI" = Some (JBool false) -> exists a b, human_match_of a b m) ->
             keeps delivered_pairs_distinct (k m)) ->
  keeps delivered_pairs_distinct (bind (createAIMatch participantData) k).
Proof.
  intros Hk. eapply keeps_bind_with;
    [apply createAIMatch_returns|apply createAIMatch_keeps_delivered|].
  intros m [Hm _]. apply Hk. by eapply ai_match_delivery_ok.
Qed.

Ltac keeps_delivered_engine :=
  repeat first
    [ lazymatch goal with
      | |- keeps _ (bind (findImmediateMatch _ _) _) =>
          eapply keeps_bind_with;
          [apply findImmediateMatch_returns
          |apply findImmediateMatch_keeps_delivered
          |intros ? ?]
      | |- keeps _ (bind (createAIMatch _) _) =>
          apply deliver_ai_match_keeps_delivered; intros ? ?
      | |- keeps _ (createAIMatch _) => apply createAIMatch_keeps_delivered
      | |- keeps _ (clearFallbackTimeout _) => apply clearFallbackTimeout_keeps_delivered
      | H : (?m !! "isAI" = Some (JBool false) -> _) |- keeps _ (notifyCallback ?m) =>
          by apply notifyCallback_keeps_delivered
      | H : (forall m0, Some ?m = Some m0 -> _) |- keeps _ (notifyCallback ?m) =>
          apply notifyCallback_keeps_delivered; intros _;
          destruct (H m eq_refl) as [? ?]; by eexists _, _
      end
    | keeps_delivered_step ].

Lemma startMatchmaking_keeps_delivered (participantData : ParticipantData) :
  keeps delivered_pairs_distinct (startMatchmaking cfg participantData).
Proof.
  unfold startMatchmaking, activeSearches_set, activeSearches_delete, setParticipantStatus,
    cleanupParticipantQueue, removeFromQueue, joinQueue, getParticipantStatus,
    getActiveMatchForParticipant, addToQueue, incrementMatchStats,
    startContinuousSearch, setInterval, setAIFallbackTimeout, setTimeout,
    matchTimeouts_set, MatchmakingEngine.getQueuePosition, RedisService.getQueuePosition.
  keeps_delivered_engine.
Qed.

Lemma aiFallbackTask_keeps_delivered (participantData : ParticipantData) :
  keeps delivered_pairs_distinct (aiFallbackTask participantData).
Proof.
  unfold aiFallbackTask, activeSearches_delete.
  keeps_delivered_engine.
Qed.

Lemma continuousSearchTask_keeps_delivered (searchInterval : nat)
    (participantData : ParticipantData) :
  keeps delivered_pairs_distinct (continuousSearchTask cfg searchInterval participantData).
Proof.
  unfold continuousSearchTask, activeSearches_set, activeSearches_delete, clearInterval,
    getParticipantStatus, getActiveMatchForParticipant, setParticipantStatus,
    checkQueueActivity, getQueueEntries.
  keeps_delivered_engine.
Qed.
End DeliveredFacts.

(** ** No self-match, and the tags of the match records *)

Section NoSelfMatch.
Context {rt : JsRuntime}.
Variable cfg : Config.

(** C1. No match pairs a participant with themselves.
    [createHumanMatch] throws when the two ids are equal, and leaves the
    store and the sink as they were (no match record is written). Every
    record [createHumanMatch] returns has distinct participant ids; so has
    every match [findImmediateMatch] returns, and every record with
    [isAI = false] that [startMatchmaking] returns. A queue read with the
    (non-empty) id of the searching participant excluded holds no entry of
    that participant, and this is the read [findImmediateMatch] selects
    from: with the round lock free, no fault and no other task, it returns
    the match with the entry that [findBestSkillMatch] picks among the
    entries of the round queue that are not of the searching participant,
    and [null] when there is none to pick. And every record with
    [isAI = false] handed to the match-found callback, by
    [startMatchmaking], by a tick of the re-scanner or by the AI-fallback
    timer, has distinct participant ids. *)
Theorem no_self_match :
  (forall (a : ParticipantData) (b : QueueEntry) (w : World),
     pd_participantId a = qe_participantId b ->
     exists w',
       createHumanMatch a b w = (Throw "Self-match attempted", w') /\
       ext w' = ext w) /\
  (forall (a : ParticipantData) (b : QueueEntry),
     returns (createHumanMatch a b)
             (human_match_of (pd_participantId a) (qe_participantId b))) /\
  (forall participantData : ParticipantData,
     returns (findImmediateMatch cfg participantData)
             (fun r => forall m, r = Some m ->
                exists b, human_match_of (pd_participantId participantData) b m)) /\
  (forall participantData : ParticipantData,
     returns (startMatchmaking cfg participantData)
             (fun m => m !! "isAI" = Some (JBool false) ->
                exists b, human_match_of (pd_participantId participantData) b m)) /\
  (forall (queueKey participantId : string) (r : Redis),
     str_truthy participantId = true ->
     Forall (fun entry => qe_participantId entry <> participantId)
            (store_getQueueEntries queueKey (Some participantId) r)) /\
  (forall (participantData : ParticipantData) (w : World),
     quiet w ->
     strings (redis (ext w)) !! lockKeyOf (pd_roundNumber participantData) = None ->
     str_truthy (pd_participantId participantData) = true ->
     match findBestSkillMatch cfg (pd_skillLevel participantData)
             (List.filter
                (fun entry =>
                   negb (String.eqb (qe_participantId entry)
                                    (pd_participantId participantData)))
                (zRange (queueKeyOf (pd_roundNumber participantData)) (redis (ext w)))) with
     | Some best =>
         exists m w',
           findImmediateMatch cfg participantData w = (Ok (Some m), w') /\
           human_match_of (pd_participantId participantData) (qe_participantId best) m
     | None => exists w', findImmediateMatch cfg participantData w = (Ok None, w')
     end) /\
  (forall participantData : ParticipantData,
     keeps delivered_pairs_distinct (startMatchmaking cfg participantData)) /\
  (forall (searchInterval : nat) (participantData : ParticipantData),
     keeps delivered_pairs_distinct
           (continuousSearchTask cfg searchInterval participantData)) /\
  (forall participantData : ParticipantData,
     keeps delivered_pairs_distinct (aiFallbackTask participantData)).
Proof.
  split; [|split; [|split; [|split; [|split; [|split; [|split; [|split]]]]]]].
  - intros a b w H.
    destruct (createHumanMatch_self_refused a b w H) as (w' & H1 & H2 & _).
    by exists w'.
  - apply createHumanMatch_returns.
  - apply findImmediateMatch_returns.
  - apply startMatchmaking_returns.
  - apply getQueueEntries_excludes_self.
  - apply findImmediateMatch_selects_among_the_others.
  - apply startMatchmaking_keeps_delivered.
  - apply continuousSearchTask_keeps_delivered.
  - apply aiFallbackTask_keeps_delivered.
Qed.
End NoSelfMatch.

(** The theorem above at two inputs. [createHumanMatch] refuses Alice with
    a queue entry of her own id. And with Bob, then Alice, in the queue of
    round 1, [findImmediateMatch] for Bob leaves his own entry, the first of
    the queue, out and returns his match with Alice. *)
Lemma no_self_match_witness :
  (exists w',
     createHumanMatch alice (waiting_entry alice_id 7) world0
       = (Throw "Self-match attempted", w') /\
     ext w' = ext world0) /\
  (exists m w',
     findImmediateMatch default_config bob world_both_queued = (Ok (Some m), w') /\
     human_match_of bob_id alice_id m).
Proof.
  split.
  - apply (proj1 (no_self_match default_config) alice (waiting_entry alice_id 7) world0).
    reflexivity.
  - pose proof (proj1 (proj2 (proj2 (proj2 (proj2 (proj2 (no_self_match default_config))))))
                  bob world_both_queued) as H.
    destruct (findBestSkillMatch _ _ _) as [best|] eqn:E in H.
    + vm_compute in E. injection E as <-. apply H; vm_compute; reflexivity.
    + vm_compute in E. discriminate.
Defined.

(** Bob starts while Alice waits: the match returned pairs Bob, as
    participant 1, with Alice. *)
Example immediate_pairing :
  human_match_of bob_id alice_id sample_human_match.
Proof.
  unfold human_match_of. repeat split; try (vm_compute; reflexivity). discriminate.
Qed.

(** C5, at the failing input. When the store is unavailable at the
    [createMatch] call of [createAIMatch] of the Engine, the fallback match
    returned has [isAI = true] and [participant2_id = null] but the match
    type "live", the type that human matches carry; the match of the regular
    path has the match type "human_vs_ai". *)
Lemma fallback_ai_match_is_tagged_live :
  let fallback := (createAIMatch alice world_store_down).1 in
  let regular := (createAIMatch alice world0).1 in
  (field fallback "isAI" = Some (JBool true) /\
   field fallback "participant2_id" = Some JNull /\
   field fallback "match_type" = Some (JStr "live")) /\
  (field regular "isAI" = Some (JBool true) /\
   field regular "participant2_id" = Some JNull /\
   field regular "match_type" = Some (JStr "human_vs_ai")) /\
  sample_human_match !! "match_type" = Some (JStr "live") /\
  sample_human_match !! "isAI" = Some (JBool false).
Proof.
  cbv zeta. repeat split; vm_compute; reflexivity.
Qed.

(** ** A rejected queue join *)

Lemma service_interfere {A : Type} (op : External -> A * External) (w : World)
    (f : External -> External) (rest : list Event) :
  sched w = Interfere f :: rest ->
  service op w = (Ok (op (f (ext w))).1, set_sched rest (set_ext (op (f (ext w))).2 w)).
Proof. unfold service. intros ->. by destruct (op (f (ext w))). Qed.

Section RaceFacts2.
Context {rt : JsRuntime}.
Variable cfg : Config.

Lemma markMatched_status (participantId matchId : string) (e : External) :
  store_getParticipantStatus participantId (redis (markMatched participantId matchId e))
    !! "status" = Some "matched".
Proof.
  unfold markMatched, store_setParticipantStatus, store_getParticipantStatus.
  cbn [snd redis set_redis]. rewrite hGetAll_hSet.
  apply lookup_union_Some_l. rewrite lookup_union_r by done.
  rewrite lookup_insert_ne by done. apply lookup_singleton_eq.
Qed.

Lemma startMatchmaking_prelude_run (pd : ParticipantData) (w : World)
    (f0 f1 : External -> External) (rest : list Event) :
  sched w = Interfere f0 :: Interfere f1 :: rest ->
  exists w0,
    startMatchmaking_prelude pd w = (Ok tt, w0) /\
    sched w0 = rest /\
    loop w0 = loop w.
Proof.
  intros Hs. unfold startMatchmaking_prelude. cbv zeta.
  unfold Date_now at 1. unfold bind at 1.
  unfold activeSearches_set, modify_engine. unfold bind at 1.
  unfold setParticipantStatus.
  erewrite bind_ok; [|apply service_interfere; cbn [sched set_engine]; exact Hs].
  unfold cleanupParticipantQueue, removeFromQueue.
  erewrite bind_ok.
  2:{ apply try_catch_ok. erewrite bind_ok; [reflexivity|].
      apply service_interfere. reflexivity. }
  eexists. split; [reflexivity|]. split; reflexivity.
Qed.

(** What [startMatchmaking] returns, from the runs of its parts. *)
Lemma startMatchmaking_from_parts (pd : ParticipantData) (w w0 w1 w2 : World)
    (j : option QueueEntry) (r : option JsObject) :
  activeSearches (engine w) !! pd_participantId pd = None ->
  startMatchmaking_prelude pd w = (Ok tt, w0) ->
  joinQueue pd w0 = (Ok j, w1) ->
  findImmediateMatch cfg pd w1 = (Ok r, w2) ->
  startMatchmaking cfg pd w =
    match r with
    | Some m =>
        (run activeSearches_delete (pd_participantId pd) in
         run notifyCallback m in
         ret m)%svc w2
    | None =>
        try_catch
          (run startContinuousSearch pd in
           run setAIFallbackTimeout pd in
           let* queuePosition :=
             MatchmakingEngine.getQueuePosition (pd_participantId pd) (pd_roundNumber pd) in
           ret (searching_status cfg queuePosition))%svc
          (fun _ =>
             run activeSearches_delete (pd_participantId pd) in
             createAIMatch pd)%svc w2
    end.
Proof.
  intros Hnone Hpre Hjoin Hfind.
  unfold startMatchmaking. cbv zeta. unfold bind at 1, get_world at 1.
  rewrite bool_decide_eq_false_2 by (rewrite Hnone; by intros [? ?]).
  unfold startMatchmaking_prelude in Hpre. cbv zeta in Hpre.
  unfold try_catch at 1.
  revert Hpre. unfold bind at 1 2 3 4. unfold bind at 1 2 3 4.
  unfold Date_now, activeSearches_set, modify_engine. cbn beta iota.
  destruct (setParticipantStatus _ _ _ _) as [[x1|e1] wa]; [|discriminate].
  destruct (cleanupParticipantQueue _ _ wa) as [[x2|e2] wb]; [|discriminate].
  unfold ret at 1. intros Hpre. injection Hpre as ->.
  unfold bind at 1. rewrite Hjoin. unfold bind at 1. rewrite Hfind.
  destruct r as [m|].
  - unfold activeSearches_delete, modify_engine, notifyCallback, get_world,
      modify_loop, ret. unfold bind. cbn beta iota.
    match goal with |- context [if ?b then _ else _] => destruct b end; reflexivity.
  - reflexivity.
Qed.

Lemma joinQueue_rejected (pd : ParticipantData) (w0 : World) (matchId : string)
    (rest : list Event) :
  sched w0 = Interfere (markMatched (pd_participantId pd) matchId) :: rest ->
  joinQueue pd w0 =
    (Ok None,
     set_sched rest (set_ext (markMatched (pd_participantId pd) matchId (ext w0)) w0)).
Proof.
  intros Hs. unfold joinQueue. cbv zeta. apply try_catch_ok.
  unfold getParticipantStatus.
  erewrite bind_ok; [|apply service_interfere; exact Hs].
  unfold on_redis. cbn [fst snd].
  rewrite bool_decide_eq_true_2 by apply markMatched_status.
  reflexivity.
Qed.

(** X13. The other rejection: the status is not "matched" when [joinQueue] reads
    it, but is when [addToQueue] does. [addToQueue] returns [false] and adds
    nothing; [joinQueue] does not look at that result and returns the entry
    as if it were queued. *)
Lemma joinQueue_reports_entry_when_addToQueue_rejects (pd : ParticipantData) (w0 : World)
    (matchId : string) :
  store_getParticipantStatus (pd_participantId pd) (redis (ext w0)) !! "status"
    <> Some "matched" ->
  tournament_matches (db (ext w0)) = [] ->
  sched w0 = [Interfere id; Interfere id;
              Interfere (markMatched (pd_participantId pd) matchId)] ->
  exists entry w1,
    joinQueue pd w0 = (Ok (Some entry), w1) /\
    qe_participantId entry = pd_participantId pd /\
    zsets (redis (ext w1)) = zsets (redis (ext w0)).
Proof.
  intros Hstatus Hdb Hs. unfold joinQueue. cbv zeta.
  eexists _, _. split; [|split].
  - apply try_catch_ok. unfold getParticipantStatus.
    erewrite bind_ok; [|apply service_interfere; exact Hs].
    unfold on_redis. cbn [fst snd id].
    rewrite bool_decide_eq_false_2 by exact Hstatus.
    unfold getActiveMatchForParticipant.
    erewrite bind_ok; [|apply service_interfere; reflexivity].
    unfold on_db. cbn [fst snd id ext set_ext set_sched db set_redis now redis].
    rewrite Hdb. cbn [List.filter head].
    cbn [bind Date_now].
    unfold addToQueue.
    erewrite bind_ok; [|apply service_interfere; reflexivity].
    unfold on_redis, store_addToQueue.
    cbn [fst snd id ext set_ext set_sched db set_db redis now qe_participantId].
    rewrite bool_decide_eq_true_2 by apply markMatched_status.
    cbn [fst snd].
    unfold incrementMatchStats.
    erewrite bind_ok; [|apply service_quiet; reflexivity].
    reflexivity.
  - reflexivity.
  - reflexivity.
Qed.

Lemma searching_tail_run (pd : ParticipantData) (w2 : World) :
  quiet w2 ->
  exists w3 pos,
    try_catch
      (run startContinuousSearch pd in
       run setAIFallbackTimeout pd in
       let* queuePosition :=
         MatchmakingEngine.getQueuePosition (pd_participantId pd) (pd_roundNumber pd) in
       ret (searching_status cfg queuePosition))%svc
      (fun _ =>
         run activeSearches_delete (pd_participantId pd) in
         createAIMatch pd)%svc w2
    = (Ok (searching_status cfg pos), w3) /\
    intervals (loop w3) !! nextHandle (loop w2) = Some pd /\
    timeouts (loop w3) !! S (nextHandle (loop w2)) = Some pd /\
    matchTimeouts (engine w3) !! pd_participantId pd = Some (S (nextHandle (loop w2))).
Proof.
  intros Hq.
  eexists _, _. split.
  - apply try_catch_ok.
    cbn [bind ret startContinuousSearch setInterval setAIFallbackTimeout setTimeout
         matchTimeouts_set modify_engine modify_loop get_world].
    erewrite bind_ok; [reflexivity|].
    unfold MatchmakingEngine.getQueuePosition, RedisService.getQueuePosition. apply service_quiet. exact Hq.
  - cbn [loop engine set_ext set_engine set_loop intervals timeouts matchTimeouts nextHandle].
    split; [|split].
    + apply lookup_insert_eq.
    + apply lookup_insert_eq.
    + apply lookup_insert_eq.
Qed.

Lemma matched_tail_run (pd : ParticipantData) (m : JsObject) (w2 : World) :
  exists w3,
    (run activeSearches_delete (pd_participantId pd) in
     run notifyCallback m in
     ret m)%svc w2 = (Ok m, w3).
Proof.
  unfold notifyCallback, activeSearches_delete, modify_engine, get_world, modify_loop,
    bind, ret.
  cbn [engine set_engine onMatchFound].
  destruct (onMatchFound (engine w2)); by eexists.
Qed.

(** X12. When another task marks the participant matched between the defensive
    dequeue and the queue join (whatever the other tasks did before),
    [joinQueue] returns [null] and leaves the queues as they are, and
    [startMatchmaking] goes on to [findImmediateMatch]. What
    [findImmediateMatch] finds, [startMatchmaking] returns; when it finds
    nobody, [startMatchmaking] returns an object with the status
    "searching", with the re-scanner started and the AI-fallback timer
    armed. *)
Lemma startMatchmaking_after_rejected_join (pd : ParticipantData) (w : World)
    (f0 f1 : External -> External) (matchId : string) :
  activeSearches (engine w) !! pd_participantId pd = None ->
  sched w = [Interfere f0; Interfere f1;
             Interfere (markMatched (pd_participantId pd) matchId)] ->
  exists w0 w1 r w2 w3,
    startMatchmaking_prelude pd w = (Ok tt, w0) /\
    joinQueue pd w0 = (Ok None, w1) /\
    zsets (redis (ext w1)) = zsets (redis (ext w0)) /\
    store_getParticipantStatus (pd_participantId pd) (redis (ext w1)) !! "status"
      = Some "matched" /\
    findImmediateMatch cfg pd w1 = (Ok r, w2) /\
    match r with
    | Some m => startMatchmaking cfg pd w = (Ok m, w3)
    | None =>
        exists st h1 h2,
          startMatchmaking cfg pd w = (Ok st, w3) /\
          st !! "status" = Some (JStr "searching") /\
          intervals (loop w3) !! h1 = Some pd /\
          timeouts (loop w3) !! h2 = Some pd /\
          matchTimeouts (engine w3) !! pd_participantId pd = Some h2
    end.
Proof.
  intros Hnone Hs.
  destruct (startMatchmaking_prelude_run pd w _ _ _ Hs) as (w0 & Hpre & Hs0 & _).
  pose proof (joinQueue_rejected pd w0 matchId [] Hs0) as Hjoin.
  set (w1 := set_sched [] (set_ext (markMatched (pd_participantId pd) matchId (ext w0)) w0))
    in Hjoin.
  destruct (findImmediateMatch_never_throws cfg pd w1) as (r & w2 & Hfind).
  assert (quiet w2) as Hq2.
  { eapply (findImmediateMatch_keeps_quiet cfg pd w1); [reflexivity|exact Hfind]. }
  pose proof (startMatchmaking_from_parts pd w w0 w1 w2 None r Hnone Hpre Hjoin Hfind)
    as Hstart.
  destruct r as [m|].
  - destruct (matched_tail_run pd m w2) as (w3 & Hrun).
    eexists w0, w1, (Some m), w2, w3.
    split; [exact Hpre|]. split; [exact Hjoin|]. split; [reflexivity|].
    split; [apply markMatched_status|]. split; [exact Hfind|].
    by rewrite Hstart.
  - destruct (searching_tail_run pd w2 Hq2) as (w3 & pos & Hrun & H1 & H2 & H3).
    eexists w0, w1, None, w2, w3.
    split; [exact Hpre|]. split; [exact Hjoin|]. split; [reflexivity|].
    split; [apply markMatched_status|]. split; [exact Hfind|].
    eexists (searching_status cfg pos), _, _. rewrite Hstart.
    split; [exact Hrun|]. split; [reflexivity|]. by split.
Qed.
End RaceFacts2.

(** C3, at the failing input. Bob starts a search while Alice waits in the
    queue of round 1, and another task marks Bob matched, in the match
    "m-9", between his defensive dequeue and his queue join. [joinQueue]
    rejects: it returns [null], Bob is not queued and his status is
    "matched" with the match "m-9". [startMatchmaking] does not abort and
    does not return that status: it runs [findImmediateMatch], pairs Bob
    with Alice in a second match, "uuid-0", writes that match over the match
    id of his status, hands the match to the callback and returns it. With
    nobody waiting (Alice in [world_raced]) it returns an object with the
    status "searching" and the queue position -1, with the re-scanner
    (interval 0) and the AI-fallback timer (timeout 1) registered for her,
    while her status stays "matched" and the queue empty. When Bob is
    marked matched later, between the status read of [joinQueue] and that of
    [addToQueue], [addToQueue] rejects and queues nothing, [joinQueue]
    returns the entry as if it were queued, and [startMatchmaking] pairs
    Bob with Alice all the same. *)
Lemma startMatchmaking_pairs_again_after_rejected_join :
  let pre := startMatchmaking_prelude bob world_bob_raced in
  let joined := joinQueue bob pre.2 in
  let result := startMatchmaking default_config bob world_bob_raced in
  let alone := startMatchmaking default_config alice world_raced in
  let joined_late := joinQueue bob (startMatchmaking_prelude bob world_bob_raced_late).2 in
  let late := startMatchmaking default_config bob world_bob_raced_late in
  (pre.1 = Ok tt /\
   joined.1 = Ok None /\
   List.map qe_participantId (zRange (queueKeyOf 1) (redis (ext joined.2))) = [alice_id] /\
   store_getParticipantStatus bob_id (redis (ext joined.2)) !! "status" = Some "matched" /\
   store_getParticipantStatus bob_id (redis (ext joined.2)) !! "matchId" = Some "m-9") /\
  (field result.1 "id" = Some (JStr "uuid-0") /\
   field result.1 "participant1_id" = Some (JStr bob_id) /\
   field result.1 "participant2_id" = Some (JStr alice_id) /\
   field result.1 "isAI" = Some (JBool false) /\
   field result.1 "status" = Some (JStr "active") /\
   store_getParticipantStatus bob_id (redis (ext result.2)) !! "status" = Some "matched" /\
   store_getParticipantStatus bob_id (redis (ext result.2)) !! "matchId" = Some "uuid-0" /\
   store_getParticipantStatus alice_id (redis (ext result.2)) !! "matchId" = Some "uuid-0" /\
   List.map (fun m => m !! "id") (delivered (loop result.2)) = [Some (JStr "uuid-0")]) /\
  ((joinQueue alice (startMatchmaking_prelude alice world_raced).2).1 = Ok None /\
   field alone.1 "status" = Some (JStr "searching") /\
   field alone.1 "queuePosition" = Some (JNum (-1)) /\
   intervals (loop alone.2) !! 0%nat = Some alice /\
   timeouts (loop alone.2) !! 1%nat = Some alice /\
   matchTimeouts (engine alone.2) !! alice_id = Some 1%nat /\
   store_getParticipantStatus alice_id (redis (ext alone.2)) !! "status" = Some "matched" /\
   store_getParticipantStatus alice_id (redis (ext alone.2)) !! "matchId" = Some "m-9" /\
   zRange (queueKeyOf 1) (redis (ext alone.2)) = []) /\
  (match joined_late.1 with
   | Ok (Some entry) => qe_participantId entry = bob_id
   | _ => False
   end /\
   List.map qe_participantId (zRange (queueKeyOf 1) (redis (ext joined_late.2)))
     = [alice_id] /\
   store_getParticipantStatus bob_id (redis (ext joined_late.2)) !! "matchId"
     = Some "m-9" /\
   field late.1 "participant1_id" = Some (JStr bob_id) /\
   field late.1 "participant2_id" = Some (JStr alice_id) /\
   field late.1 "isAI" = Some (JBool false) /\
   store_getParticipantStatus bob_id (redis (ext late.2)) !! "matchId" = Some "uuid-0").
Proof.
  cbv zeta. split; [|split; [|split]].
  - repeat split; vm_compute; reflexivity.
  - repeat split; vm_compute; reflexivity.
  - repeat split; vm_compute; reflexivity.
  - split; [vm_compute; reflexivity|]. repeat split; vm_compute; reflexivity.
Qed.

(** The lemma X12 at Alice in [world_raced]: no search is active and the
    schedule is the one of the race. *)
Lemma startMatchmaking_after_rejected_join_witness :
  exists w0 w1 r w2 w3,
    startMatchmaking_prelude alice world_raced = (Ok tt, w0) /\
    joinQueue alice w0 = (Ok None, w1) /\
    zsets (redis (ext w1)) = zsets (redis (ext w0)) /\
    store_getParticipantStatus (pd_participantId alice) (redis (ext w1)) !! "status"
      = Some "matched" /\
    findImmediateMatch default_config alice w1 = (Ok r, w2) /\
    match r with
    | Some m => startMatchmaking default_config alice world_raced = (Ok m, w3)
    | None =>
        exists st h1 h2,
          startMatchmaking default_config alice world_raced = (Ok st, w3) /\
          st !! "status" = Some (JStr "searching") /\
          intervals (loop w3) !! h1 = Some alice /\
          timeouts (loop w3) !! h2 = Some alice /\
          matchTimeouts (engine w3) !! pd_participantId alice = Some h2
    end.
Proof.
  apply (startMatchmaking_after_rejected_join default_config alice world_raced
           id id "m-9").
  - vm_compute. reflexivity.
  - reflexivity.
Defined.


(** The lemma X13 at Bob in the world where Alice waits, when [joinQueue]
    is called with the schedule of [world_bob_raced]: Bob is marked matched
    before its third service call, the one of [addToQueue]. *)
Lemma joinQueue_reports_entry_when_addToQueue_rejects_witness :
  exists entry w1,
    joinQueue bob world_bob_raced = (Ok (Some entry), w1) /\
    qe_participantId entry = pd_participantId bob /\
    zsets (redis (ext w1)) = zsets (redis (ext world_bob_raced)).
Proof.
  apply (joinQueue_reports_entry_when_addToQueue_rejects bob world_bob_raced "m-9").
  - vm_compute. discriminate.
  - vm_compute. reflexivity.
  - reflexivity.
Defined.

(** ** The store: queues, locks, statuses and statistics *)

(** *** The round queue *)

Section QueueFacts.
Context {rt : JsRuntime}.

Lemma first_entry_split (p : string) (l : list QueueEntry) :
  Forall (fun e => qe_participantId e <> p) l \/
  exists l1 e l2, l = l1 ++ e :: l2 /\
    Forall (fun e' => qe_participantId e' <> p) l1 /\ qe_participantId e = p.
Proof.
  induction l as [|x l IH]; [left; constructor|].
  destruct (decide (qe_participantId x = p)) as [E|N].
  - right. exists [], x, l. split; [reflexivity|]. split; [constructor|exact E].
  - destruct IH as [IH|(l1 & e & l2 & -> & H1 & H2)].
    + left. by constructor.
    + right. exists (x :: l1), e, l2. split; [reflexivity|]. split; [by constructor|exact H2].
Qed.

Lemma positionFrom_absent (p : string) (l : list QueueEntry) (i : Z) :
  Forall (fun e => qe_participantId e <> p) l -> positionFrom p l i = -1.
Proof.
  intros H. revert i. induction H as [|x l Hx _ IH]; intros i; [reflexivity|].
  cbn [positionFrom]. apply String.eqb_neq in Hx. rewrite Hx. apply IH.
Qed.

Lemma positionFrom_found (p : string) (l1 : list QueueEntry) (e : QueueEntry)
    (l2 : list QueueEntry) (i : Z) :
  Forall (fun e' => qe_participantId e' <> p) l1 -> qe_participantId e = p ->
  positionFrom p (l1 ++ e :: l2) i = i + Z.of_nat (length l1) + 1.
Proof.
  intros H He. revert i. induction H as [|x l Hx _ IH]; intros i.
  - cbn [app positionFrom length]. rewrite He, String.eqb_refl. lia.
  - cbn [app positionFrom length]. apply String.eqb_neq in Hx. rewrite Hx.
    rewrite IH. lia.
Qed.

Lemma not_all_others (p : string) (l1 : list QueueEntry) (e : QueueEntry)
    (l2 : list QueueEntry) :
  qe_participantId e = p ->
  ~ Forall (fun e' => qe_participantId e' <> p) (l1 ++ e :: l2).
Proof.
  intros He H. apply Forall_app in H as [_ H]. apply Forall_cons in H as [H _]. done.
Qed.

(** X1. [getQueuePosition] returns -1 exactly when the queue holds no entry
    of the participant; otherwise it returns the 1-based rank of the
    earliest entry of the participant, a number between 1 and the size of
    the queue. *)
Theorem getQueuePosition_is_rank_of_first_entry (queueKey p : string) (r : Redis) :
  let pos := store_getQueuePosition queueKey p r in
  let queue := zRange queueKey r in
  (pos = -1 <-> Forall (fun e => qe_participantId e <> p) queue) /\
  (pos <> -1 ->
     1 <= pos <= store_getQueueSize queueKey r /\
     exists e, queue !! Z.to_nat (pos - 1) = Some e /\ qe_participantId e = p /\
       Forall (fun e' => qe_participantId e' <> p) (take (Z.to_nat (pos - 1)) queue)).
Proof.
  cbv zeta. unfold store_getQueuePosition, store_getQueueSize.
  destruct (first_entry_split p (zRange queueKey r)) as [H|(l1 & e & l2 & E & H1 & H2)].
  - rewrite (positionFrom_absent p _ 0 H). split; [done|]. intros N. by destruct N.
  - rewrite E, (positionFrom_found p l1 e l2 0 H1 H2).
    replace (Z.to_nat (0 + Z.of_nat (length l1) + 1 - 1)) with (length l1) by lia.
    split.
    + split; [lia|]. intros H. by apply not_all_others in H.
    + intros _. split.
      * rewrite length_app. cbn [length]. lia.
      * exists e. split; [by rewrite list_lookup_middle|]. split; [exact H2|].
        by rewrite take_app_length.
Qed.


Lemma zRange_zAdd_ne (key key' : string) (member : QueueEntry) (r : Redis) :
  key' <> key -> zRange key' (zAdd key member r) = zRange key' r.
Proof. intros N. unfold zRange, zAdd. cbn [zsets]. by rewrite lookup_insert_ne. Qed.

Lemma zRange_zRem (key : string) (member : QueueEntry) (r : Redis) :
  zRange key (zRem key member r) =
  List.filter (fun m => negb (bool_decide (m = member))) (zRange key r).
Proof. unfold zRange at 1, zRem. cbn [zsets]. by rewrite lookup_insert_eq. Qed.

Lemma zRange_zRem_ne (key key' : string) (member : QueueEntry) (r : Redis) :
  key' <> key -> zRange key' (zRem key member r) = zRange key' r.
Proof. intros N. unfold zRange, zRem. cbn [zsets]. by rewrite lookup_insert_ne. Qed.

Lemma filter_keeps_all {A : Type} (f : A -> bool) (l : list A) :
  Forall (fun x => f x = true) l -> List.filter f l = l.
Proof.
  induction 1 as [|x l Hx _ IH]; [reflexivity|]. cbn [List.filter]. by rewrite Hx, IH.
Qed.




Lemma filter_remove_middle (l1 : list QueueEntry) (e : QueueEntry) (l2 : list QueueEntry) :
  NoDup (l1 ++ e :: l2) ->
  List.filter (fun m => negb (bool_decide (m = e))) (l1 ++ e :: l2) = l1 ++ l2.
Proof.
  intros H. apply NoDup_app in H as (H1 & H2 & H3). apply NoDup_cons in H3 as [H3 H4].
  rewrite List.filter_app. cbn [List.filter].
  rewrite bool_decide_eq_true_2 by reflexivity. cbn [negb].
  f_equal; apply filter_keeps_all, List.Forall_forall; intros x Hx;
    apply negb_true_iff, bool_decide_eq_false; intros ->; apply list_elem_of_In in Hx.
  - apply (H2 e Hx). by left.
  - by apply H3.
Qed.

Lemma removeFirst_absent (queueKey p : string) (entries : list QueueEntry) (r : Redis) :
  Forall (fun e => qe_participantId e <> p) entries ->
  removeFirst queueKey p entries r = (false, r).
Proof.
  induction 1 as [|x l Hx _ IH]; [reflexivity|].
  cbn [removeFirst]. apply String.eqb_neq in Hx. by rewrite Hx.
Qed.

Lemma removeFirst_found (queueKey p : string) (l1 : list QueueEntry) (e : QueueEntry)
    (l2 : list QueueEntry) (r : Redis) :
  Forall (fun e' => qe_participantId e' <> p) l1 -> qe_participantId e = p ->
  removeFirst queueKey p (l1 ++ e :: l2) r = (true, zRem queueKey e r).
Proof.
  intros H He. induction H as [|x l Hx _ IH].
  - cbn [app removeFirst]. by rewrite He, String.eqb_refl.
  - cbn [app removeFirst]. apply String.eqb_neq in Hx. by rewrite Hx.
Qed.

(** X3. [removeFromQueue] removes the earliest entry of the participant and
    nothing else: it returns [false], with the store as it was, exactly
    when the queue holds no entry of the participant; otherwise that one
    entry goes, the other entries of the queue keep their order (a later
    entry of the same participant stays queued), and the other queues, the
    hashes, the counters and the locks are untouched. *)
Theorem removeFromQueue_removes_first_entry (queueKey p : string) (r : Redis) :
  NoDup (zRange queueKey r) ->
  let res := store_removeFromQueue queueKey p r in
  (res.1 = false <-> Forall (fun e => qe_participantId e <> p) (zRange queueKey r)) /\
  (res.1 = false -> res.2 = r) /\
  (forall l1 e l2,
     zRange queueKey r = l1 ++ e :: l2 ->
     Forall (fun e' => qe_participantId e' <> p) l1 -> qe_participantId e = p ->
     res.1 = true /\ zRange queueKey res.2 = l1 ++ l2) /\
  (forall key', key' <> queueKey -> zRange key' res.2 = zRange key' r) /\
  hashes res.2 = hashes r /\ counters res.2 = counters r /\ strings res.2 = strings r.
Proof.
  intros Hnd. cbv zeta. unfold store_removeFromQueue.
  destruct (first_entry_split p (zRange queueKey r)) as [H|(l1 & e & l2 & E & H1 & H2)].
  - rewrite (removeFirst_absent _ _ _ _ H). cbn [fst snd].
    split; [done|]. split; [done|]. split; [|done].
    intros l1 e l2 E H1 H2. rewrite E in H. by apply not_all_others in H.
  - rewrite E, (removeFirst_found _ _ _ _ _ _ H1 H2). cbn [fst snd].
    split; [|split; [done|split; [|split; [|done]]]].
    + split; [done|]. intros H. by apply not_all_others in H.
    + intros l1' e' l2' E' H1' H2'. split; [reflexivity|].
      rewrite zRange_zRem, E. rewrite E in Hnd.
      rewrite (filter_remove_middle _ _ _ Hnd).
      assert (l1 = l1' /\ e = e' /\ l2 = l2') as (-> & _ & ->); [|reflexivity].
      destruct (app_cons_cases _ _ _ _ _ _ E') as [K|[(m & -> & ->)|(m & -> & ->)]];
        [done| |].
      * apply Forall_app in H1' as [_ H1']. apply Forall_cons in H1' as [N _]. done.
      * apply Forall_app in H1 as [_ H1]. apply Forall_cons in H1 as [N _]. done.
    + intros key' N. by apply zRange_zRem_ne.
Qed.

End QueueFacts.

(** The theorem above on a queue where Alice waits behind Bob. *)
Lemma removeFromQueue_removes_first_entry_witness :
  let r := (store_addToQueue "queue:round:1" (waiting_entry alice_id 7) 20
              (store_addToQueue "queue:round:1" (waiting_entry bob_id 6) 10 empty_redis).2).2 in
  let res := store_removeFromQueue "queue:round:1" alice_id r in
  (res.1 = false <->
     Forall (fun e => qe_participantId e <> alice_id) (zRange "queue:round:1" r)) /\
  (res.1 = false -> res.2 = r) /\
  (forall l1 e l2,
     zRange "queue:round:1" r = l1 ++ e :: l2 ->
     Forall (fun e' => qe_participantId e' <> alice_id) l1 -> qe_participantId e = alice_id ->
     res.1 = true /\ zRange "queue:round:1" res.2 = l1 ++ l2) /\
  (forall key', key' <> "queue:round:1" -> zRange key' res.2 = zRange key' r) /\
  hashes res.2 = hashes r /\ counters res.2 = counters r /\ strings res.2 = strings r.
Proof.
  apply (removeFromQueue_removes_first_entry "queue:round:1" alice_id).
  apply (bool_decide_unpack _). vm_compute. exact I.
Defined.


(** *** Keys *)

Lemma length_append (a t : string) :
  String.length (a +:+ t) = (String.length a + String.length t)%nat.
Proof. induction a as [|c a IH]; [reflexivity|]. simpl. f_equal. exact IH. Qed.

Lemma append_inj_r (t a b : string) : a +:+ t = b +:+ t -> a = b.
Proof.
  revert b. induction a as [|c a IH]; intros [|d b] E.
  - reflexivity.
  - apply (f_equal String.length) in E. rewrite !length_append in E. simpl in E. lia.
  - apply (f_equal String.length) in E. rewrite !length_append in E. simpl in E. lia.
  - simpl in E. injection E as -> E. f_equal. by apply IH.
Qed.

Lemma statusKeyOf_inj (a b : string) : statusKeyOf a = statusKeyOf b -> a = b.
Proof.
  unfold statusKeyOf. intros E. apply String.app_inj in E. by apply append_inj_r in E.
Qed.

Lemma matchKeyOf_inj (a b : string) : matchKeyOf a = matchKeyOf b -> a = b.
Proof. unfold matchKeyOf. apply String.app_inj. Qed.

Section StoreFacts2.
Context {rt : JsRuntime}.

Lemma hGetAll_hSet_ne (key key' : string) (fields : gmap string string) (r : Redis) :
  key' <> key -> hGetAll key' (hSet key fields r) = hGetAll key' r.
Proof. intros N. unfold hGetAll, hSet. cbn [hashes]. by rewrite lookup_insert_ne. Qed.

(** *** Locks *)


(** *** The status of a participant *)

(** X5. [setParticipantStatus] merges into the status hash: afterwards
    [getParticipantStatus] returns every field of [data]; [status] and
    [lastUpdated] are the status given and the clock, unless [data] has a
    field of that name, which then wins; a field written by an earlier
    call that this call does not write is still there; and the status of
    every other participant is as before. *)
Theorem setParticipantStatus_merges (participantId status : string)
    (data : gmap string string) (clock : Z) (r : Redis) :
  let r' := (store_setParticipantStatus participantId status data clock r).2 in
  let h := store_getParticipantStatus participantId r' in
  (forall k v, data !! k = Some v -> h !! k = Some v) /\
  (data !! "status" = None -> h !! "status" = Some status) /\
  (data !! "lastUpdated" = None ->
     h !! "lastUpdated" = Some (Number_toString (inject_Z clock))) /\
  (forall k, data !! k = None -> k <> "status" -> k <> "lastUpdated" ->
     h !! k = store_getParticipantStatus participantId r !! k) /\
  (forall other, other <> participantId ->
     store_getParticipantStatus other r' = store_getParticipantStatus other r).
Proof.
  cbv zeta. unfold store_setParticipantStatus, store_getParticipantStatus. cbn [snd].
  rewrite hGetAll_hSet.
  split; [|split; [|split; [|split]]].
  - intros k v H. apply lookup_union_Some_l. by apply lookup_union_Some_l.
  - intros H. apply lookup_union_Some_l. rewrite lookup_union_r by exact H.
    rewrite lookup_insert_ne by done. apply lookup_singleton_eq.
  - intros H. apply lookup_union_Some_l. rewrite lookup_union_r by exact H.
    apply lookup_insert_eq.
  - intros k H N1 N2. rewrite lookup_union_r; [reflexivity|].
    rewrite lookup_union_r by exact H.
    rewrite lookup_insert_ne by done. by apply lookup_singleton_ne.
  - intros other N. apply hGetAll_hSet_ne. intros E. by apply statusKeyOf_inj in E.
Qed.

(** *** The status of a match *)

(** X6. [updateMatchStatus] sets the [status] field and no other field of
    the match, and does not look whether the match exists: for an id with
    no match it creates a hash that holds [status] alone, so that
    [getMatch] no longer returns the empty hash for that id. The other
    matches are as before. *)
Theorem updateMatchStatus_sets_status_only (matchId status : string) (r : Redis) :
  let r' := (store_updateMatchStatus matchId status r).2 in
  (store_updateMatchStatus matchId status r).1 = true /\
  store_getMatch matchId r' = <["status" := status]> (store_getMatch matchId r) /\
  (store_getMatch matchId r = ∅ -> store_getMatch matchId r' = {[ "status" := status ]}) /\
  store_getMatch matchId r' <> ∅ /\
  (forall other, other <> matchId -> store_getMatch other r' = store_getMatch other r).
Proof.
  cbv zeta. unfold store_updateMatchStatus, store_getMatch. cbn [fst snd].
  rewrite hGetAll_hSet, <- insert_union_singleton_l.
  split; [reflexivity|]. split; [reflexivity|]. split; [|split].
  - intros ->. apply insert_empty.
  - apply insert_non_empty.
  - intros other N. apply hGetAll_hSet_ne. intros E. by apply matchKeyOf_inj in E.
Qed.

(** *** The counters of the day *)

(** X7. [incrementMatchStats] adds one to the counter of the statistic for
    the day of the clock, starting from 0 when the counter does not exist:
    [getMatchStats] at the same clock then reports the text of the old count
    plus one for it, and every other statistic as before; queues, hashes
    and locks are untouched. *)
Theorem incrementMatchStats_counts_one (statType : string) (clock : Z) (r : Redis) :
  let r' := (store_incrementMatchStats statType clock r).2 in
  let key := "stats:" +:+ before_T (Date_toISOString clock) in
  let old := default 0 (default ∅ (counters r !! key) !! statType) in
  store_getMatchStats clock r' !! statType = Some (Number_toString (inject_Z (old + 1))) /\
  (forall other, other <> statType ->
     store_getMatchStats clock r' !! other = store_getMatchStats clock r !! other) /\
  zsets r' = zsets r /\ hashes r' = hashes r /\ strings r' = strings r.
Proof.
  cbv zeta. unfold store_incrementMatchStats, store_getMatchStats, hGetAll_counters, hIncrBy.
  cbn [snd counters zsets hashes strings].
  rewrite lookup_insert_eq. cbn [default id]. unfold id.
  split; [|split; [|done]].
  - by rewrite lookup_fmap, lookup_insert_eq.
  - intros other N. by rewrite !lookup_fmap, lookup_insert_ne.
Qed.

End StoreFacts2.


(** *** The cleanup of the queues *)

Section CleanupFacts.
Context {rt : JsRuntime}.
Variable clock : Z.

Lemma filter_filter_and {A : Type} (f g : A -> bool) (l : list A) :
  List.filter f (List.filter g l) = List.filter (fun x => g x && f x) l.
Proof.
  induction l as [|x l IH]; [reflexivity|]. cbn [List.filter].
  destruct (g x); cbn [List.filter andb]; [destruct (f x)|]; by rewrite IH.
Qed.

Lemma cleanupEntries_spec (key : string) (entries : list QueueEntry) (n : Z) (r : Redis) :
  let res := cleanupEntries key clock entries n r in
  res.1 = n + Z.of_nat (length (List.filter (fun e => 300000 <? clock - qe_joinedAt e) entries)) /\
  zRange key res.2 =
    List.filter (fun m => negb (bool_decide (m ∈ List.filter (fun e => 300000 <? clock - qe_joinedAt e) entries)))
                (zRange key r) /\
  (forall key', key' <> key -> zRange key' res.2 = zRange key' r) /\
  hashes res.2 = hashes r /\ counters res.2 = counters r /\ strings res.2 = strings r.
Proof.
  cbv zeta. revert n r. induction entries as [|data rest IH]; intros n r.
  - cbn [cleanupEntries List.filter length fst snd]. split; [lia|]. split; [|done].
    symmetry. apply filter_keeps_all, List.Forall_forall. intros x _.
    apply negb_true_iff, bool_decide_eq_false. apply not_elem_of_nil.
  - cbn [cleanupEntries List.filter].
    destruct (300000 <? clock - qe_joinedAt data) eqn:E.
    + destruct (IH (n + 1) (zRem key data r)) as (H1 & H2 & H3 & H4 & H5 & H6).
      split; [rewrite H1; cbn [length]; lia|]. split; [|split; [|done]].
      * rewrite H2, zRange_zRem, filter_filter_and. apply List.filter_ext. intros m.
        destruct (decide (m = data)) as [->|N].
        -- rewrite bool_decide_eq_true_2 by reflexivity. cbn [negb andb].
           symmetry. apply negb_false_iff, bool_decide_eq_true. by left.
        -- rewrite (bool_decide_eq_false_2 (m = data)) by exact N. cbn [negb andb].
           f_equal. apply bool_decide_ext. rewrite elem_of_cons.
           split; [by right|by intros [?|?]].
      * intros key' N. rewrite H3 by exact N. by apply zRange_zRem_ne.
    + apply IH.
Qed.

Lemma cleanupEntries_snapshot (key : string) (n : Z) (r : Redis) :
  let res := cleanupEntries key clock (zRange key r) n r in
  res.1 = n + Z.of_nat (length (List.filter (fun e => 300000 <? clock - qe_joinedAt e) (zRange key r))) /\
  zRange key res.2 = List.filter (fun e => negb (300000 <? clock - qe_joinedAt e)) (zRange key r) /\
  (forall key', key' <> key -> zRange key' res.2 = zRange key' r) /\
  hashes res.2 = hashes r /\ counters res.2 = counters r /\ strings res.2 = strings r.
Proof.
  cbv zeta. destruct (cleanupEntries_spec key (zRange key r) n r) as (H1 & H2 & H3).
  split; [exact H1|]. split; [|exact H3].
  rewrite H2. apply filter_ext_in. intros m Hm. f_equal.
  destruct (300000 <? clock - qe_joinedAt m) eqn:E.
  - apply bool_decide_eq_true. apply list_elem_of_In. apply filter_In. by split.
  - apply bool_decide_eq_false. intros H. apply list_elem_of_In, filter_In in H as [_ H].
    congruence.
Qed.

Lemma cleanupKeys_spec (keys : list string) (n : Z) (r : Redis) :
  NoDup keys ->
  let res := cleanupKeys keys clock n r in
  res.1 = n + Z.of_nat (length (concat
            (List.map (fun key => List.filter (fun e => 300000 <? clock - qe_joinedAt e) (zRange key r)) keys))) /\
  (forall key, key ∈ keys ->
     zRange key res.2 = List.filter (fun e => negb (300000 <? clock - qe_joinedAt e)) (zRange key r)) /\
  (forall key, key ∉ keys -> zRange key res.2 = zRange key r) /\
  hashes res.2 = hashes r /\ counters res.2 = counters r /\ strings res.2 = strings r.
Proof.
  cbv zeta. intros Hnd. revert n r. induction Hnd as [|key keys Hnotin Hnd IH]; intros n r.
  - cbn [cleanupKeys List.map concat length fst snd]. split; [lia|]. split; [|done].
    intros key H. by apply elem_of_nil in H.
  - cbn [cleanupKeys].
    destruct (cleanupEntries_snapshot key n r) as (H1 & H2 & H3 & H4 & H5 & H6).
    destruct (cleanupEntries key clock (zRange key r) n r) as [n1 r1]. cbn [fst snd] in *.
    destruct (IH n1 r1) as (K1 & K2 & K3 & K4 & K5 & K6).
    split; [|split; [|split]].
    + rewrite K1, H1. cbn [List.map concat]. rewrite length_app.
      assert (List.map (fun key0 => List.filter (fun e => 300000 <? clock - qe_joinedAt e) (zRange key0 r1)) keys =
              List.map (fun key0 => List.filter (fun e => 300000 <? clock - qe_joinedAt e) (zRange key0 r)) keys) as ->.
      { apply map_ext_in. intros k Hk. rewrite H3; [reflexivity|].
        intros ->. apply Hnotin. by apply list_elem_of_In. }
      lia.
    + intros k Hk. apply elem_of_cons in Hk as [->|Hk].
      * rewrite K3 by exact Hnotin. exact H2.
      * rewrite K2 by exact Hk. rewrite H3; [reflexivity|]. by intros ->.
    + intros k Hk. apply not_elem_of_cons in Hk as [N Hk].
      rewrite K3 by exact Hk. by apply H3.
    + split; [congruence|]. split; congruence.
Qed.

Lemma elem_of_queue_keys (key : string) (r : Redis) :
  key ∈ queue_keys r <-> String.prefix "queue:" key = true /\ is_Some (zsets r !! key).
Proof.
  unfold queue_keys. rewrite list_elem_of_In, filter_In, <- list_elem_of_In.
  rewrite list_elem_of_fmap. split.
  - intros [[[k l] [-> H]] P]. split; [exact P|]. apply elem_of_map_to_list in H. by eexists.
  - intros [P [l H]]. split; [|exact P]. exists (key, l). split; [reflexivity|].
    by apply elem_of_map_to_list.
Qed.

Lemma NoDup_queue_keys (r : Redis) : NoDup (queue_keys r).
Proof.
  unfold queue_keys. apply NoDup_ListNoDup, List.NoDup_filter, NoDup_ListNoDup.
  apply NoDup_fst_map_to_list.
Qed.

(** X8. [cleanupExpiredQueues] removes, from every queue (the keys
    "queue:*"), the entries that joined more than five minutes (300000 ms)
    before the clock, and only those: an entry that joined exactly five
    minutes ago stays, the entries kept are in their old order, and the
    number returned is the number of entries removed. No other sorted set,
    hash, counter or lock changes. *)
Theorem cleanupExpiredQueues_drops_expired_entries (r : Redis) :
  let res := store_cleanupExpiredQueues clock r in
  (forall key, String.prefix "queue:" key = true ->
     zRange key res.2 =
       List.filter (fun e => negb (300000 <? clock - qe_joinedAt e)) (zRange key r)) /\
  (forall key, String.prefix "queue:" key = false -> zRange key res.2 = zRange key r) /\
  res.1 = Z.of_nat (length (concat
            (List.map (fun key =>
                         List.filter (fun e => 300000 <? clock - qe_joinedAt e) (zRange key r))
                      (queue_keys r)))) /\
  hashes res.2 = hashes r /\ counters res.2 = counters r /\ strings res.2 = strings r.
Proof.
  cbv zeta. unfold store_cleanupExpiredQueues.
  destruct (cleanupKeys_spec (queue_keys r) 0 r (NoDup_queue_keys r))
    as (H1 & H2 & H3 & H4).
  split; [|split; [|split; [|exact H4]]].
  - intros key P. destruct (zsets r !! key) as [l|] eqn:E.
    + apply H2. apply elem_of_queue_keys. split; [exact P|by eexists].
    + rewrite H3.
      * unfold zRange. by rewrite E.
      * rewrite elem_of_queue_keys. intros [_ [l H]]. congruence.
  - intros key P. apply H3. rewrite elem_of_queue_keys. intros [H _]. congruence.
  - rewrite H1. reflexivity.
Qed.

End CleanupFacts.

(** ** Names and the roster *)

(** *** Names *)

(** X9. [getBotName] returns "Bot " followed by one of the thirty names of
    the list, for every id (the index computed from the hash is never out
    of range, also for the empty id and for a negative hash). *)
Theorem getBotName_is_a_listed_name (participantId : string) :
  exists n, In n GENDER_NEUTRAL_BOT_NAMES /\ getBotName participantId = "Bot " +:+ n.
Proof.
  unfold getBotName. cbv zeta.
  set (hash := botNameHash (slice_last4 participantId) 0).
  assert (0 <= Z.abs hash mod Z.of_nat (length GENDER_NEUTRAL_BOT_NAMES)
          < Z.of_nat (length GENDER_NEUTRAL_BOT_NAMES)) as Hi.
  { apply Z.mod_pos_bound. cbn. lia. }
  destruct (lookup_lt_is_Some_2 GENDER_NEUTRAL_BOT_NAMES
              (Z.to_nat (Z.abs hash mod Z.of_nat (length GENDER_NEUTRAL_BOT_NAMES))))
    as [n Hn]; [lia|].
  exists n. rewrite Hn. split; [|reflexivity].
  apply list_elem_of_In. by eapply list_elem_of_lookup_2.
Qed.

Lemma first_word_split (name : string) :
  exists rest, name = first_word name +:+ rest /\
    (rest = EmptyString \/ exists r, rest = String (Ascii.ascii_of_nat 32) r).
Proof.
  induction name as [|c name (rest & E & H)].
  - exists EmptyString. split; [reflexivity|by left].
  - cbn [first_word]. destruct (Ascii.eqb c (Ascii.ascii_of_nat 32)) eqn:Ec.
    + apply Ascii.eqb_eq in Ec as ->. exists (String (Ascii.ascii_of_nat 32) name).
      split; [reflexivity|]. right. by eexists.
    + exists rest. split; [|exact H].
      change (String c name = String c (first_word name +:+ rest)). by rewrite <- E.
Qed.

Lemma first_word_no_space (name : string) :
  ~ In (Ascii.ascii_of_nat 32) (String.list_ascii_of_string (first_word name)).
Proof.
  induction name as [|c name IH]; [by intros []|].
  cbn [first_word]. destruct (Ascii.eqb c (Ascii.ascii_of_nat 32)) eqn:Ec; [by intros []|].
  cbn [String.list_ascii_of_string]. intros [->|H]; [|by apply IH].
  by rewrite Ascii.eqb_refl in Ec.
Qed.

(** X10. [getPlayerDisplayName] of a participant with a name is the part
    of the name before its first space: a prefix of the name, without a
    space, followed in the name by nothing or by a space. A name that
    starts with a space gives the empty display name. Without a name the
    display name is "Player " and the last four characters of the id. *)
Theorem getPlayerDisplayName_is_first_word (id name : string) :
  (name = EmptyString -> getPlayerDisplayName id name = "Player " +:+ slice_last4 id) /\
  (name <> EmptyString ->
     exists rest,
       name = getPlayerDisplayName id name +:+ rest /\
       (rest = EmptyString \/ exists r, rest = String (Ascii.ascii_of_nat 32) r) /\
       ~ In (Ascii.ascii_of_nat 32) (String.list_ascii_of_string (getPlayerDisplayName id name))) /\
  (forall r, getPlayerDisplayName id (String (Ascii.ascii_of_nat 32) r) = EmptyString).
Proof.
  unfold getPlayerDisplayName, str_truthy. split; [|split].
  - by intros ->.
  - intros N. apply String.eqb_neq in N. rewrite N. cbn [negb].
    destruct (first_word_split name) as (rest & E & H).
    exists rest. split; [exact E|]. split; [exact H|]. apply first_word_no_space.
  - reflexivity.
Qed.

(** *** The roster *)

(** X11. [getOpponentById] finds every opponent of the roster by its id
    (the ids of the roster are distinct), returns only roster opponents,
    and returns [null] exactly for an id that no roster opponent has. *)
Theorem getOpponentById_finds_the_roster_entry :
  (forall o, In o aiOpponents -> getOpponentById (ai_id o) = Some o) /\
  (forall aiId o, getOpponentById aiId = Some o -> In o aiOpponents /\ ai_id o = aiId) /\
  (forall aiId, getOpponentById aiId = None <->
                Forall (fun o => ai_id o <> aiId) aiOpponents).
Proof.
  split; [|split].
  - intros o H. unfold aiOpponents in H. cbn [In] in H.
    repeat (destruct H as [<-|H]; [reflexivity|]). destruct H.
  - intros aiId o H. apply find_some in H as [H1 H2]. split; [exact H1|].
    by apply String.eqb_eq.
  - intros aiId. split.
    + intros H. apply List.Forall_forall. intros o Ho.
      apply (find_none _ _ H) in Ho. by apply String.eqb_neq.
    + intros H. unfold getOpponentById.
      destruct (find _ _) as [o|] eqn:E; [|reflexivity].
      apply find_some in E as [E1 E2]. rewrite List.Forall_forall in H.
      apply H in E1. by apply String.eqb_eq in E2.
Qed.
